(** * Knowledge-Based-Agent: ingestion and retrieval-augmented query pipeline

    A shallow embedding of [src/components/query.py], [ingest.py],
    [external_ai.py], [vector_store.py], [model_loader.py] and the local
    flat-file half of [firebase_db.py].  Python functions that only read their arguments are
    Rocq functions; methods that touch the clock, the file system, the JSON
    files of the metadata store or the network run in a state-and-exception
    monad over an explicit [World].  Third-party services (the LangChain
    vector store, loaders and splitter, the chat model, hashlib, pathlib,
    requests), the operating system's answers and Python's [str.lower] are
    section variables: the theorems hold for every behaviour of theirs. *)

From Stdlib Require Import String Ascii ZArith List Bool Lia.
From stdpp Require Import base option list gmap strings pretty.

Local Open Scope string_scope.

(** ** Python values and strings *)

(** The values that metadata dictionaries and JSON records hold. *)
#[local] Set Warnings "-register-all".
Inductive pyval : Type :=
  | VNone
  | VBool (b : bool)
  | VInt (n : Z)
  | VStr (s : string)
  | VList (l : list pyval).

Abbreviation dict := (gmap string pyval).

(** [langchain_core.documents.Document]. *)
Record Document : Type := mkDocument {
  page_content : string;
  metadata : dict
}.

(** A Python call either returns or raises; [msg] is [str(e)]. *)
Inductive result (A : Type) : Type :=
  | Ok (a : A)
  | Raise (msg : string).
Arguments Ok {A} a.
Arguments Raise {A} msg.

Definition nl : string := String (ascii_of_nat 10) EmptyString.

(** [repr(v)] and [str(v)], as f-strings use them (quotes inside a string
    are not escaped here). *)
Fixpoint py_repr (v : pyval) : string :=
  match v with
  | VNone => "None"
  | VBool true => "True"
  | VBool false => "False"
  | VInt n => pretty n
  | VStr s => "'" ++ s ++ "'"
  | VList l => "[" ++ String.concat ", " (map py_repr l) ++ "]"
  end.

Definition py_str (v : pyval) : string :=
  match v with
  | VStr s => s
  | _ => py_repr v
  end.

(** [str.lower()] on the ASCII letters; other bytes are left as they are.
    It is used where the result is compared with constants that no other
    letter folds to (the file extensions and the provider names), and so
    agrees with Python's there. *)
Definition lower_ascii (c : ascii) : ascii :=
  let n := nat_of_ascii c in
  if (65 <=? n)%nat && (n <=? 90)%nat then ascii_of_nat (n + 32) else c.

Fixpoint lower (s : string) : string :=
  match s with
  | EmptyString => EmptyString
  | String c s' => String (lower_ascii c) (lower s')
  end.

(** [str.strip()]: the ASCII characters for which [str.isspace()] holds. *)
Definition is_space (c : ascii) : bool :=
  let n := nat_of_ascii c in
  ((9 <=? n)%nat && (n <=? 13)%nat) || ((28 <=? n)%nat && (n <=? 32)%nat).

Fixpoint lstrip (s : string) : string :=
  match s with
  | EmptyString => EmptyString
  | String c s' => if is_space c then lstrip s' else s
  end.

Fixpoint rstrip (s : string) : string :=
  match s with
  | EmptyString => EmptyString
  | String c s' =>
      match rstrip s' with
      | EmptyString => if is_space c then EmptyString else String c EmptyString
      | r => String c r
      end
  end.

Definition strip (s : string) : string := rstrip (lstrip s).

(** [s[:n]]. *)
Definition slice_to (n : nat) (s : string) : string := substring 0 n s.

(** [d.get(key, dflt)]. *)
Definition dict_get (d : dict) (key : string) (dflt : pyval) : pyval :=
  default dflt (d !! key).

(** Truthiness of an [Optional[str]] argument: [None] and [''] are false. *)
Definition truthy (o : option string) : bool :=
  match o with
  | None => false
  | Some EmptyString => false
  | Some _ => true
  end.

(** ** The world the pipeline runs in *)

(** What [json.load] finds in one of the two files of the local store. *)
Inductive json_file : Type :=
  | Unreadable                      (* missing file or invalid JSON *)
  | JObject (keys : list string)    (* a top-level object, not a list *)
  | JArray (items : list dict).     (* the list of records the store writes *)

Inductive json_path : Type := DocumentsFile | QueriesFile.

(** One outcome of [requests.post] on the chat-completions endpoint.
    [json] is what [response.json()] does: it raises a
    [requests.RequestException] on an undecodable body, and otherwise gives
    what [result["choices"][0]["message"]["content"]] evaluates to (a value
    or a [KeyError]) together with the reported token count. *)
Inductive http_outcome : Type :=
  | Response (status_code : nat) (text : string)
             (json : result (result pyval * Z))
  | RequestException (msg : string).

Record World : Type := mkWorld {
  clock : nat;                    (* successive readings of datetime.now() *)
  fs : gmap string string;        (* regular files: path to bytes *)
  documents_json : json_file;     (* data/documents.json *)
  queries_json : json_file;       (* data/queries.json *)
  data_writable : bool;           (* whether open(file, 'w') succeeds there *)
  json_writes : nat;              (* rewrites of a JSON file so far *)
  llm_calls : list string;        (* prompts passed to llm.invoke *)
  http_posts : nat;               (* requests.post calls so far *)
  slept : list nat                (* seconds passed to time.sleep, in order *)
}.

(** ** State and exceptions *)

Definition M (A : Type) : Type := World -> result A * World.

Definition ret {A} (a : A) : M A := fun w => (Ok a, w).

Definition raise {A} (msg : string) : M A := fun w => (Raise msg, w).

Definition bind {A B} (m : M A) (k : A -> M B) : M B :=
  fun w =>
    match m w with
    | (Ok a, w') => k a w'
    | (Raise e, w') => (Raise e, w')
    end.

(** [try: body except Exception as e: handler(str(e))]; what [body] did to
    the world before raising stays done. *)
Definition try_except {A} (body : M A) (handler : string -> M A) : M A :=
  fun w =>
    match body w with
    | (Ok a, w') => (Ok a, w')
    | (Raise e, w') => handler e w'
    end.

Definition lift {A} (r : result A) : M A := fun w => (r, w).

Notation "x <~ c ; k" := (bind c (fun x => k))
  (at level 20, c at level 100, k at level 200, only parsing).

(** [datetime.now()]: reads the clock, which then moves on. *)
Definition now : M nat :=
  fun w =>
    (Ok (clock w),
     mkWorld (S (clock w)) (fs w) (documents_json w) (queries_json w)
             (data_writable w) (json_writes w) (llm_calls w) (http_posts w)
             (slept w)).

(** Field updates of the world. *)
Definition file_at (p : json_path) (w : World) : json_file :=
  match p with
  | DocumentsFile => documents_json w
  | QueriesFile => queries_json w
  end.

Definition write_json (p : json_path) (j : json_file) (w : World) : World :=
  match p with
  | DocumentsFile =>
      mkWorld (clock w) (fs w) j (queries_json w) (data_writable w)
              (S (json_writes w)) (llm_calls w) (http_posts w) (slept w)
  | QueriesFile =>
      mkWorld (clock w) (fs w) (documents_json w) j (data_writable w)
              (S (json_writes w)) (llm_calls w) (http_posts w) (slept w)
  end.

Definition set_fs (f : gmap string string) (w : World) : World :=
  mkWorld (clock w) f (documents_json w) (queries_json w) (data_writable w)
          (json_writes w) (llm_calls w) (http_posts w) (slept w).

Definition record_llm_call (prompt : string) (w : World) : World :=
  mkWorld (clock w) (fs w) (documents_json w) (queries_json w)
          (data_writable w) (json_writes w) (llm_calls w ++ [prompt])
          (http_posts w) (slept w).

Definition record_post (w : World) : World :=
  mkWorld (clock w) (fs w) (documents_json w) (queries_json w)
          (data_writable w) (json_writes w) (llm_calls w) (S (http_posts w))
          (slept w).

Definition record_sleep (secs : nat) (w : World) : World :=
  mkWorld (clock w) (fs w) (documents_json w) (queries_json w)
          (data_writable w) (json_writes w) (llm_calls w) (http_posts w)
          (slept w ++ [secs]).

(** ** Responses and results *)

(** What [llm.invoke] returns: a message object with a [content]
    attribute, a plain string, or some other object given by its [str]. *)
Inductive llm_response : Type :=
  | Message (content : pyval)
  | Text (s : string)
  | Other (str : string).

Record Citation : Type := mkCitation {
  source_number : nat;
  filename : pyval;
  chunk_index : pyval;
  category : pyval;
  upload_timestamp : pyval;
  content_preview : string
}.

(** The dictionary [QueryEngine.query] returns; keys that only some paths
    set are options. *)
Record QueryResponse : Type := mkQueryResponse {
  answer : string;
  sources : list Citation;
  query_text : string;
  timestamp : string;
  model : string;
  documents_retrieved : option nat;
  category_filter : option (option string);
  success : bool;
  error : option string
}.

(** The dictionary [process_and_store] and [process_uploaded_files] give per
    file. *)
Record IngestResult : Type := mkIngestResult {
  ing_success : bool;
  ing_filename : string;
  chunks_created : option nat;
  metadata_id : option string;
  ing_error : option string;
  message : string
}.

(** The dictionary [query_chatgpt] returns. *)
Record ChatResult : Type := mkChatResult {
  chat_success : bool;
  chat_answer : option pyval;
  chat_error : option string;
  chat_source : string;
  chat_model : option string;
  chat_timestamp : option string;
  tokens_used : option Z
}.

(** A Streamlit upload: its name and what [getbuffer()] gives. *)
Record UploadedFile : Type := mkUploadedFile {
  name : string;
  getbuffer : result string
}.

(** The value a run returned, if it returned. *)
Definition returned {A} (run : result A * World) : option A :=
  match fst run with
  | Ok a => Some a
  | Raise _ => None
  end.

(** ** Sample collaborators

    Small concrete stand-ins for the third-party services, on which the
    general statements below are exercised. *)

Definition sample_world : World :=
  mkWorld 0 ∅ (JArray []) (JArray []) true 0 [] 0 [].

Definition handbook_chunk : Document :=
  mkDocument "Employees accrue 20 days of paid leave per year."
    (list_to_map [("filename", VStr "handbook.txt");
                  ("chunk_index", VInt 0);
                  ("category", VStr "hr")]).

Definition policy_chunk : Document :=
  mkDocument "Expenses are reimbursed within 30 days."
    (list_to_map [("filename", VStr "expenses.txt");
                  ("chunk_index", VInt 3);
                  ("category", VStr "Policies")]).

(** A store that ranks its chunks the same way for every query and returns
    the first [k] of them. *)
Definition ranked_store (ranking : list Document)
  : string -> nat -> result (list Document) :=
  fun _ k => Ok (take k ranking).

Definition failing_store : string -> nat -> result (list Document) :=
  fun _ _ => Raise "Connection refused".

Definition failing_llm : string -> result llm_response :=
  fun _ => Raise "429 Too Many Requests".

(** The [UnboundLocalError] text of Python 3.11 and later. *)
Definition sample_unbound_error : string :=
  "cannot access local variable 'time' where it is not associated with a value".

(** A server that answers 429 to the first [limited] posts and 200 with a
    fixed completion afterwards. *)
Definition rate_limited_server (limited : nat)
  : nat -> string -> string -> http_outcome :=
  fun n _ _ =>
    if (n <? limited)%nat then Response 429 "rate limited" (Raise "no body")
    else Response 200 "" (Ok (Ok (VStr "Twenty days."), 42%Z)).

(** A world whose upload directory holds one text file, and collaborators
    that load it as one section, keep it as one chunk and store it. *)
Definition upload_world : World :=
  mkWorld 0 {[ "uploads/handbook.txt" := "Employees accrue 20 days." ]}
          (JArray []) (JArray []) true 0 [] 0 [].

Definition sample_loader : string -> string -> string -> result (list Document) :=
  fun _ file_path bytes => Ok [mkDocument bytes {[ "source" := VStr file_path ]}].

Definition sample_splitter : list Document -> result (list Document) :=
  fun documents => Ok documents.

Definition sample_add_documents : list Document -> result (list string) :=
  fun documents => Ok (imap (fun i _ => "vec_" ++ pretty i) documents).

Definition sample_md5 : string -> string :=
  fun _ => "9e107d9d372bb6826bd81d3542a419d6".

(** An upload whose buffer can no longer be read. *)
Definition closed_upload : UploadedFile :=
  {| name := "notes.txt";
     getbuffer := Raise "I/O operation on closed file." |}.

(** The same text as a loader gives it, and without loader metadata. *)
Definition loaded_chunk : Document :=
  mkDocument "Employees accrue 20 days."
             {[ "source" := VStr "uploads/handbook.txt" ]}.

Definition bare_chunk : Document :=
  mkDocument "Employees accrue 20 days." ∅.

(** An upload that can be read. *)
Definition sound_upload : UploadedFile :=
  {| name := "handbook.txt";
     getbuffer := Ok "Employees accrue 20 days." |}.

(** A documents file with one record. *)
Definition stored_world : World :=
  mkWorld 7 ∅
          (JArray [list_to_map [("id", VStr "doc_1_20240101_120000");
                                ("filename", VStr "handbook.txt");
                                ("total_chunks", VInt 1)]])
          (JArray []) true 1 [] 0 [].

(** ** Counting with Python dictionaries

    The statistics functions count in dictionaries keyed by whatever the
    records hold.  A dictionary is kept here as the list of its items in
    insertion order. *)

(** [hash(v)] succeeds. *)
Definition py_hashable (v : pyval) : bool :=
  match v with
  | VList _ => false
  | _ => true
  end.

Definition py_number (v : pyval) : option Z :=
  match v with
  | VBool true => Some 1%Z
  | VBool false => Some 0%Z
  | VInt n => Some n
  | _ => None
  end.

(** [a == b] on hashable values: [True == 1] and [False == 0] as in
    Python. *)
Definition py_eq (a b : pyval) : bool :=
  match a, b with
  | VNone, VNone => true
  | VStr s, VStr t => String.eqb s t
  | _, _ =>
      match py_number a, py_number b with
      | Some m, Some n => Z.eqb m n
      | _, _ => false
      end
  end.

(** [bool(v)]. *)
Definition py_truthy (v : pyval) : bool :=
  match v with
  | VNone => false
  | VBool b => b
  | VInt n => negb (Z.eqb n 0)
  | VStr s => negb (String.eqb s EmptyString)
  | VList l => match l with [] => false | _ => true end
  end.

Abbreviation counts := (list (pyval * nat)).

(** [d[key] = d.get(key, 0) + 1] on a hashable key: an equal key already
    there keeps its place and its own spelling. *)
Fixpoint bump (key : pyval) (d : counts) : counts :=
  match d with
  | [] => [(key, 1)]
  | (k, n) :: rest =>
      if py_eq k key then (k, n + 1) :: rest else (k, n) :: bump key rest
  end.

Definition count_key (key : pyval) (d : counts) : result counts :=
  if py_hashable key then Ok (bump key d)
  else Raise "unhashable type: 'list'".

(** [sorted(items, key=lambda x: x[1], reverse=True)]: by count, largest
    first; the sort is stable, so items of equal count keep their order. *)
Fixpoint insert_desc (x : pyval * nat) (l : counts) : counts :=
  match l with
  | [] => [x]
  | y :: rest =>
      if (snd x <? snd y)%nat then y :: insert_desc x rest else x :: y :: rest
  end.

Fixpoint sorted_desc (l : counts) : counts :=
  match l with
  | [] => []
  | x :: rest => insert_desc x (sorted_desc rest)
  end.

Definition total (d : counts) : nat := foldr (fun item acc => snd item + acc) 0 d.

(** [0 + v] and [acc + v] in [sum(...)]: numbers add, anything else is a
    [TypeError]. *)
Definition py_add (acc : Z) (v : pyval) : result Z :=
  match py_number v with
  | Some n => Ok (acc + n)%Z
  | None => Raise "unsupported operand type(s) for +"
  end.

(** The dictionary [get_query_stats] returns. *)
Record QueryStats : Type := mkQueryStats {
  total_queries : nat;
  categories_searched : counts;
  popular_queries : counts
}.

(** The dictionary [get_document_stats] returns. *)
Record DocumentStats : Type := mkDocumentStats {
  total_documents : nat;
  total_chunks : Z;
  categories : counts;
  file_types : counts;
  documents : json_file
}.

(** One entry of the [follow_ups] list of [query_with_followup], and what
    that method returns: the main response, with the [follow_ups] key when
    it was set. *)
Record FollowUp : Type := mkFollowUp {
  follow_up_question : string;
  follow_up_answer : string;
  follow_up_sources : list Citation
}.

Record FollowupResponse : Type := mkFollowupResponse {
  main_response : QueryResponse;
  follow_ups : option (list FollowUp)
}.

(** More sample collaborators: a model that answers, a query log holding a
    JSON object, servers that fail, and stores with two records. *)

Definition answering_llm : string -> result llm_response :=
  fun _ => Ok (Text "  Twenty days.  ").

Definition object_log_world : World :=
  mkWorld 0 ∅ (JArray []) (JObject ["version"]) true 0 [] 0 [].

Definition failing_server : nat -> string -> string -> http_outcome :=
  fun _ _ _ => Response 500 "Internal error" (Raise "no body").

(** A server that answers 429 to the first post and is unreachable for the
    second; to later posts it answers 200 when it [recovers] and stays
    unreachable when it does not. *)
Definition limited_then_down (recovers : bool)
  : nat -> string -> string -> http_outcome :=
  fun n _ _ =>
    if (n =? 0)%nat then Response 429 "rate limited" (Raise "no body")
    else if (n =? 1)%nat then RequestException "Connection reset"
    else if recovers then Response 200 "" (Ok (Ok (VStr "Twenty days."), 42%Z))
    else RequestException "Connection timed out".



(** A server that is unreachable for the first [down] posts and answers 200
    afterwards. *)
Definition unreachable_server (down : nat)
  : nat -> string -> string -> http_outcome :=
  fun n _ _ =>
    if (n <? down)%nat then RequestException "Connection reset"
    else Response 200 "" (Ok (Ok (VStr "Twenty days."), 42%Z)).

Definition handbook_record : dict :=
  list_to_map [("id", VStr "doc_1_20240101_120000");
               ("filename", VStr "handbook.txt");
               ("category", VStr "hr");
               ("file_type", VStr ".txt");
               ("total_chunks", VInt 1)].

Definition expenses_record : dict :=
  list_to_map [("id", VStr "doc_2_20240102_090000");
               ("filename", VStr "expenses.pdf");
               ("category", VStr "policies");
               ("file_type", VStr ".pdf");
               ("total_chunks", VInt 4)].

Definition two_records_world : World :=
  mkWorld 7 ∅ (JArray [handbook_record; expenses_record]) (JArray []) true 2
          [] 0 [].

Definition read_only_world : World :=
  mkWorld 7 ∅ (JArray [handbook_record; expenses_record]) (JArray []) false 2
          [] 0 [].

(** A store of one record whose ID is the one the next record will get when
    the clock reads 7 and times are printed as plain numbers: what is left
    after the first of two records was deleted. *)
Definition reused_id_world : World :=
  mkWorld 7 ∅
          (JArray [list_to_map [("id", VStr "doc_2_7");
                                ("filename", VStr "expenses.pdf")]])
          (JArray []) true 3 [] 0 [].

Definition new_upload : dict :=
  list_to_map [("filename", VStr "travel.txt"); ("total_chunks", VInt 2)].

(** A loader that finds nothing to read. *)
Definition empty_loader : string -> string -> string -> result (list Document) :=
  fun _ _ _ => Ok [].

(** The non-ASCII marks of the message templates of [external_ai.py], with
    the bytes the source file has for them. *)
Definition link_mark : string := "üîó".
Definition robot_mark : string := "ü§ñ".
Definition bullet_mark : string := "‚Ä¢".
Definition star_mark : string := "üåü".
Definition books_mark : string := "üìö".
Definition warning_mark : string := "‚ö†Ô∏è".

(** ** The other external sources *)

(** One outcome of [requests.get] on the custom-search endpoint.  [items] is
    what reading a body does: [response.json()], [results.get("items", [])]
    and the loop over the items raise, or the items are JSON objects. *)
Inductive get_outcome : Type :=
  | GetResponse (status_code : nat) (items : result (list dict))
  | GetException (msg : string).

(** One entry of [search_results]. *)
Record SearchHit : Type := mkSearchHit {
  hit_title : pyval;
  hit_snippet : pyval;
  hit_link : pyval;
  hit_source : pyval
}.

(** The dictionary [query_google_search] returns. *)
Record SearchResult : Type := mkSearchResult {
  search_success : bool;
  search_answer : option string;
  search_error : option string;
  search_source : string;
  search_results : option (list SearchHit);
  search_timestamp : option string;
  results_count : option nat
}.

(** An element of the list [query_all_sources] returns. *)
Inductive SourceResult : Type :=
  | ChatSource (r : ChatResult)
  | SearchSource (r : SearchResult).

(** The dictionary [format_multi_source_response] returns. *)
Record MultiSourceResponse : Type := mkMultiSourceResponse {
  multi_success : bool;
  multi_answer : string;
  multi_sources : list string;
  total_sources : nat;
  successful_sources : nat;
  multi_timestamp : string
}.

(** [needle in s] on strings. *)
Fixpoint contains (needle s : string) : bool :=
  String.prefix needle s
  || match s with
     | EmptyString => false
     | String _ s' => contains needle s'
     end.

(** The keys of a result dictionary, whichever source it came from. *)
Definition src_success (r : SourceResult) : bool :=
  match r with
  | ChatSource c => chat_success c
  | SearchSource s => search_success s
  end.

Definition src_source (r : SourceResult) : string :=
  match r with
  | ChatSource c => chat_source c
  | SearchSource s => search_source s
  end.

Definition src_answer (r : SourceResult) : option pyval :=
  match r with
  | ChatSource c => chat_answer c
  | SearchSource s => VStr <$> search_answer s
  end.

Definition src_error (r : SourceResult) : option string :=
  match r with
  | ChatSource c => chat_error c
  | SearchSource s => search_error s
  end.

Definition src_model (r : SourceResult) : option string :=
  match r with
  | ChatSource c => chat_model c
  | SearchSource _ => None
  end.

Definition src_tokens_used (r : SourceResult) : option Z :=
  match r with
  | ChatSource c => tokens_used c
  | SearchSource _ => None
  end.

Definition src_results_count (r : SourceResult) : option nat :=
  match r with
  | ChatSource _ => None
  | SearchSource s => results_count s
  end.

(** A server behind a gateway that is itself rate limited: it answers 503
    and says so in the body. *)
Definition gateway_server : nat -> string -> string -> http_outcome :=
  fun _ _ _ =>
    Response 503 "upstream answered 429 Too Many Requests" (Raise "no body").

(** A search endpoint that finds two pages, the second without a snippet. *)
Definition leave_page : dict :=
  list_to_map [("title", VStr "Annual leave");
               ("snippet", VStr "Employees accrue 20 days.");
               ("link", VStr "https://intranet.example/leave");
               ("displayLink", VStr "intranet.example")].

Definition holiday_page : dict :=
  list_to_map [("title", VStr "Public holidays");
               ("link", VStr "https://intranet.example/holidays");
               ("displayLink", VStr "intranet.example")].

Definition sample_search : string -> string -> string -> Z -> get_outcome :=
  fun _ _ _ _ => GetResponse 200 (Ok [leave_page; holiday_page]).

(** ** Configuration *)

(** [os.environ]. *)
Definition Env : Type := gmap string string.

(** The three classes of [model_loader.py] behind [ModelInterface]. *)
Inductive model_class : Type := OpenAIModel | ClaudeModel | GeminiModel.

(** An environment that selects Claude by its default model, and one that
    names a provider the factory does not know. *)
Definition claude_env : Env :=
  {[ "MODEL_PROVIDER" := "Claude"; "ANTHROPIC_API_KEY" := "sk-ant-test" ]}.

Definition mistral_env : Env :=
  {[ "MODEL_PROVIDER" := "mistral"; "OPENAI_API_KEY" := "sk-test";
     "MODEL_NAME" := "mistral-large" ]}.

(** A [float] that reads the two temperatures of the sample runs, in
    tenths, and a client that can always be built. *)
Definition sample_float : string -> result Z :=
  fun s =>
    if String.eqb s "0.0" then Ok 0%Z
    else if String.eqb s "0.7" then Ok 7%Z
    else Raise ("could not convert string to float: '" ++ s ++ "'").

Definition sample_client : model_class -> string -> Z -> string -> result unit :=
  fun _ _ _ _ => Ok tt.

Section Pipeline.

(** ** Third-party services *)

(** [datetime.isoformat()] and [strftime('%Y%m%d_%H%M%S')] of a clock
    reading. *)
Variable isoformat : nat -> string.
Variable strftime : nat -> string.

(** [str.lower()] as Python has it, on text of any alphabet. *)
Variable str_lower : string -> string.

(** The LangChain vector store behind [VectorStoreInterface]. *)
Variable vectorstore_similarity_search : string -> nat -> result (list Document).
Variable vectorstore_add_documents : list Document -> result (list string).

(** The chat model of the Model Provider and its configured name. *)
Variable llm : string -> result llm_response.
Variable model_name : string.

(** [hashlib.md5(content.encode()).hexdigest()]. *)
Variable md5_hexdigest : string -> string.

(** [Path(p).name], [Path(p).suffix] and [Path(p).stem]. *)
Variable path_name : string -> string.
Variable path_suffix : string -> string.
Variable path_stem : string -> string.

(** The loader chosen for an extension, applied to a path and the bytes
    found there, and [RecursiveCharacterTextSplitter.split_documents]. *)
Variable loader_load : string -> string -> string -> result (list Document).
Variable split_documents : list Document -> result (list Document).

(** Whether [open(path, "wb")] succeeds. *)
Variable openable : string -> bool.

(** What the operating system answers to [os.makedirs(path, exist_ok=True)]
    and to [os.remove] on a file that is there: done, or an [OSError] with
    its text (a regular file in the way, missing permissions, a file held
    open). *)
Variable os_makedirs : string -> result unit.
Variable unlink : string -> result unit.

(** [requests.post] on the chat-completions endpoint: the outcome of the
    n-th call made, for the given key and prompt. *)
Variable openai_api_key : option string.
Variable requests_post : nat -> string -> string -> http_outcome.

(** The text of the [UnboundLocalError] the interpreter raises for the
    local name [time]; it differs between versions of Python. *)
Variable unbound_local_error : string.

(** ** firebase_db.py: [LocalJSONMetadataDB] *)

Definition _load_json (p : json_path) : M json_file :=
  fun w =>
    match file_at p w with
    | Unreadable => (Ok (JArray []), w)
    | j => (Ok j, w)
    end.

Definition _save_json (p : json_path) (data : list dict) : M bool :=
  fun w =>
    if data_writable w then (Ok true, write_json p (JArray data) w)
    else (Ok false, w).

(** [len(x)] and [x.append(d)] on what [_load_json] returned. *)
Definition py_len (j : json_file) : nat :=
  match j with
  | Unreadable => 0
  | JObject keys => length keys
  | JArray items => length items
  end.

Definition py_append (j : json_file) (d : dict) : result (list dict) :=
  match j with
  | JArray items => Ok (items ++ [d])%list
  | _ => Raise "'dict' object has no attribute 'append'"
  end.

Definition create_document (document_data : dict) : M string :=
  try_except
    (documents <~ _load_json DocumentsFile ;
     t1 <~ now ;
     let doc_id :=
       "doc_" ++ pretty (py_len documents + 1) ++ "_" ++ strftime t1 in
     t2 <~ now ;
     t3 <~ now ;
     let document_data :=
       <["updated_at" := VStr (isoformat t3)]>
         (<["created_at" := VStr (isoformat t2)]>
            (<["id" := VStr doc_id]> document_data)) in
     documents <~ lift (py_append documents document_data) ;
     saved <~ _save_json DocumentsFile documents ;
     ret doc_id)
    (fun e => raise e).

(** [doc.get('id') == doc_id] for a string [doc_id]. *)
Definition has_id (doc_id : string) (doc : dict) : bool :=
  match doc !! "id" with
  | Some (VStr s) => String.eqb s doc_id
  | _ => false
  end.

(** The [for i, doc in enumerate(documents)] search: the index at which the
    loop breaks, [None] when it runs into its [else]. *)
Fixpoint find_id (doc_id : string) (documents : list dict) (i : nat)
  : option nat :=
  match documents with
  | [] => None
  | doc :: rest =>
      if has_id doc_id doc then Some i else find_id doc_id rest (S i)
  end.

Definition update_document (doc_id : string) (update_data : dict) : M bool :=
  try_except
    (documents <~ _load_json DocumentsFile ;
     match documents with
     | JArray docs =>
         match find_id doc_id docs 0 with
         | Some i =>
             t <~ now ;
             let docs' :=
               alter (fun doc =>
                        <["updated_at" := VStr (isoformat t)]>
                          (update_data ∪ doc)) i docs in
             saved <~ _save_json DocumentsFile docs' ;
             ret true
         | None => ret false
         end
     | JObject (_ :: _) => raise "'str' object has no attribute 'get'"
     | _ => ret false
     end)
    (fun e => ret false).

Definition delete_document (doc_id : string) : M bool :=
  try_except
    (documents <~ _load_json DocumentsFile ;
     match documents with
     | JArray docs =>
         match find_id doc_id docs 0 with
         | Some i =>
             saved <~ _save_json DocumentsFile (delete i docs) ;
             ret true
         | None => ret false
         end
     | JObject (_ :: _) => raise "'str' object has no attribute 'get'"
     | _ => ret false
     end)
    (fun e => ret false).

Definition log_query (query_data : dict) : M string :=
  try_except
    (queries <~ _load_json QueriesFile ;
     t1 <~ now ;
     let query_id :=
       "query_" ++ pretty (py_len queries + 1) ++ "_" ++ strftime t1 in
     t2 <~ now ;
     let query_data :=
       <["timestamp" := VStr (isoformat t2)]>
         (<["id" := VStr query_id]> query_data) in
     queries <~ lift (py_append queries query_data) ;
     saved <~ _save_json QueriesFile queries ;
     ret query_id)
    (fun e => raise e).

(** ** vector_store.py: log and re-raise around the LangChain store *)

(** [k] is a number of results, a natural number here. *)
Definition similarity_search (query : string) (k : nat) : M (list Document) :=
  try_except (lift (vectorstore_similarity_search query k))
             (fun e => raise e).

Definition add_documents (documents : list Document) : M (list string) :=
  try_except (lift (vectorstore_add_documents documents))
             (fun e => raise e).

(** ** query.py: [QueryEngine] *)

(** [self.prompt.format(context=..., question=...)] on the default
    template. *)
Definition prompt_format (context question : string) : string :=
  "
Use the following pieces of context to answer the human's question. 
If you don't know the answer based on the provided context, just say that you don't know, don't try to make up an answer.

Context:
" ++ context ++ "

Question: " ++ question ++ "

Helpful Answer:".

(** One step of the list comprehension of [retrieve_documents]:
    [doc.metadata.get('category', '').lower() == category_filter.lower()],
    which raises when the stored category is not a string. *)
Definition category_matches (category_filter : string) (doc : Document)
  : result bool :=
  match dict_get (metadata doc) "category" (VStr "") with
  | VStr c => Ok (String.eqb (str_lower c) (str_lower category_filter))
  | _ => Raise "object has no attribute 'lower'"
  end.

Fixpoint filter_category (category_filter : string) (documents : list Document)
  : result (list Document) :=
  match documents with
  | [] => Ok []
  | doc :: rest =>
      match category_matches category_filter doc with
      | Raise e => Raise e
      | Ok keep =>
          match filter_category category_filter rest with
          | Raise e => Raise e
          | Ok rest' => Ok (if keep then doc :: rest' else rest')
          end
      end
  end.

Definition retrieve_documents (query : string) (k : nat)
    (category_filter : option string) : M (list Document) :=
  try_except
    (documents <~ similarity_search query k ;
     documents <~
       (match category_filter with
        | Some f =>
            if truthy category_filter then lift (filter_category f documents)
            else ret documents
        | None => ret documents
        end) ;
     ret documents)
    (fun e => ret []).

Definition format_context (documents : list Document) : string :=
  match documents with
  | [] => "No relevant context found."
  | _ =>
      String.concat nl
        (imap (fun i doc =>
                 "[Source " ++ pretty (i + 1) ++ ": "
                 ++ py_str (dict_get (metadata doc) "filename" (VStr "Unknown"))
                 ++ " (chunk "
                 ++ py_str (dict_get (metadata doc) "chunk_index" (VInt 0))
                 ++ ")]" ++ nl ++ page_content doc ++ nl)
              documents)
  end.

(** [self.llm.invoke(prompt)]. *)
Definition llm_invoke (prompt : string) : M llm_response :=
  fun w => (llm prompt, record_llm_call prompt w).

Definition generate_answer (query context : string) : M string :=
  try_except
    (let formatted_prompt := prompt_format context query in
     response <~ llm_invoke formatted_prompt ;
     let answer :=
       match response with
       | Message content => content
       | Text s => VStr s
       | Other str => VStr str
       end in
     match answer with
     | VStr s => ret (strip s)
     | _ => raise "object has no attribute 'strip'"
     end)
    (fun e =>
       ret ("Sorry, I encountered an error while generating the answer: " ++ e)).

Definition preview (content : string) : string :=
  if (200 <? String.length content)%nat then slice_to 200 content ++ "..."
  else content.

Definition extract_citations (documents : list Document) : list Citation :=
  imap (fun i doc =>
          {| source_number := i + 1;
             filename := dict_get (metadata doc) "filename" (VStr "Unknown");
             chunk_index := dict_get (metadata doc) "chunk_index" (VInt 0);
             category := dict_get (metadata doc) "category" (VStr "general");
             upload_timestamp :=
               dict_get (metadata doc) "upload_timestamp" (VStr "Unknown");
             content_preview := preview (page_content doc) |})
       documents.

Definition no_information : string :=
  "I couldn't find any relevant information to answer your question. Please try rephrasing or upload more documents.".

Definition optional_str (o : option string) : pyval :=
  match o with
  | Some s => VStr s
  | None => VNone
  end.

Definition query (question : string) (k : nat)
    (category_filter : option string) : M QueryResponse :=
  try_except
    (t <~ now ;
     let query_timestamp := isoformat t in
     documents <~ retrieve_documents question k category_filter ;
     match documents with
     | [] =>
         ret {| answer := no_information;
                sources := [];
                query_text := question;
                timestamp := query_timestamp;
                model := model_name;
                documents_retrieved := None;
                category_filter := None;
                success := false;
                error := None |}
     | _ =>
         let context := format_context documents in
         answer <~ generate_answer question context ;
         let citations := extract_citations documents in
         let response :=
           {| answer := answer;
              sources := citations;
              query_text := question;
              timestamp := query_timestamp;
              model := model_name;
              documents_retrieved := Some (length documents);
              category_filter := Some category_filter;
              success := true;
              error := None |} in
         logged <~
           try_except
             (query_id <~
                log_query
                  (list_to_map
                     [("question", VStr question);
                      ("answer", VStr answer);
                      ("documents_retrieved",
                       VInt (Z.of_nat (length documents)));
                      ("timestamp", VStr query_timestamp);
                      ("model", VStr model_name);
                      ("category_filter", optional_str category_filter)]) ;
              ret tt)
             (fun e => ret tt) ;
         ret response
     end)
    (fun e =>
       t <~ now ;
       ret {| answer :=
                "Sorry, I encountered an error while processing your question: "
                ++ e;
              sources := [];
              query_text := question;
              timestamp := isoformat t;
              model := model_name;
              documents_retrieved := None;
              category_filter := None;
              success := false;
              error := Some e |}).

(** ** ingest.py: [DocumentProcessor] *)

Definition supported_extensions : list string := [".pdf"; ".docx"; ".txt"].

Definition validate_file (file_path : string) : M bool :=
  fun w =>
    match fs w !! file_path with
    | None => (Ok false, w)
    | Some _ =>
        if existsb (String.eqb (lower (path_suffix file_path)))
                   supported_extensions
        then (Ok true, w)
        else (Ok false, w)
    end.

(** [loader.load()] for the loader of the extension: it reads the file. *)
Definition load (file_extension file_path : string) : M (list Document) :=
  fun w =>
    match fs w !! file_path with
    | Some bytes => (loader_load file_extension file_path bytes, w)
    | None => (Raise ("No such file or directory: " ++ file_path), w)
    end.

Definition extract_text (file_path : string) : M (list Document) :=
  valid <~ validate_file file_path ;
  if negb valid then raise ("Invalid file: " ++ file_path)
  else
    let file_extension := lower (path_suffix file_path) in
    try_except
      (if existsb (String.eqb file_extension) supported_extensions
       then
         documents <~ load file_extension file_path ;
         ret documents
       else raise ("Unsupported file type: " ++ file_extension))
      (fun e => raise e).

Definition chunk_documents (documents : list Document) : M (list Document) :=
  try_except (lift (split_documents documents)) (fun e => raise e).

Definition generate_document_id (content filename : string) : string :=
  let content_hash := md5_hexdigest content in
  path_stem filename ++ "_" ++ slice_to 8 content_hash.

Definition dict_is_empty (d : dict) : bool :=
  match map_to_list d with
  | [] => true
  | _ => false
  end.

Definition prepare_metadata (document : Document) (filename : string)
    (chunk_index : nat) : M dict :=
  t <~ now ;
  let base_metadata : dict :=
    list_to_map
      [("filename", VStr filename);
       ("chunk_index", VInt (Z.of_nat chunk_index));
       ("chunk_size", VInt (Z.of_nat (String.length (page_content document))));
       ("upload_timestamp", VStr (isoformat t));
       ("document_id",
        VStr (generate_document_id (page_content document) filename))] in
  (* base_metadata.update(document.metadata): the chunk's own keys win *)
  ret (if dict_is_empty (metadata document) then base_metadata
       else metadata document ∪ base_metadata).

(** The [for i, chunk in enumerate(chunked_docs)] loop of
    [process_and_store], from index [i] with the two lists built so far. *)
Fixpoint process_chunks (filename category : string)
    (chunked_docs : list Document) (i : nat)
    (processed_docs : list Document) (document_ids : list pyval)
  : M (list Document * list pyval) :=
  match chunked_docs with
  | [] => ret (processed_docs, document_ids)
  | chunk :: rest =>
      metadata <~ prepare_metadata chunk filename i ;
      let metadata := <["category" := VStr category]> metadata in
      let processed_doc := mkDocument (page_content chunk) metadata in
      match metadata !! "document_id" with
      | Some document_id =>
          process_chunks filename category rest (S i)
            (processed_docs ++ [processed_doc])%list
            (document_ids ++ [document_id])%list
      | None => raise "'document_id'"
      end
  end.

(** [os.path.getsize]. *)
Definition getsize (file_path : string) : M nat :=
  fun w =>
    match fs w !! file_path with
    | Some bytes => (Ok (String.length bytes), w)
    | None => (Raise ("No such file or directory: " ++ file_path), w)
    end.

(** The [st.info] progress messages are not part of the model. *)
Definition process_and_store (file_path category : string) : M IngestResult :=
  let filename := path_name file_path in
  try_except
    (documents <~ extract_text file_path ;
     match documents with
     | [] => raise "No content extracted from document"
     | _ =>
         chunked_docs <~ chunk_documents documents ;
         built <~ process_chunks filename category chunked_docs 0 [] [] ;
         let processed_docs := fst built in
         let document_ids := snd built in
         vector_ids <~ add_documents processed_docs ;
         t <~ now ;
         file_size <~ getsize file_path ;
         let document_info : dict :=
           list_to_map
             [("filename", VStr filename);
              ("category", VStr category);
              ("total_chunks", VInt (Z.of_nat (length processed_docs)));
              ("upload_timestamp", VStr (isoformat t));
              ("file_size", VInt (Z.of_nat file_size));
              ("file_type", VStr (lower (path_suffix file_path)));
              ("vector_ids", VList (map VStr vector_ids));
              ("document_ids", VList document_ids)] in
         metadata_id <~ create_document document_info ;
         ret {| ing_success := true;
                ing_filename := filename;
                chunks_created := Some (length processed_docs);
                metadata_id := Some metadata_id;
                ing_error := None;
                message :=
                  "Successfully processed " ++ filename ++ " into "
                  ++ pretty (length processed_docs) ++ " chunks" |}
     end)
    (fun e =>
       let error_msg := "Error processing " ++ filename ++ ": " ++ e in
       ret {| ing_success := false;
              ing_filename := filename;
              chunks_created := None;
              metadata_id := None;
              ing_error := Some error_msg;
              message := error_msg |}).

(** [os.path.join("uploads", name)]. *)
Definition upload_path (name : string) : string :=
  match name with
  | String "/" _ => name
  | _ => "uploads/" ++ name
  end.

(** [with open(file_path, "wb") as f: f.write(uploaded_file.getbuffer())]:
    [open] creates or truncates the file before [getbuffer()] is called. *)
Definition save_upload (file_path : string) (uploaded_file : UploadedFile)
  : M unit :=
  fun w =>
    if openable file_path then
      let w1 := set_fs (<[file_path := ""]> (fs w)) w in
      match getbuffer uploaded_file with
      | Ok bytes => (Ok tt, set_fs (<[file_path := bytes]> (fs w1)) w1)
      | Raise e => (Raise e, w1)
      end
    else (Raise ("Cannot open " ++ file_path), w).

(** [os.remove]: a file that is there goes when the operating system
    lets it, and stays when it does not. *)
Definition os_remove (file_path : string) : M unit :=
  fun w =>
    match fs w !! file_path with
    | Some _ =>
        match unlink file_path with
        | Ok _ => (Ok tt, set_fs (delete file_path (fs w)) w)
        | Raise e => (Raise e, w)
        end
    | None => (Raise ("No such file or directory: " ++ file_path), w)
    end.

Definition error_result (uploaded_file : UploadedFile) (e : string)
  : IngestResult :=
  {| ing_success := false;
     ing_filename := name uploaded_file;
     chunks_created := None;
     metadata_id := None;
     ing_error := Some e;
     message := "Failed to process " ++ name uploaded_file ++ ": " ++ e |}.

(** The body of the loop of [process_uploaded_files] on one file;
    [results] is the list as the iteration finds it.  An exception raised
    after [results.append(result)] finds the result already appended. *)
Definition process_upload (category : string) (uploaded_file : UploadedFile)
    (results : list IngestResult) : M (list IngestResult) :=
  try_except
    (let file_path := upload_path (name uploaded_file) in
     saved <~ save_upload file_path uploaded_file ;
     result <~ process_and_store file_path category ;
     let results := (results ++ [result])%list in
     try_except
       (removed <~ os_remove file_path ;
        ret results)
       (fun e => ret (results ++ [error_result uploaded_file e])%list))
    (fun e => ret (results ++ [error_result uploaded_file e])%list).

Fixpoint process_files (category : string) (uploaded_files : list UploadedFile)
    (results : list IngestResult) : M (list IngestResult) :=
  match uploaded_files with
  | [] => ret results
  | uploaded_file :: rest =>
      results <~ process_upload category uploaded_file results ;
      process_files category rest results
  end.

(** [os.makedirs(upload_dir, exist_ok=True)] comes before the loop and
    outside every [try]: what it raises leaves the function.  The file
    system is flat, so a directory made leaves no trace in it. *)
Definition process_uploaded_files (uploaded_files : list UploadedFile)
    (category : string) : M (list IngestResult) :=
  made <~ lift (os_makedirs "uploads") ;
  process_files category uploaded_files [].

(** ** external_ai.py: [ExternalAIIntegrator.query_chatgpt] *)

Definition chat_prompt (question context : string) : string :=
  "
            Question: " ++ question ++ "
            
            "
  ++ (match context with
      | EmptyString => ""
      | _ => "Context from knowledge base: " ++ context
      end)
  ++ "
            
            Please provide a comprehensive answer. If you reference any external information, 
            mention it's from your training data up to your knowledge cutoff.
            ".

Definition post (key prompt : string) : M http_outcome :=
  fun w => (Ok (requests_post (http_posts w) key prompt), record_post w).

Definition sleep (secs : nat) : M unit :=
  fun w => (Ok tt, record_sleep secs w).

Definition chat_failure (e : string) : ChatResult :=
  {| chat_success := false;
     chat_answer := None;
     chat_error := Some e;
     chat_source := "ChatGPT";
     chat_model := None;
     chat_timestamp := None;
     tokens_used := None |}.

(** The [for attempt in range(max_retries)] loop over the attempts still to
    make; [None] is what Python returns when the loop runs out.  The
    [import time] inside the rate-limit branch makes [time] a local name of
    the whole function, so until that statement has run in the call
    ([time_imported]) the [time.sleep(2)] of the handler of
    [requests.RequestException] raises [UnboundLocalError], which leaves the
    loop for the outer handler. *)
Fixpoint retry_loop (max_retries : nat) (key prompt : string)
    (time_imported : bool) (attempts : list nat) : M (option ChatResult) :=
  match attempts with
  | [] => ret None
  | attempt :: rest =>
      let on_request_exception (req_err : string) : M (option ChatResult) :=
        if (attempt <? max_retries - 1)%nat then
          if time_imported then
            slept <~ sleep 2 ;
            retry_loop max_retries key prompt time_imported rest
          else raise unbound_local_error
        else ret (Some (chat_failure ("Request failed: " ++ req_err))) in
      response <~ post key prompt ;
      match response with
      | RequestException req_err => on_request_exception req_err
      | Response status_code text json =>
          if (status_code =? 200)%nat then
            match json with
            | Raise req_err => on_request_exception req_err
            | Ok (Raise key_error, _) => raise key_error
            | Ok (Ok content, total_tokens) =>
                t <~ now ;
                ret (Some {| chat_success := true;
                             chat_answer := Some content;
                             chat_error := None;
                             chat_source := "ChatGPT (OpenAI)";
                             chat_model := Some "gpt-3.5-turbo";
                             chat_timestamp := Some (isoformat t);
                             tokens_used := Some total_tokens |})
            end
          else if (status_code =? 429)%nat then
            let wait_time := (attempt + 1) * 2 in
            if (attempt <? max_retries - 1)%nat then
              slept <~ sleep wait_time ;
              retry_loop max_retries key prompt true rest
            else
              ret (Some (chat_failure
                           "Rate limit exceeded. Try again in a few minutes."))
          else
            ret (Some (chat_failure
                         ("OpenAI API error: " ++ pretty status_code ++ " - "
                          ++ text)))
      end
  end.

Definition max_retries : nat := 3.

Definition query_chatgpt (question context : string) : M (option ChatResult) :=
  try_except
    (if truthy openai_api_key then
       retry_loop max_retries (default "" openai_api_key)
                  (chat_prompt question context) false (seq 0 max_retries)
     else ret (Some (chat_failure "OpenAI API key not configured")))
    (fun e => ret (Some (chat_failure e))).

(** ** What the pipeline computes *)

(** The list [retrieve_documents] returns, read off its three paths: the
    store raised, the filter ran, or no filter was set. *)
Definition retrieved (query : string) (k : nat) (category_filter : option string)
  : list Document :=
  match vectorstore_similarity_search query k with
  | Raise _ => []
  | Ok documents =>
      match category_filter with
      | Some f =>
          if truthy category_filter then
            match filter_category f documents with
            | Ok kept => kept
            | Raise _ => []
            end
          else documents
      | None => documents
      end
  end.

(** A chunk whose stored category is a string, and whether that string is
    the filter's up to letter case. *)
Definition has_text_category (doc : Document) : Prop :=
  exists c, dict_get (metadata doc) "category" (VStr "") = VStr c.

Definition same_category (f : string) (doc : Document) : bool :=
  match dict_get (metadata doc) "category" (VStr "") with
  | VStr c => String.eqb (str_lower c) (str_lower f)
  | _ => false
  end.

(** The no-information response of [query], for a clock reading. *)
Definition no_information_response (question : string) (t : nat)
  : QueryResponse :=
  {| answer := no_information;
     sources := [];
     query_text := question;
     timestamp := isoformat t;
     model := model_name;
     documents_retrieved := None;
     category_filter := None;
     success := false;
     error := None |}.

(** The [document_id] entry of the metadata [prepare_metadata] builds for a
    chunk: the generated ID, unless the chunk's own metadata has that key. *)
Definition recorded_id (filename : string) (chunk : Document) : pyval :=
  default (VStr (generate_document_id (page_content chunk) filename))
          (metadata chunk !! "document_id").

(** Whether a record with this ID is in the stored collection. *)
Definition id_present (doc_id : string) (w : World) : bool :=
  match documents_json w with
  | JArray documents => existsb (has_id doc_id) documents
  | _ => false
  end.

(** The status code of an outcome of [requests.post], when there is one. *)
Definition status_of (outcome : http_outcome) : option nat :=
  match outcome with
  | Response status_code _ _ => Some status_code
  | RequestException _ => None
  end.

(** A computation leaves a component of the world as it found it. *)
Definition stable {A X} (proj : World -> X) (m : M A) : Prop :=
  forall w, proj (snd (m w)) = proj w.



(** ** Reading the pipeline's results *)

(** The text [generate_answer] takes from what the model returned, when it
    is a string. *)
Definition response_text (response : llm_response) : option string :=
  match response with
  | Message (VStr s) => Some s
  | Message _ => None
  | Text s => Some s
  | Other str => Some str
  end.

(** The record [log_query] appends for [query_data] when the log holds [n]
    records and the clock reads [t]. *)
Definition logged_entry (query_data : dict) (n t : nat) : dict :=
  <["timestamp" := VStr (isoformat (S t))]>
    (<["id" := VStr ("query_" ++ pretty (n + 1) ++ "_" ++ strftime t)]>
       query_data).

(** ** firebase_db.py: reading the local store *)

Definition get_document (doc_id : string) : M (option dict) :=
  try_except
    (documents <~ _load_json DocumentsFile ;
     match documents with
     | JArray docs => ret (List.find (has_id doc_id) docs)
     | JObject (_ :: _) => raise "'str' object has no attribute 'get'"
     | _ => ret None
     end)
    (fun e => ret None).

Definition get_all_documents : M json_file :=
  try_except (_load_json DocumentsFile) (fun e => ret (JArray [])).

(** The ID [create_document] gives a record when the store holds [n]
    records and the clock reads [t], and the record it then stores. *)
Definition new_document_id (n t : nat) : string :=
  "doc_" ++ pretty (n + 1) ++ "_" ++ strftime t.

Definition created_record (document_data : dict) (n t : nat) : dict :=
  <["updated_at" := VStr (isoformat (S (S t)))]>
    (<["created_at" := VStr (isoformat (S t))]>
       (<["id" := VStr (new_document_id n t)]> document_data)).

(** The record [update_document] leaves in place of [doc] at time [t]. *)
Definition updated_record (update_data doc : dict) (t : nat) : dict :=
  <["updated_at" := VStr (isoformat t)]> (update_data ∪ doc).

(** ** Reading the ingestion results *)

(** What [process_and_store] sends to the vector store for the chunk at
    position [i]: the content as it is, under the category given; the
    position and the file name unless the loader's metadata has those keys;
    and every other key of the loader's metadata. *)
Definition stored_as (filename category : string) (i : nat)
    (chunk doc : Document) : Prop :=
  page_content doc = page_content chunk
  /\ metadata doc !! "category" = Some (VStr category)
  /\ (metadata chunk !! "chunk_index" = None ->
      metadata doc !! "chunk_index" = Some (VInt (Z.of_nat i)))
  /\ (metadata chunk !! "filename" = None ->
      metadata doc !! "filename" = Some (VStr filename))
  /\ (forall key v,
        key <> "category" -> metadata chunk !! key = Some v ->
        metadata doc !! key = Some v).

(** The failure record of [process_and_store] for an exception text. *)
Definition ingest_failure (file_path e : string) : IngestResult :=
  {| ing_success := false;
     ing_filename := path_name file_path;
     chunks_created := None;
     metadata_id := None;
     ing_error := Some ("Error processing " ++ path_name file_path ++ ": " ++ e);
     message := "Error processing " ++ path_name file_path ++ ": " ++ e |}.



(** ** firebase_db.py and query.py: query statistics *)

(** The loop of [get_query_stats] over the logged queries, with the two
    dictionaries built so far. *)
Fixpoint tally_queries (queries : list dict) (categories popular : counts)
  : result (counts * counts) :=
  match queries with
  | [] => Ok (categories, popular)
  | query :: rest =>
      let category := dict_get query "category_filter" (VStr "general") in
      match count_key category categories with
      | Raise e => Raise e
      | Ok categories =>
          let question := dict_get query "question" (VStr EmptyString) in
          if py_truthy question then
            match count_key question popular with
            | Raise e => Raise e
            | Ok popular => tally_queries rest categories popular
            end
          else tally_queries rest categories popular
      end
  end.

Definition no_query_stats : QueryStats :=
  {| total_queries := 0; categories_searched := []; popular_queries := [] |}.

Definition get_query_stats : M QueryStats :=
  try_except
    (queries <~ _load_json QueriesFile ;
     match queries with
     | JArray logged =>
         tallied <~ lift (tally_queries logged [] []) ;
         ret {| total_queries := length logged;
                categories_searched := fst tallied;
                popular_queries := take 10 (sorted_desc (snd tallied)) |}
     | JObject (_ :: _) => raise "'str' object has no attribute 'get'"
     | _ => ret no_query_stats
     end)
    (fun e => ret no_query_stats).

Definition get_search_stats : M QueryStats :=
  try_except get_query_stats (fun e => ret no_query_stats).

(** ** ingest.py: document statistics *)

Fixpoint sum_total_chunks (docs : list dict) (acc : Z) : result Z :=
  match docs with
  | [] => Ok acc
  | doc :: rest =>
      match py_add acc (dict_get doc "total_chunks" (VInt 0)) with
      | Raise e => Raise e
      | Ok acc => sum_total_chunks rest acc
      end
  end.

(** [for doc in docs: d[doc.get(key, 'unknown')] = ... + 1]. *)
Fixpoint tally_key (key : string) (docs : list dict) (d : counts)
  : result counts :=
  match docs with
  | [] => Ok d
  | doc :: rest =>
      match count_key (dict_get doc key (VStr "unknown")) d with
      | Raise e => Raise e
      | Ok d => tally_key key rest d
      end
  end.

Definition no_document_stats : DocumentStats :=
  {| total_documents := 0;
     total_chunks := 0;
     categories := [];
     file_types := [];
     documents := JArray [] |}.

Definition get_document_stats : M DocumentStats :=
  try_except
    (docs <~ get_all_documents ;
     match docs with
     | JArray stored =>
         chunks <~ lift (sum_total_chunks stored 0) ;
         by_category <~ lift (tally_key "category" stored []) ;
         by_type <~ lift (tally_key "file_type" stored []) ;
         ret {| total_documents := length stored;
                total_chunks := chunks;
                categories := by_category;
                file_types := by_type;
                documents := docs |}
     | JObject (_ :: _) => raise "'str' object has no attribute 'get'"
     | _ =>
         ret {| total_documents := 0;
                total_chunks := 0;
                categories := [];
                file_types := [];
                documents := docs |}
     end)
    (fun e => ret no_document_stats).

(** The logged queries can be counted: every category and every non-empty
    question is hashable. *)
Definition countable_log (logged : list dict) : Prop :=
  exists tallied, tally_queries logged [] [] = Ok tallied.

(** [items] is in order of count, largest first. *)
Fixpoint descending (items : counts) : Prop :=
  match items with
  | [] => True
  | x :: rest =>
      Forall (fun y => (snd y <= snd x)%nat) rest /\ descending rest
  end.

(** The dictionary [query] passes to [log_query]. *)
Definition query_log_data (question text : string) (n : nat)
    (query_timestamp : string) (category_filter : option string) : dict :=
  list_to_map
    [("question", VStr question);
     ("answer", VStr text);
     ("documents_retrieved", VInt (Z.of_nat n));
     ("timestamp", VStr query_timestamp);
     ("model", VStr model_name);
     ("category_filter", optional_str category_filter)].

(** ** query.py: [AdvancedQueryEngine.query_with_followup] *)

Fixpoint follow_up_loop (follow_up_questions : list string) (k : nat)
    (follow_ups : list FollowUp) : M (list FollowUp) :=
  match follow_up_questions with
  | [] => ret follow_ups
  | follow_up :: rest =>
      follow_up_response <~ query follow_up k None ;
      follow_up_loop rest k
        (follow_ups
         ++ [{| follow_up_question := follow_up;
                follow_up_answer := answer follow_up_response;
                follow_up_sources := sources follow_up_response |}])%list
  end.

(** [follow_up_questions] defaults to [None]; [None] and the empty list
    are both false. *)
Definition query_with_followup (question : string)
    (follow_up_questions : option (list string)) (k : nat)
  : M FollowupResponse :=
  main_response <~ query question k None ;
  match follow_up_questions with
  | None | Some [] =>
      ret {| main_response := main_response; follow_ups := None |}
  | Some questions =>
      follow_ups <~ follow_up_loop questions k [] ;
      ret {| main_response := main_response; follow_ups := Some follow_ups |}
  end.

(** The prompts [query] sends to the model for a question: one, built from
    the chunks retrieved for that question, or none when no chunk is. *)
Definition asked (question : string) (k : nat)
    (category_filter : option string) : list string :=
  match retrieved question k category_filter with
  | [] => []
  | documents => [prompt_format (format_context documents) question]
  end.

(** ** external_ai.py: the other sources *)

Variable google_api_key : option string.
Variable google_cx : option string.

(** [requests.get] on the custom-search endpoint, by the parameters [key],
    [cx], [q] and [num] of the request. *)
Variable requests_get : string -> string -> string -> Z -> get_outcome.

Definition copilot_prompt (question context : string) : string :=
  "
            As GitHub Copilot, provide a helpful response to: " ++ question ++ "
            
            "
  ++ (match context with
      | EmptyString => ""
      | _ => "Available context: " ++ context
      end)
  ++ "
            
            Focus on:
            - Practical, actionable advice
            - Code examples when relevant
            - Best practices and recommendations
            - Step-by-step guidance
            
            Format your response as if you're GitHub Copilot assistant.
            ".

Definition copilot_failure (e : string) : ChatResult :=
  {| chat_success := false;
     chat_answer := None;
     chat_error := Some e;
     chat_source := "GitHub Copilot";
     chat_model := None;
     chat_timestamp := None;
     tokens_used := None |}.

(** One post and no retry.  The payload differs from the one of
    [query_chatgpt] in its system message, [max_tokens] and [temperature],
    which are constants of the two callers; the prompt tells the two
    requests apart. *)
Definition simulate_copilot_response (question context : string)
  : M ChatResult :=
  try_except
    (if truthy openai_api_key then
       response <~ post (default "" openai_api_key)
                        (copilot_prompt question context) ;
       match response with
       | RequestException e => raise e
       | Response status_code text json =>
           if (status_code =? 200)%nat then
             match json with
             | Raise e => raise e
             | Ok (Raise key_error, _) => raise key_error
             | Ok (Ok answer, total_tokens) =>
                 let formatted_answer :=
                   ("**" ++ robot_mark ++ " GitHub Copilot Response:**\n\n"
                    ++ py_str answer ++ "\n\n")
                   ++ "*This response was generated using GitHub Copilot's AI capabilities.*" in
                 t <~ now ;
                 ret {| chat_success := true;
                        chat_answer := Some (VStr formatted_answer);
                        chat_error := None;
                        chat_source := "GitHub Copilot";
                        chat_model := Some "gpt-3.5-turbo (Copilot-style)";
                        chat_timestamp := Some (isoformat t);
                        tokens_used := Some total_tokens |}
             end
           else
             ret (copilot_failure
                    ("Copilot simulation error: " ++ pretty status_code))
       end
     else ret (copilot_failure "OpenAI API key not configured"))
    (fun e => ret (copilot_failure e)).

Definition search_failure (e : string) : SearchResult :=
  {| search_success := false;
     search_answer := None;
     search_error := Some e;
     search_source := "Google Search";
     search_results := None;
     search_timestamp := None;
     results_count := None |}.

Definition search_hit (item : dict) : SearchHit :=
  {| hit_title := dict_get item "title" (VStr "");
     hit_snippet := dict_get item "snippet" (VStr "");
     hit_link := dict_get item "link" (VStr "");
     hit_source := dict_get item "displayLink" (VStr "") |}.

(** What one round of [for i, result in enumerate(search_results[:3], 1)]
    adds to the answer. *)
Definition search_entry (i : nat) (result : SearchHit) : string :=
  (pretty i ++ ". **" ++ py_str (hit_title result) ++ "** ("
   ++ py_str (hit_source result) ++ ")\n")
  ++ ("   " ++ py_str (hit_snippet result) ++ "\n")
  ++ ("   " ++ link_mark ++ " " ++ py_str (hit_link result) ++ "\n\n").

Definition compile_answer (question : string)
    (search_results : list SearchHit) : string :=
  fold_left (fun text numbered =>
               text ++ search_entry (fst numbered) (snd numbered))
            (zip (seq 1 3) (take 3 search_results))
            ("Based on Google search results for '" ++ question ++ "':\n\n").

Definition query_google_search (question : string) (num_results : Z)
  : M SearchResult :=
  try_except
    (if negb (truthy google_api_key) || negb (truthy google_cx) then
       ret (search_failure "Google API credentials not configured")
     else
       response <~ ret (requests_get (default "" google_api_key)
                                     (default "" google_cx) question
                                     (Z.min num_results 10)) ;
       match response with
       | GetException e => raise e
       | GetResponse status_code items =>
           if (status_code =? 200)%nat then
             match items with
             | Raise e => raise e
             | Ok items =>
                 let search_results := map search_hit items in
                 let answer := compile_answer question search_results in
                 t <~ now ;
                 ret {| search_success := true;
                        search_answer := Some answer;
                        search_error := None;
                        search_source := "Google Search";
                        search_results := Some search_results;
                        search_timestamp := Some (isoformat t);
                        results_count := Some (length search_results) |}
             end
           else
             ret (search_failure
                    ("Google Search API error: " ++ pretty status_code))
       end)
    (fun e => ret (search_failure e)).

Definition copilot_demo (question timestamp : string) : ChatResult :=
  {| chat_success := true;
     chat_answer :=
       Some (VStr ("**" ++ robot_mark ++ " GitHub Copilot Demo Response:**"
                   ++ nl ++ nl ++ "For '" ++ question
                   ++ "', I would provide technical assistance including:"
                   ++ nl ++ nl
                   ++ bullet_mark ++ " Step-by-step troubleshooting" ++ nl
                   ++ bullet_mark ++ " Code examples and snippets" ++ nl
                   ++ bullet_mark ++ " Best practice recommendations" ++ nl
                   ++ bullet_mark ++ " Resource links" ++ nl ++ nl
                   ++ "*Demo mode due to API rate limits*"));
     chat_error := None;
     chat_source := "GitHub Copilot (Demo)";
     chat_model := None;
     chat_timestamp := Some timestamp;
     tokens_used := None |}.

(** The Streamlit spinners and the warning only draw; they are left out.
    [chatgpt_result.get] on [None] is an [AttributeError], which nothing
    here catches. *)
Definition query_all_sources (question knowledge_base_context : string)
  : M (list SourceResult) :=
  chatgpt_result <~ query_chatgpt question knowledge_base_context ;
  match chatgpt_result with
  | None => raise "'NoneType' object has no attribute 'get'"
  | Some chatgpt_result =>
      second <~
        (if truthy (chat_error chatgpt_result)
            && contains "429" (default "None" (chat_error chatgpt_result))
         then
           t <~ now ;
           ret (copilot_demo question (isoformat t))
         else simulate_copilot_response question knowledge_base_context) ;
      google_result <~ query_google_search question 5 ;
      ret [ChatSource chatgpt_result; ChatSource second;
           SearchSource google_result]
  end.

(** What one round of [for i, result in enumerate(successful_sources, 1)]
    adds to the answer. *)
Definition source_section (i : nat) (result : SourceResult) : string :=
  ("## " ++ pretty i ++ ". **" ++ src_source result ++ ":**\n")
  ++ (py_str (default (VStr "No response available") (src_answer result))
      ++ "\n\n")
  ++ (if truthy (src_model result)
      then "*Model: " ++ default "" (src_model result) ++ "*\n" else "")
  ++ (match src_tokens_used result with
      | Some tokens =>
          if (tokens =? 0)%Z then ""
          else "*Tokens used: " ++ pretty tokens ++ "*\n"
      | None => ""
      end)
  ++ (match src_results_count result with
      | Some count =>
          if (count =? 0)%nat then ""
          else "*Search results: " ++ pretty count ++ "*\n"
      | None => ""
      end)
  ++ "---\n\n".

Definition unavailable_line (failed : SourceResult) : string :=
  bullet_mark ++ " " ++ src_source failed ++ ": "
  ++ default "Unknown error" (src_error failed) ++ "\n".

Definition multi_source_answer (question : string)
    (results : list SourceResult) (kb_response : option QueryResponse)
  : string :=
  let heading :=
    "# " ++ star_mark ++ " Comprehensive Answer: " ++ question ++ "\n\n" in
  let with_kb :=
    match kb_response with
    | Some kb =>
        if success kb then
          heading ++ "## " ++ books_mark ++ " **From Your Knowledge Base:**\n"
          ++ (answer kb ++ "\n\n") ++ "---\n\n"
        else heading
    | None => heading
    end in
  let successful := filter (fun r => src_success r = true) results in
  let with_sources :=
    fold_left (fun text numbered =>
                 text ++ source_section (fst numbered) (snd numbered))
              (zip (seq 1 (length successful)) successful) with_kb in
  let failed_sources := filter (fun r => src_success r = false) results in
  match failed_sources with
  | [] => with_sources
  | _ =>
      fold_left (fun text failed => text ++ unavailable_line failed)
                failed_sources
                (with_sources ++ "## " ++ warning_mark
                 ++ " **Unavailable Sources:**\n")
  end.

Definition format_multi_source_response (question : string)
    (results : list SourceResult) (kb_response : option QueryResponse)
  : M MultiSourceResponse :=
  let successful := filter (fun r => src_success r = true) results in
  t <~ now ;
  ret {| multi_success := true;
         multi_answer := multi_source_answer question results kb_response;
         multi_sources := map src_source successful;
         total_sources := length results;
         successful_sources := length successful;
         multi_timestamp := isoformat t |}.


(** ** model_loader.py: the configured model *)

(** Python's [float], [float(s)] and the LangChain client a model class
    builds from model name, temperature and key ([ChatOpenAI],
    [ChatAnthropic], [ChatGoogleGenerativeAI]), which may raise. *)
Variable float : Type.
Variable py_float : string -> result float.
Variable chat_client : model_class -> string -> float -> string -> result unit.

(** An instance of one of the model classes. *)
Record ModelInstance : Type := mkModelInstance {
  instance_class : model_class;
  instance_api_key : string;
  instance_model_name : string;
  instance_temperature : float
}.

(** [MODEL_CONFIGS]; [default_temp] is [0.0] throughout. *)
Definition MODEL_CONFIGS : list (string * list (string * model_class)) :=
  [("openai", [("gpt-3.5-turbo", OpenAIModel); ("gpt-4", OpenAIModel);
               ("gpt-4-turbo", OpenAIModel);
               ("text-davinci-003", OpenAIModel)]);
   ("claude", [("claude-2", ClaudeModel); ("claude-3-sonnet", ClaudeModel);
               ("claude-3-opus", ClaudeModel);
               ("claude-instant", ClaudeModel)]);
   ("gemini", [("gemini-pro", GeminiModel);
               ("gemini-pro-vision", GeminiModel)])].

Fixpoint config_lookup {A} (key : string) (config : list (string * A))
  : option A :=
  match config with
  | [] => None
  | (k, a) :: rest => if String.eqb k key then Some a else config_lookup key rest
  end.

(** The variable a model class stores its key under. *)
Definition key_variable (c : model_class) : string :=
  match c with
  | OpenAIModel => "OPENAI_API_KEY"
  | ClaudeModel => "ANTHROPIC_API_KEY"
  | GeminiModel => "GOOGLE_API_KEY"
  end.

(** [model_class(api_key=..., model_name=..., temperature=...)]: the key is
    put into the environment before the client is built. *)
Definition new_model (c : model_class) (api_key model_name : string)
    (temperature : float) (env : Env) : result ModelInstance * Env :=
  let env := <[key_variable c := api_key]> env in
  match chat_client c model_name temperature api_key with
  | Raise e => (Raise e, env)
  | Ok _ =>
      (Ok {| instance_class := c;
             instance_api_key := api_key;
             instance_model_name := model_name;
             instance_temperature := temperature |}, env)
  end.

(** [get_model] is the only caller and always passes a temperature, so the
    [default_temp] branch is not taken. *)
Definition create_model (provider : string) (model_name : option string)
    (api_key : string) (temperature : float) (env : Env)
  : result ModelInstance * Env :=
  let provider := lower provider in
  match config_lookup provider MODEL_CONFIGS with
  | None => (Raise ("Unsupported provider: " ++ provider), env)
  | Some provider_config =>
      match model_name ≫= (fun m => config_lookup m provider_config) with
      | None =>
          (Raise ("Unsupported model " ++ default "None" model_name
                  ++ " for provider " ++ provider), env)
      | Some model_class =>
          new_model model_class api_key (default "" model_name) temperature
                    env
      end
  end.

(** [if not model_name: model_name = dflt]. *)
Definition or_default (model_name : option string) (dflt : string)
  : option string :=
  if truthy model_name then model_name else Some dflt.

Definition get_model (env : Env) : result ModelInstance * Env :=
  let provider := lower (default "openai" (env !! "MODEL_PROVIDER")) in
  let model_name := env !! "MODEL_NAME" in
  match py_float (default "0.0" (env !! "MODEL_TEMPERATURE")) with
  | Raise e => (Raise e, env)
  | Ok temperature =>
      let '(api_key, model_name) :=
        if String.eqb provider "openai" then
          (env !! "OPENAI_API_KEY", or_default model_name "gpt-3.5-turbo")
        else if String.eqb provider "claude" then
          (env !! "ANTHROPIC_API_KEY", or_default model_name "claude-2")
        else if String.eqb provider "gemini" then
          (env !! "GOOGLE_API_KEY", or_default model_name "gemini-pro")
        else (None, model_name) in
      if truthy api_key then
        create_model provider model_name (default "" api_key) temperature env
      else (Raise ("API key not found for provider: " ++ provider), env)
  end.

(** The provider name and the default model of each class, as [get_model]
    pairs them. *)
Definition provider_name (c : model_class) : string :=
  match c with
  | OpenAIModel => "openai"
  | ClaudeModel => "claude"
  | GeminiModel => "gemini"
  end.

Definition default_model_name (c : model_class) : string :=
  match c with
  | OpenAIModel => "gpt-3.5-turbo"
  | ClaudeModel => "claude-2"
  | GeminiModel => "gemini-pro"
  end.

(** What [get_model] reads first. *)
Definition configured_provider (env : Env) : string :=
  lower (default "openai" (env !! "MODEL_PROVIDER")).

Definition configured_temperature (env : Env) : result float :=
  py_float (default "0.0" (env !! "MODEL_TEMPERATURE")).
(** * Properties *)

(** ** Strings *)

Lemma length_append (a b : string) :
  String.length (a ++ b) = String.length a + String.length b.
Proof. induction a as [|c a IH]; simpl; [reflexivity | now rewrite IH]. Qed.

Lemma append_inv_head (a x y : string) : a ++ x = a ++ y -> x = y.
Proof.
  induction a as [|c a IH]; [trivial|].
  change (String c (a ++ x) = String c (a ++ y) -> x = y).
  intros [= H]. now apply IH.
Qed.

Lemma append_inv_tail (x y s : string) : x ++ s = y ++ s -> x = y.
Proof.
  revert y. induction x as [|a x IH]; intros [|b y] H.
  - reflexivity.
  - apply (f_equal String.length) in H.
    change (String.length s = S (String.length (y ++ s))) in H.
    rewrite length_append in H. lia.
  - apply (f_equal String.length) in H.
    change (S (String.length (x ++ s)) = String.length s) in H.
    rewrite length_append in H. lia.
  - change (String a (x ++ s) = String b (y ++ s)) in H.
    injection H as -> H. f_equal. now apply IH.
Qed.

Lemma length_slice_to (n : nat) (s : string) :
  String.length (slice_to n s) = Nat.min n (String.length s).
Proof.
  unfold slice_to. revert s.
  induction n as [|n IH]; intros [|c s]; simpl; try reflexivity.
  now rewrite IH.
Qed.

Lemma slice_to_prefix (n : nat) (s : string) :
  exists rest, s = slice_to n s ++ rest.
Proof.
  unfold slice_to. revert s.
  induction n as [|n IH]; intros [|c s]; simpl.
  - now exists "".
  - now exists (String c s).
  - now exists "".
  - destruct (IH s) as [rest Hrest]. exists rest.
    change (String c s = String c (substring 0 n s ++ rest)).
    now f_equal.
Qed.

Lemma length_preview (content : string) :
  (String.length (preview content) <= 203)%nat.
Proof.
  unfold preview.
  destruct (200 <? String.length content)%nat eqn:Hlen.
  - rewrite length_append, length_slice_to.
    change (String.length "...") with 3.
    pose proof (Nat.le_min_l 200 (String.length content)). lia.
  - apply Nat.ltb_ge in Hlen. lia.
Qed.

(** ** Retrieval *)

Lemma retrieve_documents_run (query : string) (k : nat)
    (category_filter : option string) (w : World) :
  retrieve_documents query k category_filter w
  = (Ok (retrieved query k category_filter), w).
Proof.
  unfold retrieve_documents, retrieved, similarity_search, try_except, bind,
    lift, ret, raise.
  destruct (vectorstore_similarity_search query k) as [documents|e];
    [|reflexivity].
  destruct category_filter as [f|]; [|reflexivity].
  destruct (truthy (Some f)); [|reflexivity].
  destruct (filter_category f documents); reflexivity.
Qed.

Lemma filter_category_length (f : string) (documents kept : list Document) :
  filter_category f documents = Ok kept ->
  (length kept <= length documents)%nat.
Proof.
  revert kept. induction documents as [|doc rest IH]; intros kept; simpl.
  - intros [= <-]. simpl. lia.
  - destruct (category_matches f doc) as [keep|]; [|discriminate].
    destruct (filter_category f rest) as [rest'|]; [|discriminate].
    intros [= <-]. specialize (IH rest' eq_refl).
    destruct keep; simpl; lia.
Qed.

Lemma filter_category_matches (f : string) (documents kept : list Document) :
  filter_category f documents = Ok kept ->
  Forall (fun doc =>
            exists c, dict_get (metadata doc) "category" (VStr "") = VStr c
                      /\ str_lower c = str_lower f) kept.
Proof.
  revert kept. induction documents as [|doc rest IH]; intros kept; simpl.
  - intros [= <-]. constructor.
  - destruct (category_matches f doc) as [keep|] eqn:Hdoc; [|discriminate].
    destruct (filter_category f rest) as [rest'|]; [|discriminate].
    intros [= <-]. specialize (IH rest' eq_refl).
    destruct keep; [|exact IH].
    constructor; [|exact IH].
    unfold category_matches in Hdoc.
    destruct (dict_get (metadata doc) "category" (VStr "")) as [| | |c|];
      try discriminate.
    exists c. split; [reflexivity|].
    injection Hdoc as Hdoc. now apply String.eqb_eq.
Qed.

Lemma retrieved_bounded (query : string) (k : nat)
    (category_filter : option string) :
  (forall documents,
     vectorstore_similarity_search query k = Ok documents ->
     (length documents <= k)%nat) ->
  (length (retrieved query k category_filter) <= k)%nat.
Proof.
  intros Htop. unfold retrieved.
  destruct (vectorstore_similarity_search query k) as [documents|e];
    [|simpl; lia].
  specialize (Htop documents eq_refl).
  destruct category_filter as [f|]; [|exact Htop].
  destruct (truthy (Some f)); [|exact Htop].
  destruct (filter_category f documents) as [kept|] eqn:Hf; [|simpl; lia].
  apply filter_category_length in Hf. lia.
Qed.

Lemma retrieved_filtered (query : string) (k : nat) (f : string) :
  truthy (Some f) = true ->
  Forall (fun doc =>
            exists c, dict_get (metadata doc) "category" (VStr "") = VStr c
                      /\ str_lower c = str_lower f)
         (retrieved query k (Some f)).
Proof.
  intros Hset. unfold retrieved.
  destruct (vectorstore_similarity_search query k) as [documents|e];
    [|constructor].
  rewrite Hset.
  destruct (filter_category f documents) as [kept|] eqn:Hf; [|constructor].
  now apply filter_category_matches in Hf.
Qed.

Lemma filter_category_same (f : string) (documents : list Document) :
  Forall has_text_category documents ->
  filter_category f documents = Ok (List.filter (same_category f) documents).
Proof.
  induction 1 as [|doc rest [c Hc] _ IH]; [reflexivity|].
  simpl. unfold category_matches, same_category. rewrite Hc, IH.
  now destruct (String.eqb (str_lower c) (str_lower f)).
Qed.

Lemma retrieved_within (query : string) (k : nat)
    (category_filter : option string) (top : list Document) :
  vectorstore_similarity_search query k = Ok top ->
  (length (retrieved query k category_filter) <= length top)%nat.
Proof.
  intros Htop. unfold retrieved. rewrite Htop.
  destruct category_filter as [f|]; [|reflexivity].
  destruct (truthy (Some f)); [|reflexivity].
  destruct (filter_category f top) as [kept|] eqn:Hf; [|simpl; lia].
  now apply filter_category_length in Hf.
Qed.

Lemma retrieved_unfiltered (query : string) (k : nat)
    (category_filter : option string) (top : list Document) :
  vectorstore_similarity_search query k = Ok top ->
  truthy category_filter = false ->
  retrieved query k category_filter = top.
Proof.
  intros Htop Hunset. unfold retrieved. rewrite Htop.
  destruct category_filter as [f|]; [|reflexivity].
  now rewrite Hunset.
Qed.

Lemma retrieved_same_category (query : string) (k : nat) (f : string)
    (top : list Document) :
  vectorstore_similarity_search query k = Ok top ->
  truthy (Some f) = true ->
  Forall has_text_category top ->
  retrieved query k (Some f) = List.filter (same_category f) top.
Proof.
  intros Htop Hset Htext. unfold retrieved.
  now rewrite Htop, Hset, (filter_category_same f top Htext).
Qed.

(** ** Running the monad *)

Lemma bind_run {A B} (m : M A) (k : A -> M B) (w : World) (a : A)
    (w' : World) :
  m w = (Ok a, w') -> bind m k w = k a w'.
Proof. intros Hm. unfold bind. now rewrite Hm. Qed.

Lemma bind_raise {A B} (m : M A) (k : A -> M B) (w : World) (e : string)
    (w' : World) :
  m w = (Raise e, w') -> bind m k w = (Raise e, w').
Proof. intros Hm. unfold bind. now rewrite Hm. Qed.

Lemma try_ok {A} (body : M A) (handler : string -> M A) (w : World) (a : A)
    (w' : World) :
  body w = (Ok a, w') -> try_except body handler w = (Ok a, w').
Proof. intros Hm. unfold try_except. now rewrite Hm. Qed.

Lemma try_raise {A} (body : M A) (handler : string -> M A) (w : World)
    (e : string) (w' : World) :
  body w = (Raise e, w') -> try_except body handler w = handler e w'.
Proof. intros Hm. unfold try_except. now rewrite Hm. Qed.

(** ** The query pipeline *)

Lemma query_empty_run (question : string) (k : nat)
    (category_filter : option string) (w : World) :
  retrieved question k category_filter = [] ->
  query question k category_filter w
  = (Ok (no_information_response question (clock w)), snd (now w)).
Proof.
  intros Hnone. unfold query, try_except, bind. simpl.
  rewrite retrieve_documents_run, Hnone. reflexivity.
Qed.

Lemma generate_answer_error (question context e : string) (w : World) :
  llm (prompt_format context question) = Raise e ->
  generate_answer question context w
  = (Ok ("Sorry, I encountered an error while generating the answer: " ++ e),
     record_llm_call (prompt_format context question) w).
Proof.
  intros Hllm. unfold generate_answer, try_except, bind, llm_invoke.
  rewrite Hllm. reflexivity.
Qed.

(** Logging is best effort: the guarded call returns whatever [log_query]
    does. *)
Lemma swallowed_returns {A} (body : M A) (w : World) :
  exists w', try_except (x <~ body ; ret tt) (fun e => ret tt) w = (Ok tt, w').
Proof.
  unfold try_except, bind, ret.
  destruct (body w) as [[a|e] w']; eauto.
Qed.

Lemma query_answer_run (question : string) (k : nat)
    (category_filter : option string) (w w1 : World) (text : string) :
  retrieved question k category_filter <> [] ->
  generate_answer question
    (format_context (retrieved question k category_filter)) (snd (now w))
  = (Ok text, w1) ->
  exists w2,
    query question k category_filter w
    = (Ok {| answer := text;
             sources := extract_citations (retrieved question k category_filter);
             query_text := question;
             timestamp := isoformat (clock w);
             model := model_name;
             documents_retrieved :=
               Some (length (retrieved question k category_filter));
             category_filter := Some category_filter;
             success := true;
             error := None |}, w2).
Proof.
  intros Hsome Hanswer.
  destruct (swallowed_returns
              (log_query
                 (list_to_map
                    [("question", VStr question);
                     ("answer", VStr text);
                     ("documents_retrieved",
                      VInt (Z.of_nat
                              (length (retrieved question k category_filter))));
                     ("timestamp", VStr (isoformat (clock w)));
                     ("model", VStr model_name);
                     ("category_filter", optional_str category_filter)])) w1)
    as [w2 Hlog].
  exists w2. unfold query. apply try_ok.
  rewrite (bind_run _ _ w (clock w) (snd (now w))) by reflexivity.
  rewrite (bind_run _ _ _ _ _ (retrieve_documents_run _ _ _ _)).
  destruct (retrieved question k category_filter) as [|doc rest] eqn:Hdocs;
    [contradiction|].
  rewrite (bind_run _ _ _ _ _ Hanswer).
  rewrite (bind_run _ _ _ _ _ Hlog).
  reflexivity.
Qed.

(** C2.  When retrieval yields no chunk, [query] returns a response with
    [success = false], no sources and the no-relevant-information answer,
    and no prompt is sent to the model. *)
Theorem query_no_chunks (question : string) (k : nat)
    (category_filter : option string) (w : World) :
  fst (retrieve_documents question k category_filter w) = Ok [] ->
  exists response w',
    query question k category_filter w = (Ok response, w')
    /\ success response = false
    /\ sources response = []
    /\ answer response = no_information
    /\ llm_calls w' = llm_calls w.
Proof.
  rewrite retrieve_documents_run. simpl. intros [= Hnone].
  eexists _, _. split; [now apply query_empty_run|].
  repeat split; reflexivity.
Qed.

(** C9.  When the vector store raises during the search,
    [retrieve_documents] returns the empty list, and [query] answers with
    the no-relevant-information response, which carries no error text. *)
Theorem query_retrieval_error (question : string) (k : nat)
    (category_filter : option string) (w : World) (e : string) :
  vectorstore_similarity_search question k = Raise e ->
  retrieve_documents question k category_filter w = (Ok [], w)
  /\ exists response w',
       query question k category_filter w = (Ok response, w')
       /\ success response = false
       /\ sources response = []
       /\ answer response = no_information
       /\ error response = None.
Proof.
  intros Hraise.
  assert (Hnone : retrieved question k category_filter = [])
    by (unfold retrieved; now rewrite Hraise).
  split.
  - now rewrite retrieve_documents_run, Hnone.
  - eexists _, _. split; [now apply query_empty_run|].
    repeat split; reflexivity.
Qed.

(** C1, as the code has it.  When chunks were retrieved and the model
    invocation raises, [query] returns normally: the answer is the apology
    followed by the error text, and the response is marked successful,
    with the citations of the retrieved chunks and no error field. *)
Theorem query_model_error (question : string) (k : nat)
    (category_filter : option string) (w : World)
    (documents : list Document) (e : string) :
  fst (retrieve_documents question k category_filter w) = Ok documents ->
  documents <> [] ->
  llm (prompt_format (format_context documents) question) = Raise e ->
  exists response w',
    query question k category_filter w = (Ok response, w')
    /\ success response = true
    /\ answer response
       = "Sorry, I encountered an error while generating the answer: " ++ e
    /\ sources response = extract_citations documents
    /\ error response = None.
Proof.
  rewrite retrieve_documents_run. simpl. intros [= <-] Hsome Hllm.
  destruct (query_answer_run question k category_filter w _ _ Hsome
              (generate_answer_error question _ e (snd (now w)) Hllm))
    as [w2 Hrun].
  eexists _, w2. split; [exact Hrun|].
  repeat split; reflexivity.
Qed.

Lemma preview_cases (content : string) :
  preview content
  = if (String.length content <=? 200)%nat then content
    else slice_to 200 content ++ "...".
Proof.
  unfold preview.
  destruct (200 <? String.length content)%nat eqn:Hlt;
    destruct (String.length content <=? 200)%nat eqn:Hle; try reflexivity.
  - apply Nat.ltb_lt in Hlt. apply Nat.leb_le in Hle. lia.
  - apply Nat.ltb_ge in Hlt. apply Nat.leb_gt in Hle. lia.
Qed.

Lemma imap_previews (f : nat -> Document -> Citation)
    (documents : list Document) :
  (forall i doc, content_preview (f i doc) = preview (page_content doc)) ->
  map content_preview (imap f documents)
  = map (fun doc => preview (page_content doc)) documents.
Proof.
  revert f. induction documents as [|doc rest IH]; intros f Hf.
  - reflexivity.
  - rewrite imap_cons. simpl. rewrite Hf. f_equal.
    apply IH. intros i d. apply Hf.
Qed.

(** C5.  [extract_citations] gives one citation per chunk, in order; each
    preview is the whole content when that has at most 200 characters, and
    its first 200 characters followed by three dots otherwise; no preview is
    longer than 203 characters. *)
Theorem extract_citations_preview (documents : list Document) :
  length (extract_citations documents) = length documents
  /\ map content_preview (extract_citations documents)
     = map (fun doc =>
              if (String.length (page_content doc) <=? 200)%nat
              then page_content doc
              else slice_to 200 (page_content doc) ++ "...")
           documents
  /\ Forall (fun c => (String.length (content_preview c) <= 203)%nat)
            (extract_citations documents).
Proof.
  assert (Hmap :
    map content_preview (extract_citations documents)
    = map (fun doc => preview (page_content doc)) documents)
    by (unfold extract_citations; now apply imap_previews).
  split; [unfold extract_citations; apply length_imap|].
  split.
  - rewrite Hmap. apply map_ext. intros doc. apply preview_cases.
  - apply Forall_forall. intros c Hc. apply list_elem_of_In in Hc.
    apply (in_map content_preview) in Hc. rewrite Hmap in Hc.
    apply in_map_iff in Hc. destruct Hc as [doc [<- _]].
    apply length_preview.
Qed.

(** ** The local metadata store *)

Lemma find_id_absent (doc_id : string) (documents : list dict) (i : nat) :
  existsb (has_id doc_id) documents = false ->
  find_id doc_id documents i = None.
Proof.
  revert i. induction documents as [|doc rest IH]; intros i; simpl.
  - reflexivity.
  - intros Habsent. apply orb_false_iff in Habsent as [Hdoc Hrest].
    rewrite Hdoc. now apply IH.
Qed.

(** C10.  On the local store, [update_document] and [delete_document] with
    an ID that no stored record carries return false and leave the world,
    the documents file and the count of rewrites included, as it was. *)
Theorem local_store_not_found (doc_id : string) (update_data : dict)
    (w : World) :
  id_present doc_id w = false ->
  update_document doc_id update_data w = (Ok false, w)
  /\ delete_document doc_id w = (Ok false, w).
Proof.
  unfold id_present, update_document, delete_document, try_except, bind,
    _load_json, file_at, ret, raise.
  destruct (documents_json w) as [|keys|documents] eqn:Hfile.
  - intros _. split; reflexivity.
  - intros _. destruct keys; split; reflexivity.
  - intros Habsent. rewrite (find_id_absent _ _ 0 Habsent).
    split; reflexivity.
Qed.

(** ** The chat-completion call *)

Lemma truthy_key (key : string) : key <> "" -> truthy (Some key) = true.
Proof. destruct key; [contradiction | reflexivity]. Qed.

(** C6.  With a configured key, [query_chatgpt] makes at most three posts.
    If the first two are answered 429 and the third 200, it returns the
    success record with the third response's content, after sleeping 2 and
    4 seconds; if all three are answered 429 it returns the rate-limit
    failure record after the third post and posts no more. *)
Theorem query_chatgpt_rate_limit (question context key : string) (w : World) :
  openai_api_key = Some key ->
  key <> "" ->
  status_of (requests_post (http_posts w) key (chat_prompt question context))
  = Some 429 ->
  status_of (requests_post (S (http_posts w)) key
               (chat_prompt question context)) = Some 429 ->
  (forall text content total_tokens,
     requests_post (S (S (http_posts w))) key (chat_prompt question context)
     = Response 200 text (Ok (Ok content, total_tokens)) ->
     exists r w',
       query_chatgpt question context w = (Ok (Some r), w')
       /\ chat_success r = true
       /\ chat_answer r = Some content
       /\ http_posts w' = http_posts w + 3
       /\ slept w' = (slept w ++ [2; 4])%list)
  /\ (status_of (requests_post (S (S (http_posts w))) key
                   (chat_prompt question context)) = Some 429 ->
      exists r w',
        query_chatgpt question context w = (Ok (Some r), w')
        /\ chat_success r = false
        /\ chat_error r
           = Some "Rate limit exceeded. Try again in a few minutes."
        /\ http_posts w' = http_posts w + 3
        /\ slept w' = (slept w ++ [2; 4])%list).
Proof.
  intros Hkey Hset H1 H2.
  unfold query_chatgpt. rewrite Hkey, (truthy_key key Hset). simpl default.
  set (prompt := chat_prompt question context) in *.
  destruct (requests_post (http_posts w) key prompt)
    as [s1 t1 j1|] eqn:E1; [|discriminate].
  destruct (requests_post (S (http_posts w)) key prompt)
    as [s2 t2 j2|] eqn:E2; [|discriminate].
  injection H1 as ->. injection H2 as ->.
  split.
  - intros text content total_tokens E3.
    eexists _, _. split.
    + unfold try_except, max_retries. simpl seq. simpl retry_loop.
      unfold bind, post, sleep, now, ret. simpl.
      rewrite E1. simpl. rewrite E2. simpl. rewrite E3. simpl.
      reflexivity.
    + simpl. repeat split; try reflexivity; try lia.
      now rewrite <- app_assoc.
  - intros H3.
    destruct (requests_post (S (S (http_posts w))) key prompt)
      as [s3 t3 j3|] eqn:E3; [|discriminate].
    injection H3 as ->.
    eexists _, _. split.
    + unfold try_except, max_retries. simpl seq. simpl retry_loop.
      unfold bind, post, sleep, now, ret. simpl.
      rewrite E1. simpl. rewrite E2. simpl. rewrite E3. simpl.
      reflexivity.
    + simpl. repeat split; try reflexivity; try lia.
      now rewrite <- app_assoc.
Qed.

(** ** What a computation leaves alone *)

Lemma stable_ret {A X} (proj : World -> X) (a : A) : stable proj (ret a).
Proof. intros w. reflexivity. Qed.

Lemma stable_raise {A X} (proj : World -> X) (e : string) :
  stable proj (@raise A e).
Proof. intros w. reflexivity. Qed.

Lemma stable_lift {A X} (proj : World -> X) (r : result A) :
  stable proj (lift r).
Proof. intros w. reflexivity. Qed.

Lemma stable_bind {A B X} (proj : World -> X) (m : M A) (k : A -> M B) :
  stable proj m -> (forall a, stable proj (k a)) -> stable proj (bind m k).
Proof.
  intros Hm Hk w. unfold bind. specialize (Hm w).
  destruct (m w) as [[a|e] w1]; simpl in *.
  - now rewrite Hk.
  - exact Hm.
Qed.

Lemma stable_try {A X} (proj : World -> X) (body : M A)
    (handler : string -> M A) :
  stable proj body -> (forall e, stable proj (handler e)) ->
  stable proj (try_except body handler).
Proof.
  intros Hm Hh w. unfold try_except. specialize (Hm w).
  destruct (body w) as [[a|e] w1]; simpl in *.
  - exact Hm.
  - now rewrite Hh.
Qed.

Create HintDb stable.
#[local] Hint Resolve stable_ret stable_raise stable_lift : stable.
#[local] Hint Extern 2 (stable _ (bind _ _)) =>
  apply stable_bind; [|intro] : stable.
#[local] Hint Extern 2 (stable _ (try_except _ _)) =>
  apply stable_try; [|intro] : stable.

(** ** Ingestion *)

Lemma prepare_metadata_run (document : Document) (filename : string)
    (i : nat) (w : World) :
  exists m,
    prepare_metadata document filename i w = (Ok m, snd (now w))
    /\ m !! "document_id" = Some (recorded_id filename document).
Proof.
  unfold prepare_metadata, bind, ret, recorded_id. simpl.
  eexists. split; [reflexivity|].
  destruct (dict_is_empty (metadata document)) eqn:Hempty.
  - unfold dict_is_empty in Hempty.
    destruct (map_to_list (metadata document)) eqn:Hlist; [|discriminate].
    apply map_to_list_empty_iff in Hlist. rewrite Hlist, lookup_empty.
    rewrite !lookup_insert_ne by discriminate. apply lookup_insert_eq.
  - rewrite lookup_union, !lookup_insert_ne by discriminate.
    rewrite lookup_insert_eq.
    destruct (metadata document !! "document_id"); reflexivity.
Qed.

Lemma process_chunks_built (filename category : string)
    (chunked_docs : list Document) (i : nat)
    (processed_docs : list Document) (document_ids : list pyval)
    (w w' : World) (built : list Document * list pyval) :
  process_chunks filename category chunked_docs i processed_docs document_ids w
  = (Ok built, w') ->
  length (fst built) = length processed_docs + length chunked_docs
  /\ snd built
     = (document_ids ++ map (recorded_id filename) chunked_docs)%list.
Proof.
  revert i processed_docs document_ids w.
  induction chunked_docs as [|chunk rest IH];
    intros i processed_docs document_ids w; simpl.
  - unfold ret. intros [= <- <-]. simpl.
    split; [lia | now rewrite app_nil_r].
  - destruct (prepare_metadata_run chunk filename i w) as (m & Hm & Hid).
    rewrite (bind_run _ _ _ _ _ Hm).
    rewrite lookup_insert_ne by discriminate. rewrite Hid.
    intros Hrest. apply IH in Hrest as [Hlen Hids].
    rewrite length_app in Hlen. simpl in Hlen.
    rewrite <- app_assoc in Hids. simpl in Hids.
    split; [lia | exact Hids].
Qed.

Lemma stable_process_chunks {X} (proj : World -> X)
    (filename category : string) (chunked_docs : list Document) (i : nat)
    (processed_docs : list Document) (document_ids : list pyval) :
  stable proj now ->
  stable proj
    (process_chunks filename category chunked_docs i processed_docs
                    document_ids).
Proof.
  intros Hnow. revert i processed_docs document_ids.
  induction chunked_docs as [|chunk rest IH];
    intros i processed_docs document_ids; simpl.
  - apply stable_ret.
  - apply stable_bind.
    + unfold prepare_metadata. apply stable_bind; [exact Hnow|].
      intros t. apply stable_ret.
    + intros m.
      destruct (<["category" := VStr category]> m !! "document_id");
        [apply IH | apply stable_raise].
Qed.

Lemma stable_extract_text {X} (proj : World -> X) (file_path : string) :
  stable proj (extract_text file_path).
Proof.
  intros w. unfold extract_text, bind, validate_file, try_except, load, raise,
    ret.
  destruct (fs w !! file_path) as [bytes|] eqn:Hfile; [|reflexivity].
  destruct (existsb (String.eqb (lower (path_suffix file_path)))
                   supported_extensions); [|reflexivity].
  cbn beta iota delta [negb]. rewrite Hfile.
  destruct (loader_load _ _ _); reflexivity.
Qed.

Lemma stable_getsize {X} (proj : World -> X) (file_path : string) :
  stable proj (getsize file_path).
Proof.
  intros w. unfold getsize. destruct (fs w !! file_path); reflexivity.
Qed.

Lemma stable_create_document_fs (document_data : dict) :
  stable fs (create_document document_data).
Proof.
  intros w. unfold create_document, try_except, bind, _load_json, _save_json,
    file_at, lift, py_append, ret, raise. simpl.
  destruct (documents_json w); simpl; try reflexivity;
    destruct (data_writable w); reflexivity.
Qed.

Lemma stable_process_and_store_fs (file_path category : string) :
  stable fs (process_and_store file_path category).
Proof.
  unfold process_and_store. apply stable_try; [|auto with stable].
  apply stable_bind; [apply stable_extract_text|].
  intros [|doc documents]; [apply stable_raise|].
  apply stable_bind; [unfold chunk_documents; auto with stable|].
  intros chunked_docs.
  apply stable_bind;
    [apply stable_process_chunks; intros w; reflexivity|].
  intros built.
  apply stable_bind; [unfold add_documents; auto with stable|].
  intros vector_ids.
  apply stable_bind; [intros w; reflexivity|]. intros t.
  apply stable_bind; [apply stable_getsize|]. intros file_size.
  apply stable_bind; [apply stable_create_document_fs|]. intros metadata_id.
  apply stable_ret.
Qed.

Lemma process_and_store_returns (file_path category : string) (w : World) :
  exists r w',
    process_and_store file_path category w = (Ok r, w') /\ fs w' = fs w.
Proof.
  pose proof (stable_process_and_store_fs file_path category w) as Hfs.
  unfold process_and_store, try_except, ret in *.
  match goal with
  | H : context [match ?body w with _ => _ end] |- _ =>
      destruct (body w) as [[r|e] w1]
  end; simpl in Hfs; eauto.
Qed.

Lemma bind_inv {A B} (m : M A) (k : A -> M B) (w : World) (b : B)
    (w' : World) :
  bind m k w = (Ok b, w') ->
  exists a w1, m w = (Ok a, w1) /\ k a w1 = (Ok b, w').
Proof.
  unfold bind. destruct (m w) as [[a|e] w1]; [eauto | discriminate].
Qed.

Lemma try_inv {A} (body : M A) (handler : string -> M A) (w : World) (a : A)
    (w' : World) :
  try_except body handler w = (Ok a, w') ->
  body w = (Ok a, w')
  \/ exists e w1, body w = (Raise e, w1) /\ handler e w1 = (Ok a, w').
Proof.
  unfold try_except. destruct (body w) as [[a'|e] w1]; eauto.
Qed.

Lemma stable_run {A X} (proj : World -> X) (m : M A) (w : World)
    (r : result A) (w' : World) :
  stable proj m -> m w = (r, w') -> proj w' = proj w.
Proof. intros Hm Hrun. specialize (Hm w). now rewrite Hrun in Hm. Qed.

Lemma create_document_stores (document_data : dict) (w w' : World)
    (doc_id : string) :
  create_document document_data w = (Ok doc_id, w') ->
  exists record,
    record !! "total_chunks" = document_data !! "total_chunks"
    /\ record !! "document_ids" = document_data !! "document_ids"
    /\ (data_writable w = true ->
        exists stored, documents_json w' = JArray (stored ++ [record])).
Proof.
  intros Hrun.
  exists (<["updated_at" := VStr (isoformat (S (S (clock w))))]>
            (<["created_at" := VStr (isoformat (S (clock w)))]>
               (<["id" :=
                    VStr ("doc_"
                          ++ pretty (py_len
                                       (match documents_json w with
                                        | Unreadable => JArray []
                                        | j => j
                                        end) + 1)
                          ++ "_" ++ strftime (clock w))]> document_data))).
  split; [now rewrite !lookup_insert_ne by discriminate|].
  split; [now rewrite !lookup_insert_ne by discriminate|].
  intros Hwritable.
  unfold create_document, try_except, bind, _load_json, _save_json, file_at,
    lift, py_append, ret, raise in Hrun. simpl in Hrun.
  destruct (documents_json w) as [|keys|stored]; simpl in Hrun;
    try discriminate; rewrite Hwritable in Hrun; simpl in Hrun;
    injection Hrun as _ <-; simpl; eauto.
  exists []. reflexivity.
Qed.

(** C4.  When [process_and_store] succeeds, the record it hands to the
    metadata store has [total_chunks] equal to the number of chunks the
    splitter produced and a [document_ids] list of that same length, holding
    the recorded ID of each chunk in order; on a writable store that record
    is the last one of the documents file afterwards. *)
Theorem process_and_store_total_chunks (file_path category : string)
    (w w' : World) (r : IngestResult) :
  process_and_store file_path category w = (Ok r, w') ->
  ing_success r = true ->
  exists documents chunked_docs record document_ids,
    fst (extract_text file_path w) = Ok documents
    /\ split_documents documents = Ok chunked_docs
    /\ chunks_created r = Some (length chunked_docs)
    /\ record !! "total_chunks"
       = Some (VInt (Z.of_nat (length chunked_docs)))
    /\ record !! "document_ids" = Some (VList document_ids)
    /\ length document_ids = length chunked_docs
    /\ document_ids
       = map (recorded_id (path_name file_path)) chunked_docs
    /\ (data_writable w = true ->
        exists stored, documents_json w' = JArray (stored ++ [record])).
Proof.
  intros Hrun Hsuccess. unfold process_and_store in Hrun.
  apply try_inv in Hrun as [Hbody | (e & w0 & _ & Hfail)].
  2: { unfold ret in Hfail. injection Hfail as <- _. discriminate. }
  apply bind_inv in Hbody as (documents & w1 & Hextract & Hbody).
  destruct documents as [|doc documents]; [discriminate|].
  apply bind_inv in Hbody as (chunked_docs & w2 & Hchunk & Hbody).
  apply bind_inv in Hbody as (built & w3 & Hbuilt & Hbody).
  apply bind_inv in Hbody as (vector_ids & w4 & Hadd & Hbody).
  apply bind_inv in Hbody as (t & w5 & Hnow & Hbody).
  apply bind_inv in Hbody as (file_size & w6 & Hsize & Hbody).
  apply bind_inv in Hbody as (metadata_id & w7 & Hcreate & Hbody).
  unfold ret in Hbody. injection Hbody as <- <-.
  apply process_chunks_built in Hbuilt as Hlen. simpl in Hlen.
  destruct Hlen as [Hprocessed Hids].
  apply create_document_stores in Hcreate as (record & Htotal & Hdocids & Hfile).
  assert (Hsplit : split_documents (doc :: documents) = Ok chunked_docs).
  { unfold chunk_documents, try_except, lift, raise in Hchunk.
    destruct (split_documents (doc :: documents)); [|discriminate].
    now injection Hchunk as -> _. }
  assert (Hw : data_writable w6 = data_writable w).
  { assert (Hclock : stable data_writable now) by (intros ?; reflexivity).
    rewrite (stable_run data_writable _ _ _ _ (stable_getsize _ _) Hsize).
    rewrite (stable_run data_writable now _ _ _ Hclock Hnow).
    assert (Hadd' : stable data_writable (add_documents (fst built)))
      by (unfold add_documents; auto with stable).
    rewrite (stable_run data_writable _ _ _ _ Hadd' Hadd).
    rewrite (stable_run data_writable _ _ _ _
               (stable_process_chunks _ _ _ _ _ _ _ Hclock) Hbuilt).
    assert (Hchunk' : stable data_writable (chunk_documents (doc :: documents)))
      by (unfold chunk_documents; auto with stable).
    rewrite (stable_run data_writable _ _ _ _ Hchunk' Hchunk).
    exact (stable_run data_writable _ _ _ _ (stable_extract_text _ _)
             Hextract). }
  exists (doc :: documents), chunked_docs, record, (snd built).
  split; [now rewrite Hextract|].
  split; [exact Hsplit|].
  split; [simpl; now rewrite Hprocessed|].
  split; [rewrite Htotal, Hprocessed; reflexivity|].
  split; [rewrite Hdocids; reflexivity|].
  split; [rewrite Hids; apply length_map|].
  split; [exact Hids|].
  intros Hwritable. apply Hfile. now rewrite Hw.
Qed.

(** C8.  The ID of a chunk is the stem of the filename, an underscore and
    the first eight hexadecimal digits of the MD5 of the content, and so a
    function of content and filename alone: two chunks with the same
    content get the same [generate_document_id] under one filename.  The ID
    tells apart what the digest and the stem tell apart: under one filename
    two contents get the same ID exactly when the first eight digits of
    their MD5 agree, and one content gets the same ID under two filenames
    exactly when their stems agree.  [prepare_metadata] records that ID for
    a chunk whose loader metadata has no [document_id] key, and in any case
    records the same entry for two chunks that agree on content and on that
    key, whatever the clock reads and wherever the chunks stand in their
    files. *)
Theorem document_id_deterministic (chunk1 chunk2 : Document)
    (filename : string) (i1 i2 : nat) (w1 w2 : World) :
  page_content chunk1 = page_content chunk2 ->
  generate_document_id (page_content chunk1) filename
  = generate_document_id (page_content chunk2) filename
  /\ generate_document_id (page_content chunk1) filename
     = path_stem filename ++ "_"
       ++ slice_to 8 (md5_hexdigest (page_content chunk1))
  /\ (forall content,
        generate_document_id content filename
        = generate_document_id (page_content chunk1) filename
        <-> slice_to 8 (md5_hexdigest content)
            = slice_to 8 (md5_hexdigest (page_content chunk1)))
  /\ (forall filename',
        generate_document_id (page_content chunk1) filename'
        = generate_document_id (page_content chunk1) filename
        <-> path_stem filename' = path_stem filename)
  /\ (exists m1,
        fst (prepare_metadata chunk1 filename i1 w1) = Ok m1
        /\ (metadata chunk1 !! "document_id" = None ->
            m1 !! "document_id"
            = Some (VStr (generate_document_id (page_content chunk1)
                            filename)))
        /\ (metadata chunk1 !! "document_id"
            = metadata chunk2 !! "document_id" ->
            exists m2,
              fst (prepare_metadata chunk2 filename i2 w2) = Ok m2
              /\ m2 !! "document_id" = m1 !! "document_id")).
Proof.
  intros Hcontent.
  split; [now rewrite Hcontent|].
  split; [reflexivity|].
  split.
  { intros content. unfold generate_document_id. split.
    - intros H. apply append_inv_head in H. now apply append_inv_head in H.
    - now intros ->. }
  split.
  { intros filename'. unfold generate_document_id. split.
    - apply append_inv_tail.
    - now intros ->. }
  destruct (prepare_metadata_run chunk1 filename i1 w1) as (m1 & Hm1 & Hid1).
  destruct (prepare_metadata_run chunk2 filename i2 w2) as (m2 & Hm2 & Hid2).
  exists m1. split; [now rewrite Hm1|]. split.
  - intros Hfree. rewrite Hid1. unfold recorded_id. now rewrite Hfree.
  - intros Hsame. exists m2. split; [now rewrite Hm2|].
    rewrite Hid1, Hid2. unfold recorded_id. now rewrite Hcontent, Hsame.
Qed.

(** ** Batches of uploads *)





(** When [getbuffer()] raises after [open] has created the temporary file,
    the error record is appended and the file stays where it is: the
    handler of the loop does not remove it. *)
Lemma process_upload_save_failure (category : string)
    (uploaded_file : UploadedFile) (results : list IngestResult) (w : World)
    (e : string) :
  openable (upload_path (name uploaded_file)) = true ->
  getbuffer uploaded_file = Raise e ->
  process_upload category uploaded_file results w
  = (Ok (results ++ [error_result uploaded_file e])%list,
     set_fs (<[upload_path (name uploaded_file) := ""]> (fs w)) w).
Proof.
  intros Hopen Hbuffer.
  unfold process_upload, try_except, bind, save_upload, ret.
  now rewrite Hopen, Hbuffer.
Qed.


(** * Further properties of the pipeline *)

(** ** Queries: what the response reports *)

Lemma generate_answer_returns (question context : string) (w : World) :
  exists text,
    generate_answer question context w
    = (Ok text, record_llm_call (prompt_format context question) w).
Proof.
  unfold generate_answer, try_except, bind, llm_invoke, ret, raise.
  destruct (llm (prompt_format context question)) as [[content|s|str]|e];
    try (eexists; reflexivity).
  destruct content; eexists; reflexivity.
Qed.

Lemma log_query_keeps_llm_calls (query_data : dict) :
  stable llm_calls (log_query query_data).
Proof.
  intros w. unfold log_query, try_except, bind, _load_json, _save_json,
    file_at, lift, py_append, ret, raise. simpl.
  destruct (queries_json w); simpl; try reflexivity;
    destruct (data_writable w); reflexivity.
Qed.

Lemma swallowed_stable {A X} (proj : World -> X) (body : M A) :
  stable proj body ->
  stable proj (try_except (x <~ body ; ret tt) (fun e => ret tt)).
Proof. intros Hbody. auto with stable. Qed.

Lemma query_run_summary (question : string) (k : nat)
    (category_filter : option string) (w : World) :
  exists documents response w',
    retrieve_documents question k category_filter w = (Ok documents, w)
    /\ query question k category_filter w = (Ok response, w')
    /\ length (sources response) = length documents
    /\ query_text response = question
    /\ timestamp response = isoformat (clock w)
    /\ error response = None
    /\ match documents with
       | [] =>
           success response = false
           /\ answer response = no_information
           /\ llm_calls w' = llm_calls w
       | _ =>
           success response = true
           /\ documents_retrieved response = Some (length documents)
           /\ llm_calls w'
              = (llm_calls w
                 ++ [prompt_format (format_context documents) question])%list
       end.
Proof.
  exists (retrieved question k category_filter).
  destruct (retrieved question k category_filter) as [|doc rest] eqn:Hdocs.
  - eexists _, _. split; [now rewrite retrieve_documents_run, Hdocs|].
    split; [now apply query_empty_run|].
    repeat split; reflexivity.
  - destruct (generate_answer_returns question
                (format_context (doc :: rest)) (snd (now w)))
      as [text Hanswer].
    pose proof (swallowed_returns
                  (log_query
                     (list_to_map
                        [("question", VStr question);
                         ("answer", VStr text);
                         ("documents_retrieved",
                          VInt (Z.of_nat (length (doc :: rest))));
                         ("timestamp", VStr (isoformat (clock w)));
                         ("model", VStr model_name);
                         ("category_filter", optional_str category_filter)]))
                  (record_llm_call
                     (prompt_format (format_context (doc :: rest)) question)
                     (snd (now w)))) as [w2 Hlog].
    pose proof (swallowed_stable llm_calls _
                  (log_query_keeps_llm_calls
                     (list_to_map
                        [("question", VStr question);
                         ("answer", VStr text);
                         ("documents_retrieved",
                          VInt (Z.of_nat (length (doc :: rest))));
                         ("timestamp", VStr (isoformat (clock w)));
                         ("model", VStr model_name);
                         ("category_filter", optional_str category_filter)]))
                  (record_llm_call
                     (prompt_format (format_context (doc :: rest)) question)
                     (snd (now w)))) as Hcalls.
    rewrite Hlog in Hcalls. simpl in Hcalls.
    eexists _, w2. split; [now rewrite retrieve_documents_run, Hdocs|].
    split.
    + unfold query. apply try_ok.
      rewrite (bind_run _ _ w (clock w) (snd (now w))) by reflexivity.
      rewrite (bind_run _ _ _ _ _ (retrieve_documents_run _ _ _ _)).
      rewrite Hdocs.
      rewrite (bind_run _ _ _ _ _ Hanswer).
      rewrite (bind_run _ _ _ _ _ Hlog).
      reflexivity.
    + simpl. split; [unfold extract_citations; now rewrite length_imap|].
      repeat split; try reflexivity. exact Hcalls.
Qed.

(** X1.  [query] never raises.  Its success flag says whether any chunk was
    retrieved and nothing more: it is false with the no-information answer
    when none was, true otherwise, whatever the model did.  The response has
    one source per retrieved chunk, and the model is invoked exactly once
    when chunks were retrieved, with the prompt built from them, and not at
    all otherwise. *)
Theorem query_reports_retrieval (question : string) (k : nat)
    (category_filter : option string) (w : World) :
  exists documents response w',
    retrieve_documents question k category_filter w = (Ok documents, w)
    /\ query question k category_filter w = (Ok response, w')
    /\ length (sources response) = length documents
    /\ query_text response = question
    /\ timestamp response = isoformat (clock w)
    /\ error response = None
    /\ match documents with
       | [] =>
           success response = false
           /\ answer response = no_information
           /\ llm_calls w' = llm_calls w
       | _ =>
           success response = true
           /\ documents_retrieved response = Some (length documents)
           /\ llm_calls w'
              = (llm_calls w
                 ++ [prompt_format (format_context documents) question])%list
       end.
Proof. apply query_run_summary. Qed.

(** ** Queries: what is logged *)

Lemma log_query_appends (query_data : dict) (stored : list dict) (w : World) :
  queries_json w = JArray stored ->
  data_writable w = true ->
  exists query_id w',
    log_query query_data w = (Ok query_id, w')
    /\ queries_json w'
       = JArray (stored ++ [logged_entry query_data (length stored) (clock w)])
    /\ documents_json w' = documents_json w
    /\ json_writes w' = S (json_writes w).
Proof.
  intros Hfile Hwritable.
  unfold log_query, try_except, bind, _load_json, _save_json, file_at, lift,
    py_append, ret, raise. simpl.
  rewrite Hfile. simpl. rewrite Hwritable. simpl.
  eexists _, _. repeat split; reflexivity.
Qed.

Lemma generate_answer_text (question context s : string)
    (response : llm_response) (w : World) :
  llm (prompt_format context question) = Ok response ->
  response_text response = Some s ->
  generate_answer question context w
  = (Ok (strip s), record_llm_call (prompt_format context question) w).
Proof.
  intros Hllm Htext.
  unfold generate_answer, try_except, bind, llm_invoke, ret, raise.
  rewrite Hllm.
  destruct response as [content|t|str]; simpl in Htext.
  - destruct content; try discriminate. now injection Htext as ->.
  - now injection Htext as ->.
  - now injection Htext as ->.
Qed.

(** X2.  When chunks are retrieved and the model returns text, [query]
    answers with that text stripped and cites the chunks, and on a writable,
    readable query log it appends exactly one record, which carries the
    question, the answer given, the number of chunks and the filter; the
    record's timestamp is the time of logging, two clock readings after the
    one the response shows. *)
Theorem query_answer_logged (question : string) (k : nat)
    (category_filter : option string) (w : World)
    (documents : list Document) (response : llm_response) (s : string)
    (stored : list dict) :
  retrieve_documents question k category_filter w = (Ok documents, w) ->
  documents <> [] ->
  llm (prompt_format (format_context documents) question) = Ok response ->
  response_text response = Some s ->
  queries_json w = JArray stored ->
  data_writable w = true ->
  exists r w' entry,
    query question k category_filter w = (Ok r, w')
    /\ success r = true
    /\ answer r = strip s
    /\ sources r = extract_citations documents
    /\ timestamp r = isoformat (clock w)
    /\ queries_json w' = JArray (stored ++ [entry])
    /\ entry !! "question" = Some (VStr question)
    /\ entry !! "answer" = Some (VStr (strip s))
    /\ entry !! "documents_retrieved"
       = Some (VInt (Z.of_nat (length documents)))
    /\ entry !! "category_filter" = Some (optional_str category_filter)
    /\ entry !! "timestamp" = Some (VStr (isoformat (clock w + 2))).
Proof.
  rewrite retrieve_documents_run. intros [= Hdocs] Hsome Hllm Htext Hfile
    Hwritable.
  pose proof (generate_answer_text question (format_context documents) s
                response (snd (now w)) Hllm Htext) as Hanswer.
  set (w1 := record_llm_call
               (prompt_format (format_context documents) question)
               (snd (now w))) in *.
  set (data :=
         (list_to_map
            [("question", VStr question);
             ("answer", VStr (strip s));
             ("documents_retrieved", VInt (Z.of_nat (length documents)));
             ("timestamp", VStr (isoformat (clock w)));
             ("model", VStr model_name);
             ("category_filter", optional_str category_filter)] : dict)).
  destruct (log_query_appends data stored w1 Hfile Hwritable)
    as (query_id & w2 & Hlog & Hqueries & _ & _).
  exists {| answer := strip s;
            sources := extract_citations documents;
            query_text := question;
            timestamp := isoformat (clock w);
            model := model_name;
            documents_retrieved := Some (length documents);
            category_filter := Some category_filter;
            success := true;
            error := None |}, w2,
    (logged_entry data (length stored) (clock w1)).
  split.
  - unfold query. apply try_ok.
    rewrite (bind_run _ _ w (clock w) (snd (now w))) by reflexivity.
    rewrite (bind_run _ _ _ _ _ (retrieve_documents_run _ _ _ _)).
    rewrite Hdocs.
    destruct documents as [|doc rest]; [contradiction|].
    rewrite (bind_run _ _ _ _ _ Hanswer).
    erewrite (bind_run _ _ w1 tt w2).
    + reflexivity.
    + apply try_ok. now rewrite (bind_run _ _ _ _ _ Hlog).
  - repeat split; try reflexivity; try exact Hqueries;
      unfold logged_entry, data; simpl;
      rewrite ?lookup_insert_ne by discriminate;
      try apply lookup_insert_eq.
    rewrite lookup_insert_eq. do 3 f_equal. lia.
Qed.

(** X3.  A query for which no chunk is retrieved is not logged: the query
    log, the documents file and the count of rewrites are as before. *)
Theorem query_unanswered_not_logged (question : string) (k : nat)
    (category_filter : option string) (w : World) :
  retrieve_documents question k category_filter w = (Ok [], w) ->
  exists r w',
    query question k category_filter w = (Ok r, w')
    /\ success r = false
    /\ queries_json w' = queries_json w
    /\ documents_json w' = documents_json w
    /\ json_writes w' = json_writes w.
Proof.
  rewrite retrieve_documents_run. intros [= Hnone].
  eexists _, _. split; [now apply query_empty_run|].
  repeat split; reflexivity.
Qed.

Lemma log_query_fails_quietly (query_data : dict) (w : World) :
  (exists keys, queries_json w = JObject keys) \/ data_writable w = false ->
  queries_json (snd (log_query query_data w)) = queries_json w.
Proof.
  intros Hbad.
  unfold log_query, try_except, bind, _load_json, _save_json, file_at, lift,
    py_append, ret, raise. simpl.
  destruct Hbad as [[keys Hfile] | Hro].
  - rewrite Hfile. simpl. exact Hfile.
  - destruct (queries_json w) eqn:Hfile; simpl; rewrite ?Hro; simpl;
      try reflexivity; exact Hfile.
Qed.

(** X4.  Logging is best effort.  When the query log cannot take the record,
    because the file holds a JSON object instead of a list or cannot be
    written, [query] returns the same successful response and the log stays
    as it was. *)
Theorem query_log_failure_swallowed (question : string) (k : nat)
    (category_filter : option string) (w : World)
    (documents : list Document) (response : llm_response) (s : string) :
  retrieve_documents question k category_filter w = (Ok documents, w) ->
  documents <> [] ->
  llm (prompt_format (format_context documents) question) = Ok response ->
  response_text response = Some s ->
  (exists keys, queries_json w = JObject keys) \/ data_writable w = false ->
  exists r w',
    query question k category_filter w = (Ok r, w')
    /\ success r = true
    /\ answer r = strip s
    /\ sources r = extract_citations documents
    /\ queries_json w' = queries_json w.
Proof.
  rewrite retrieve_documents_run. intros [= Hdocs] Hsome Hllm Htext Hbad.
  pose proof (generate_answer_text question (format_context documents) s
                response (snd (now w)) Hllm Htext) as Hanswer.
  set (w1 := record_llm_call
               (prompt_format (format_context documents) question)
               (snd (now w))) in *.
  set (data :=
         (list_to_map
            [("question", VStr question);
             ("answer", VStr (strip s));
             ("documents_retrieved", VInt (Z.of_nat (length documents)));
             ("timestamp", VStr (isoformat (clock w)));
             ("model", VStr model_name);
             ("category_filter", optional_str category_filter)] : dict)).
  assert (Hlogged :
    exists w2,
      try_except (query_id <~ log_query data ; ret tt) (fun e => ret tt) w1
      = (Ok tt, w2)
      /\ queries_json w2 = queries_json w).
  { pose proof (log_query_fails_quietly data w1 Hbad) as Hkeep.
    unfold try_except, bind, ret.
    destruct (log_query data w1) as [[query_id|e] w2]; simpl in Hkeep;
      exists w2; split; try reflexivity; exact Hkeep. }
  destruct Hlogged as (w2 & Hlog & Hqueries).
  exists {| answer := strip s;
            sources := extract_citations documents;
            query_text := question;
            timestamp := isoformat (clock w);
            model := model_name;
            documents_retrieved := Some (length documents);
            category_filter := Some category_filter;
            success := true;
            error := None |}, w2.
  split.
  - unfold query. apply try_ok.
    rewrite (bind_run _ _ w (clock w) (snd (now w))) by reflexivity.
    rewrite (bind_run _ _ _ _ _ (retrieve_documents_run _ _ _ _)).
    rewrite Hdocs.
    destruct documents as [|doc rest]; [contradiction|].
    rewrite (bind_run _ _ _ _ _ Hanswer).
    now rewrite (bind_run _ _ _ _ _ Hlog).
  - repeat split; try reflexivity. exact Hqueries.
Qed.

(** ** The chat-completion call: every path *)

(** X5.  [query_chatgpt] always returns a result record, never [None] and
    never an exception.  It makes at most three posts and sleeps at most
    twice, never longer than four seconds at a time; without a configured
    key it makes no post at all and leaves the world untouched.  A record
    marked successful has an answer and no error, any other record has an
    error and no answer. *)
Theorem query_chatgpt_bounded (question context : string) (w : World) :
  exists r w',
    query_chatgpt question context w = (Ok (Some r), w')
    /\ (http_posts w' <= http_posts w + 3)%nat
    /\ (exists naps,
          slept w' = (slept w ++ naps)%list
          /\ (length naps <= 2)%nat
          /\ Forall (fun secs => (secs <= 4)%nat) naps)
    /\ (truthy openai_api_key = false ->
        w' = w /\ chat_error r = Some "OpenAI API key not configured")
    /\ (if chat_success r
        then (exists content, chat_answer r = Some content)
             /\ chat_error r = None
        else chat_answer r = None /\ exists e, chat_error r = Some e).
Proof.
  unfold query_chatgpt, try_except.
  destruct (truthy openai_api_key) eqn:Hkey.
  2: { eexists _, _. split; [reflexivity|]. simpl.
       split; [lia|]. split; [exists []; rewrite app_nil_r; auto|].
       split; [auto|]. split; eauto. }
  unfold max_retries. simpl seq. simpl retry_loop.
  unfold bind, post, sleep, now, ret, raise. simpl.
  repeat match goal with
         | |- context [requests_post ?n ?key ?p] =>
             destruct (requests_post n key p) as [? ? [[[?|?] ?]|?]|?];
             simpl
         | |- context [(?sc =? ?c)%nat] => destruct (sc =? c)%nat; simpl
         end;
    (eexists _, _; split; [reflexivity|]; simpl;
     split; [lia|];
     split;
     [first [ exists []; split; [now rewrite app_nil_r|];
              split; [simpl; lia | constructor]
            | eexists [_]; split; [reflexivity|];
              split; [simpl; lia | repeat constructor; lia]
            | eexists [_; _]; split; [now rewrite <- app_assoc|];
              split; [simpl; lia | repeat constructor; lia] ]|];
     split; [discriminate|];
     first [ split; [eexists; reflexivity | reflexivity]
           | split; [reflexivity | eexists; reflexivity] ]).
Qed.

(** X6.  A response with a status other than 200 and 429 is final: the call
    returns the failure record naming the status and the body after that
    single post, without sleeping or retrying. *)
Theorem query_chatgpt_error_status (question context key : string)
    (w : World) (status_code : nat) (text : string)
    (json : result (result pyval * Z)) :
  openai_api_key = Some key ->
  key <> EmptyString ->
  requests_post (http_posts w) key (chat_prompt question context)
  = Response status_code text json ->
  status_code <> 200 ->
  status_code <> 429 ->
  exists w',
    query_chatgpt question context w
    = (Ok (Some (chat_failure
                   ("OpenAI API error: " ++ pretty status_code ++ " - "
                    ++ text))), w')
    /\ http_posts w' = S (http_posts w)
    /\ slept w' = slept w
    /\ clock w' = clock w.
Proof.
  intros Hkey Hset Hpost H200 H429.
  unfold query_chatgpt, try_except. rewrite Hkey, (truthy_key key Hset).
  unfold max_retries. simpl seq. simpl retry_loop.
  unfold bind, post, ret. simpl. rewrite Hpost.
  apply Nat.eqb_neq in H200, H429. rewrite H200, H429.
  eexists. repeat split; reflexivity.
Qed.

(** X7.  Transport failures.  A [requests.RequestException] on the first
    attempt is not retried: [import time] in the rate-limit branch makes
    [time] a local name of the function, so the handler's [time.sleep]
    raises [UnboundLocalError], and the call returns after that single
    post, without having slept, the failure record with the text of that
    error and not of the request's.  Once a 429 has been answered in the
    call the name is bound: after a 429 and a transport failure the call
    has slept two seconds twice and posts a third time; a 200 then gives
    the success record with that response's content, and another transport
    failure the failure record with the message of that last exception. *)
Theorem query_chatgpt_transport_errors (question context key : string)
    (w : World) (e1 : string) :
  openai_api_key = Some key ->
  key <> EmptyString ->
  (requests_post (http_posts w) key (chat_prompt question context)
   = RequestException e1 ->
   exists w',
     query_chatgpt question context w
     = (Ok (Some (chat_failure unbound_local_error)), w')
     /\ http_posts w' = S (http_posts w)
     /\ slept w' = slept w)
  /\ (status_of (requests_post (http_posts w) key
                   (chat_prompt question context)) = Some 429 ->
      requests_post (S (http_posts w)) key (chat_prompt question context)
      = RequestException e1 ->
      (forall text content total_tokens,
         requests_post (S (S (http_posts w))) key
           (chat_prompt question context)
         = Response 200 text (Ok (Ok content, total_tokens)) ->
         exists r w',
           query_chatgpt question context w = (Ok (Some r), w')
           /\ chat_success r = true
           /\ chat_answer r = Some content
           /\ http_posts w' = http_posts w + 3
           /\ slept w' = (slept w ++ [2; 2])%list)
      /\ (forall e3,
            requests_post (S (S (http_posts w))) key
              (chat_prompt question context)
            = RequestException e3 ->
            exists w',
              query_chatgpt question context w
              = (Ok (Some (chat_failure ("Request failed: " ++ e3))), w')
              /\ http_posts w' = http_posts w + 3
              /\ slept w' = (slept w ++ [2; 2])%list)).
Proof.
  intros Hkey Hset.
  unfold query_chatgpt, try_except. rewrite Hkey, (truthy_key key Hset).
  unfold max_retries. simpl seq. simpl retry_loop.
  unfold bind, post, sleep, now, ret, raise. simpl.
  split.
  - intros H1. rewrite H1. simpl.
    eexists. split; [reflexivity|]. split; reflexivity.
  - intros H1 H2.
    destruct (requests_post (http_posts w) key
                (chat_prompt question context))
      as [s1 t1 j1|] eqn:E1; [|discriminate].
    injection H1 as ->. simpl. rewrite H2. simpl.
    split.
    + intros text content total_tokens H3. rewrite H3. simpl.
      eexists _, _. split; [reflexivity|]. simpl.
      repeat split; try reflexivity; try lia.
      now rewrite <- app_assoc.
    + intros e3 H3. rewrite H3. simpl.
      eexists. split; [reflexivity|]. simpl.
      split; [lia | now rewrite <- app_assoc].
Qed.

(** ** The local metadata store: writes and reads *)

Lemma find_id_first (doc_id : string) (before after : list dict) (doc : dict)
    (i : nat) :
  existsb (has_id doc_id) before = false ->
  has_id doc_id doc = true ->
  find_id doc_id (before ++ doc :: after) i = Some (i + length before).
Proof.
  revert i. induction before as [|d before IH]; intros i; simpl.
  - intros _ ->. f_equal. lia.
  - intros Habsent Hdoc. apply orb_false_iff in Habsent as [Hd Hbefore].
    rewrite Hd, (IH (S i) Hbefore Hdoc). f_equal. lia.
Qed.

Lemma find_first (doc_id : string) (before after : list dict) (doc : dict) :
  existsb (has_id doc_id) before = false ->
  has_id doc_id doc = true ->
  List.find (has_id doc_id) (before ++ doc :: after) = Some doc.
Proof.
  induction before as [|d before IH]; simpl.
  - now intros _ ->.
  - intros Habsent Hdoc. apply orb_false_iff in Habsent as [Hd Hbefore].
    rewrite Hd. now apply IH.
Qed.

Lemma find_absent (doc_id : string) (documents : list dict) :
  existsb (has_id doc_id) documents = false ->
  List.find (has_id doc_id) documents = None.
Proof.
  induction documents as [|d rest IH]; simpl; [reflexivity|].
  intros Habsent. apply orb_false_iff in Habsent as [Hd Hrest].
  rewrite Hd. now apply IH.
Qed.

Lemma created_record_has_id (document_data : dict) (n t : nat) :
  has_id (new_document_id n t) (created_record document_data n t) = true.
Proof.
  unfold has_id, created_record.
  rewrite !lookup_insert_ne by discriminate. rewrite lookup_insert_eq.
  apply String.eqb_refl.
Qed.

Lemma create_document_run (document_data : dict) (stored : list dict)
    (w : World) :
  documents_json w = JArray stored ->
  data_writable w = true ->
  exists w',
    create_document document_data w
    = (Ok (new_document_id (length stored) (clock w)), w')
    /\ documents_json w'
       = JArray (stored
                 ++ [created_record document_data (length stored) (clock w)])
    /\ queries_json w' = queries_json w
    /\ data_writable w' = true
    /\ json_writes w' = S (json_writes w)
    /\ clock w' = clock w + 3.
Proof.
  intros Hfile Hwritable.
  unfold create_document, try_except, bind, _load_json, _save_json, file_at,
    lift, py_append, ret, raise. simpl.
  rewrite Hfile. simpl. rewrite Hwritable. simpl.
  eexists. repeat split; try reflexivity. simpl. lia.
Qed.

Lemma get_document_run (doc_id : string) (stored : list dict) (w : World) :
  documents_json w = JArray stored ->
  get_document doc_id w = (Ok (List.find (has_id doc_id) stored), w).
Proof.
  intros Hfile.
  unfold get_document, try_except, bind, _load_json, file_at, ret.
  now rewrite Hfile.
Qed.

(** X8.  Round trip on a writable store holding a list: [create_document]
    appends one record and returns its ID, and when no stored record already
    carries that ID, [get_document] on it returns the record just stored,
    which agrees with the data passed on every key but [id], [created_at]
    and [updated_at]. *)
Theorem create_then_get_document (document_data : dict)
    (stored : list dict) (w : World) :
  documents_json w = JArray stored ->
  data_writable w = true ->
  id_present (new_document_id (length stored) (clock w)) w = false ->
  exists doc_id w' record,
    create_document document_data w = (Ok doc_id, w')
    /\ documents_json w' = JArray (stored ++ [record])
    /\ get_document doc_id w' = (Ok (Some record), w')
    /\ record !! "id" = Some (VStr doc_id)
    /\ (forall key,
          key <> "id" -> key <> "created_at" -> key <> "updated_at" ->
          record !! key = document_data !! key).
Proof.
  intros Hfile Hwritable Hfresh.
  destruct (create_document_run document_data stored w Hfile Hwritable)
    as (w' & Hrun & Hstored & _).
  exists (new_document_id (length stored) (clock w)), w',
    (created_record document_data (length stored) (clock w)).
  split; [exact Hrun|]. split; [exact Hstored|].
  split.
  - rewrite (get_document_run _ _ _ Hstored). f_equal. f_equal.
    apply (find_first _ stored []).
    + unfold id_present in Hfresh. now rewrite Hfile in Hfresh.
    + apply created_record_has_id.
  - split.
    + unfold created_record.
      rewrite !lookup_insert_ne by discriminate. apply lookup_insert_eq.
    + intros key Hid Hcreated Hupdated. unfold created_record.
      now rewrite !lookup_insert_ne by congruence.
Qed.

(** X9.  IDs are built from the number of stored records and the second on
    the clock, so they can repeat: when a stored record already carries the
    ID about to be given, [create_document] still appends the new record
    under that ID, and [get_document] on the returned ID gives the older
    record, not the one just created. *)
Theorem create_document_reuses_id (document_data : dict)
    (before after : list dict) (older : dict) (w : World) :
  documents_json w = JArray (before ++ older :: after) ->
  data_writable w = true ->
  existsb (has_id (new_document_id (length (before ++ older :: after))
                     (clock w))) before
  = false ->
  has_id (new_document_id (length (before ++ older :: after)) (clock w)) older
  = true ->
  exists doc_id w' record,
    create_document document_data w = (Ok doc_id, w')
    /\ documents_json w' = JArray ((before ++ older :: after) ++ [record])
    /\ has_id doc_id record = true
    /\ get_document doc_id w' = (Ok (Some older), w').
Proof.
  intros Hfile Hwritable Hbefore Holder.
  destruct (create_document_run document_data _ w Hfile Hwritable)
    as (w' & Hrun & Hstored & _).
  eexists _, w', _. split; [exact Hrun|]. split; [exact Hstored|].
  split; [apply created_record_has_id|].
  rewrite (get_document_run _ _ _ Hstored). f_equal. f_equal.
  rewrite <- app_assoc. simpl. now apply find_first.
Qed.

(** X10.  A failed write is not reported: on a store that cannot be written
    [create_document] still returns an ID, while the documents file and the
    count of rewrites stay as they were, so that a later [get_document] on
    a fresh ID finds nothing. *)
Theorem create_document_unwritable (document_data : dict)
    (stored : list dict) (w : World) :
  documents_json w = JArray stored ->
  data_writable w = false ->
  exists w',
    create_document document_data w
    = (Ok (new_document_id (length stored) (clock w)), w')
    /\ documents_json w' = documents_json w
    /\ json_writes w' = json_writes w
    /\ (id_present (new_document_id (length stored) (clock w)) w = false ->
        get_document (new_document_id (length stored) (clock w)) w'
        = (Ok None, w')).
Proof.
  intros Hfile Hro.
  unfold create_document, try_except, bind, _load_json, _save_json, file_at,
    lift, py_append, ret, raise. simpl.
  rewrite Hfile. simpl. rewrite Hro. simpl.
  eexists. split; [reflexivity|]. simpl.
  split; [now rewrite Hfile|]. split; [reflexivity|].
  intros Hfresh. unfold id_present in Hfresh. rewrite Hfile in Hfresh.
  erewrite get_document_run by (simpl; exact Hfile).
  now rewrite (find_absent _ _ Hfresh).
Qed.

(** X11.  [update_document] changes the first record carrying the ID and no
    other: that record takes every key of the update, keeps its other keys
    and gets a fresh [updated_at]; the records before and after it are
    untouched.  It returns true even when the store cannot be written, in
    which case the file is unchanged. *)
Theorem update_document_first_match (doc_id : string) (update_data : dict)
    (before after : list dict) (doc : dict) (w : World) :
  documents_json w = JArray (before ++ doc :: after) ->
  existsb (has_id doc_id) before = false ->
  has_id doc_id doc = true ->
  exists w',
    update_document doc_id update_data w = (Ok true, w')
    /\ documents_json w'
       = (if data_writable w
          then JArray (before
                       ++ updated_record update_data doc (clock w) :: after)
          else documents_json w)
    /\ (forall key v,
          update_data !! key = Some v -> key <> "updated_at" ->
          updated_record update_data doc (clock w) !! key = Some v)
    /\ (forall key,
          update_data !! key = None -> key <> "updated_at" ->
          updated_record update_data doc (clock w) !! key = doc !! key).
Proof.
  intros Hfile Hbefore Hdoc.
  unfold update_document, try_except, bind, _load_json, _save_json, file_at,
    ret, raise.
  rewrite Hfile. rewrite (find_id_first _ _ _ _ 0 Hbefore Hdoc). simpl.
  destruct (data_writable w) eqn:Hwritable; simpl.
  - eexists. split; [reflexivity|]. simpl. split.
    + f_equal. rewrite alter_app_r_alt by lia.
      now replace (length before - length before) with 0 by lia.
    + split.
      * intros key v Hkey Hnot. unfold updated_record.
        rewrite lookup_insert_ne by congruence.
        now apply lookup_union_Some_l.
      * intros key Hkey Hnot. unfold updated_record.
        rewrite lookup_insert_ne by congruence.
        now apply lookup_union_r.
  - eexists. split; [reflexivity|]. simpl. split; [exact Hfile|].
    split.
    + intros key v Hkey Hnot. unfold updated_record.
      rewrite lookup_insert_ne by congruence.
      now apply lookup_union_Some_l.
    + intros key Hkey Hnot. unfold updated_record.
      rewrite lookup_insert_ne by congruence.
      now apply lookup_union_r.
Qed.

(** X12.  [delete_document] removes the first record carrying the ID and
    keeps the others in order; afterwards, if no later record carries the
    same ID, [get_document] finds nothing under it.  It returns true even
    when the store cannot be written, in which case nothing is removed. *)
Theorem delete_document_first_match (doc_id : string)
    (before after : list dict) (doc : dict) (w : World) :
  documents_json w = JArray (before ++ doc :: after) ->
  existsb (has_id doc_id) before = false ->
  has_id doc_id doc = true ->
  exists w',
    delete_document doc_id w = (Ok true, w')
    /\ documents_json w'
       = (if data_writable w then JArray (before ++ after)
          else documents_json w)
    /\ (data_writable w = true ->
        existsb (has_id doc_id) after = false ->
        get_document doc_id w' = (Ok None, w')).
Proof.
  intros Hfile Hbefore Hdoc.
  unfold delete_document, try_except, bind, _load_json, _save_json, file_at,
    ret, raise.
  rewrite Hfile. rewrite (find_id_first _ _ _ _ 0 Hbefore Hdoc). simpl.
  destruct (data_writable w) eqn:Hwritable; simpl.
  - eexists. split; [reflexivity|]. simpl.
    assert (Hdeleted :
      delete (length before) (before ++ doc :: after)%list
      = (before ++ after)%list)
      by apply delete_middle.
    split; [now rewrite Hdeleted|].
    intros _ Hafter.
    erewrite get_document_run by (simpl; now rewrite Hdeleted).
    rewrite find_absent; [reflexivity|].
    rewrite existsb_app. now rewrite Hbefore, Hafter.
  - eexists. split; [reflexivity|]. simpl. split; [exact Hfile|].
    discriminate.
Qed.

(** ** Ingestion: rejected files and what reaches the vector store *)

Lemma existsb_eqb_false (s : string) (l : list string) :
  ~ In s l -> existsb (String.eqb s) l = false.
Proof.
  induction l as [|x l IH]; simpl; [reflexivity|].
  intros Hnot. apply orb_false_iff. split.
  - apply String.eqb_neq. intros ->. apply Hnot. now left.
  - apply IH. intros Hin. apply Hnot. now right.
Qed.

Lemma extract_text_invalid (file_path : string) (w : World) :
  fs w !! file_path = None
  \/ ~ In (lower (path_suffix file_path)) supported_extensions ->
  extract_text file_path w = (Raise ("Invalid file: " ++ file_path), w).
Proof.
  intros Hbad.
  assert (Hvalid : validate_file file_path w = (Ok false, w)).
  { unfold validate_file. destruct Hbad as [Hmissing | Hext].
    - now rewrite Hmissing.
    - rewrite (existsb_eqb_false _ _ Hext).
      destruct (fs w !! file_path); reflexivity. }
  unfold extract_text. now rewrite (bind_run _ _ _ _ _ Hvalid).
Qed.

(** X13.  A path that names no file, or a file whose extension, lower-cased,
    is none of [.pdf], [.docx], [.txt], is rejected before anything is
    read: [process_and_store] returns the failure record with the
    invalid-file message and leaves the world, clock included, as it was. *)
Theorem process_and_store_rejects (file_path category : string) (w : World) :
  fs w !! file_path = None
  \/ ~ In (lower (path_suffix file_path)) supported_extensions ->
  process_and_store file_path category w
  = (Ok (ingest_failure file_path ("Invalid file: " ++ file_path)), w).
Proof.
  intros Hbad. unfold process_and_store.
  rewrite (try_raise _ _ w ("Invalid file: " ++ file_path) w);
    [reflexivity|].
  now rewrite (bind_raise _ _ _ _ _ (extract_text_invalid _ _ Hbad)).
Qed.

Lemma extract_text_loads (file_path bytes : string) (w : World) :
  fs w !! file_path = Some bytes ->
  In (lower (path_suffix file_path)) supported_extensions ->
  extract_text file_path w
  = (loader_load (lower (path_suffix file_path)) file_path bytes, w).
Proof.
  intros Hfile Hext.
  assert (Hsupported :
    existsb (String.eqb (lower (path_suffix file_path))) supported_extensions
    = true).
  { apply existsb_exists. exists (lower (path_suffix file_path)).
    split; [exact Hext | apply String.eqb_refl]. }
  assert (Hvalid : validate_file file_path w = (Ok true, w)).
  { unfold validate_file. now rewrite Hfile, Hsupported. }
  unfold extract_text. rewrite (bind_run _ _ _ _ _ Hvalid).
  cbn beta iota delta [negb]. unfold try_except. rewrite Hsupported.
  unfold bind, load, ret, raise. rewrite Hfile.
  destruct (loader_load _ file_path bytes); reflexivity.
Qed.

(** X14.  When the loader returns no section for a valid file,
    [process_and_store] fails with the no-content message; nothing is sent
    to the vector store or written to the metadata store, and the clock has
    not been read. *)
Theorem process_and_store_no_content (file_path category bytes : string)
    (w : World) :
  fs w !! file_path = Some bytes ->
  In (lower (path_suffix file_path)) supported_extensions ->
  loader_load (lower (path_suffix file_path)) file_path bytes = Ok [] ->
  process_and_store file_path category w
  = (Ok (ingest_failure file_path "No content extracted from document"), w).
Proof.
  intros Hfile Hext Hload. unfold process_and_store.
  rewrite (try_raise _ _ w "No content extracted from document" w);
    [reflexivity|].
  assert (Hextract : extract_text file_path w = (Ok [], w))
    by (rewrite (extract_text_loads _ _ _ Hfile Hext); now rewrite Hload).
  now rewrite (bind_run _ _ _ _ _ Hextract).
Qed.

Lemma prepare_metadata_lookup (document : Document) (filename : string)
    (i : nat) (w : World) :
  exists m,
    prepare_metadata document filename i w = (Ok m, snd (now w))
    /\ (forall key v, metadata document !! key = Some v -> m !! key = Some v)
    /\ (metadata document !! "chunk_index" = None ->
        m !! "chunk_index" = Some (VInt (Z.of_nat i)))
    /\ (metadata document !! "filename" = None ->
        m !! "filename" = Some (VStr filename)).
Proof.
  unfold prepare_metadata, bind, ret. simpl.
  eexists. split; [reflexivity|].
  destruct (dict_is_empty (metadata document)) eqn:Hempty.
  - unfold dict_is_empty in Hempty.
    destruct (map_to_list (metadata document)) eqn:Hlist; [|discriminate].
    apply map_to_list_empty_iff in Hlist. rewrite Hlist.
    split; [intros key v Hkey; now rewrite lookup_empty in Hkey|].
    split; intros _.
    + rewrite lookup_insert_ne by discriminate. apply lookup_insert_eq.
    + apply lookup_insert_eq.
  - split; [intros key v Hkey; now apply lookup_union_Some_l|].
    split; intros Hfree; rewrite lookup_union_r by exact Hfree.
    + rewrite lookup_insert_ne by discriminate. apply lookup_insert_eq.
    + apply lookup_insert_eq.
Qed.

Lemma process_chunks_stored (filename category : string)
    (chunked_docs : list Document) (i : nat)
    (processed_docs : list Document) (document_ids : list pyval)
    (w w' : World) (built : list Document * list pyval) :
  process_chunks filename category chunked_docs i processed_docs document_ids w
  = (Ok built, w') ->
  exists added,
    fst built = (processed_docs ++ added)%list
    /\ length added = length chunked_docs
    /\ forall j chunk,
         chunked_docs !! j = Some chunk ->
         exists doc,
           added !! j = Some doc
           /\ stored_as filename category (i + j) chunk doc.
Proof.
  revert i processed_docs document_ids w.
  induction chunked_docs as [|chunk rest IH];
    intros i processed_docs document_ids w; simpl.
  - unfold ret. intros [= <- <-]. exists []. simpl.
    split; [now rewrite app_nil_r|]. split; [reflexivity|].
    intros j c Hj. now rewrite lookup_nil in Hj.
  - destruct (prepare_metadata_lookup chunk filename i w)
      as (m & Hm & Hkeep & Hindex & Hname).
    rewrite (bind_run _ _ _ _ _ Hm).
    destruct (<["category" := VStr category]> m !! "document_id")
      as [document_id|]; [|discriminate].
    intros Hrest. apply IH in Hrest as (added & Hbuilt & Hlen & Heach).
    exists (mkDocument (page_content chunk)
                       (<["category" := VStr category]> m) :: added).
    split; [now rewrite Hbuilt, <- app_assoc|].
    split; [simpl; now rewrite Hlen|].
    intros [|j] c Hj; simpl in Hj.
    + injection Hj as <-. eexists. split; [reflexivity|].
      unfold stored_as. simpl.
      split; [reflexivity|]. split; [apply lookup_insert_eq|].
      split; [intros Hfree; rewrite lookup_insert_ne by discriminate;
              rewrite Nat.add_0_r; now apply Hindex|].
      split; [intros Hfree; rewrite lookup_insert_ne by discriminate;
              now apply Hname|].
      intros key v Hkey Hv. rewrite lookup_insert_ne by congruence.
      now apply Hkeep.
    + destruct (Heach j c Hj) as (doc & Hdoc & Hstored).
      exists doc. split; [exact Hdoc|].
      now replace (i + S j) with (S i + j) by lia.
Qed.

(** X15.  On success, what [process_and_store] sent to the vector store is
    one document per chunk of the splitter, in order: the chunk's content
    unchanged, the category of the call whatever the loader's metadata
    said, the 0-based position as [chunk_index] and the file's name as
    [filename] unless the loader's metadata has such a key, and every other
    key of the loader's metadata. *)
Theorem process_and_store_sends_chunks (file_path category : string)
    (w w' : World) (r : IngestResult) :
  process_and_store file_path category w = (Ok r, w') ->
  ing_success r = true ->
  exists documents chunked_docs processed_docs vector_ids,
    fst (extract_text file_path w) = Ok documents
    /\ split_documents documents = Ok chunked_docs
    /\ vectorstore_add_documents processed_docs = Ok vector_ids
    /\ length processed_docs = length chunked_docs
    /\ forall j chunk,
         chunked_docs !! j = Some chunk ->
         exists doc,
           processed_docs !! j = Some doc
           /\ stored_as (path_name file_path) category j chunk doc.
Proof.
  intros Hrun Hsuccess. unfold process_and_store in Hrun.
  apply try_inv in Hrun as [Hbody | (e & w0 & _ & Hfail)].
  2: { unfold ret in Hfail. injection Hfail as <- _. discriminate. }
  apply bind_inv in Hbody as (documents & w1 & Hextract & Hbody).
  destruct documents as [|doc documents]; [discriminate|].
  apply bind_inv in Hbody as (chunked_docs & w2 & Hchunk & Hbody).
  apply bind_inv in Hbody as (built & w3 & Hbuilt & Hbody).
  apply bind_inv in Hbody as (vector_ids & w4 & Hadd & _).
  apply process_chunks_stored in Hbuilt as (added & Hprocessed & Hlen & Heach).
  simpl in Hprocessed.
  exists (doc :: documents), chunked_docs, added, vector_ids.
  split; [now rewrite Hextract|].
  split.
  { unfold chunk_documents, try_except, lift, raise in Hchunk.
    destruct (split_documents (doc :: documents)); [|discriminate].
    now injection Hchunk as -> _. }
  split.
  { unfold add_documents, try_except, lift, raise in Hadd.
    rewrite Hprocessed in Hadd.
    destruct (vectorstore_add_documents added); [|discriminate].
    now injection Hadd as -> _. }
  split; [exact Hlen | exact Heach].
Qed.

(** X16.  [process_and_store] never raises and never changes the file
    system.  Its record is either a success with a chunk count and a
    metadata ID, or a failure whose error and message are the same text,
    the file's name followed by the exception's. *)
Theorem process_and_store_always_returns (file_path category : string)
    (w : World) :
  exists r w',
    process_and_store file_path category w = (Ok r, w')
    /\ fs w' = fs w
    /\ ing_filename r = path_name file_path
    /\ (if ing_success r
        then (exists n doc_id,
                chunks_created r = Some n /\ metadata_id r = Some doc_id)
             /\ ing_error r = None
        else exists e, r = ingest_failure file_path e).
Proof.
  destruct (process_and_store_returns file_path category w)
    as (r & w' & Hrun & Hfs).
  exists r, w'. split; [exact Hrun|]. split; [exact Hfs|].
  unfold process_and_store in Hrun.
  apply try_inv in Hrun as [Hbody | (e & w0 & _ & Hfail)].
  - apply bind_inv in Hbody as (documents & w1 & _ & Hbody).
    destruct documents as [|doc documents]; [discriminate|].
    apply bind_inv in Hbody as (chunked_docs & w2 & _ & Hbody).
    apply bind_inv in Hbody as (built & w3 & _ & Hbody).
    apply bind_inv in Hbody as (vector_ids & w4 & _ & Hbody).
    apply bind_inv in Hbody as (t & w5 & _ & Hbody).
    apply bind_inv in Hbody as (file_size & w6 & _ & Hbody).
    apply bind_inv in Hbody as (doc_id & w7 & _ & Hbody).
    unfold ret in Hbody. injection Hbody as <- _. simpl.
    split; [reflexivity|]. split; [eauto | reflexivity].
  - unfold ret in Hfail. injection Hfail as <- _. simpl.
    split; [reflexivity|]. now exists e.
Qed.

(** ** Batches of uploads: results and temporary copies *)







(** ** Statistics *)

Lemma total_bump (key : pyval) (d : counts) : total (bump key d) = S (total d).
Proof.
  induction d as [|[k n] rest IH]; simpl; [reflexivity|].
  destruct (py_eq k key); simpl; [lia | rewrite IH; lia].
Qed.

Lemma bump_positive (key : pyval) (d : counts) :
  Forall (fun item => (1 <= snd item)%nat) d ->
  Forall (fun item => (1 <= snd item)%nat) (bump key d).
Proof.
  induction 1 as [|[k n] rest Hk Hrest IH]; simpl.
  - repeat constructor.
  - destruct (py_eq k key); constructor; simpl in *; auto; lia.
Qed.

Lemma tally_queries_totals (queries : list dict)
    (categories popular categories' popular' : counts) :
  tally_queries queries categories popular = Ok (categories', popular') ->
  total categories' = total categories + length queries
  /\ (total popular' <= total popular + length queries)%nat
  /\ (Forall (fun item => (1 <= snd item)%nat) popular ->
      Forall (fun item => (1 <= snd item)%nat) popular').
Proof.
  revert categories popular.
  induction queries as [|query rest IH]; intros categories popular; simpl.
  - intros [= <- <-]. repeat split; auto; lia.
  - unfold count_key.
    destruct (py_hashable (dict_get query "category_filter" (VStr "general")));
      [|discriminate].
    destruct (py_truthy (dict_get query "question" (VStr EmptyString))).
    + destruct (py_hashable (dict_get query "question" (VStr EmptyString)));
        [|discriminate].
      intros Hrest. apply IH in Hrest as (Hcat & Hpop & Hpos).
      rewrite total_bump in Hcat, Hpop.
      repeat split; try lia. intros Hp. apply Hpos. now apply bump_positive.
    + intros Hrest. apply IH in Hrest as (Hcat & Hpop & Hpos).
      rewrite total_bump in Hcat. repeat split; auto; lia.
Qed.

Lemma insert_desc_forall (P : pyval * nat -> Prop) (x : pyval * nat)
    (l : counts) :
  P x -> Forall P l -> Forall P (insert_desc x l).
Proof.
  intros Hx. induction 1 as [|y rest Hy Hrest IH]; simpl.
  - repeat constructor. exact Hx.
  - destruct (snd x <? snd y)%nat; repeat constructor; auto.
Qed.

Lemma insert_desc_descending (x : pyval * nat) (l : counts) :
  descending l -> descending (insert_desc x l).
Proof.
  induction l as [|y rest IH]; simpl.
  - intros _. split; [constructor | exact I].
  - intros [Hy Hrest].
    destruct (snd x <? snd y)%nat eqn:Hlt; simpl.
    + apply Nat.ltb_lt in Hlt. split; [|now apply IH].
      apply insert_desc_forall; [lia | exact Hy].
    + apply Nat.ltb_ge in Hlt. split; [|split; assumption].
      constructor; [exact Hlt|].
      eapply Forall_impl; [exact Hy|]. intros z Hz. simpl in Hz. lia.
Qed.

Lemma sorted_desc_descending (l : counts) : descending (sorted_desc l).
Proof.
  induction l as [|x rest IH]; simpl; [exact I|].
  now apply insert_desc_descending.
Qed.

Lemma sorted_desc_forall (P : pyval * nat -> Prop) (l : counts) :
  Forall P l -> Forall P (sorted_desc l).
Proof.
  induction 1 as [|x rest Hx Hrest IH]; simpl; [constructor|].
  now apply insert_desc_forall.
Qed.

Lemma descending_take (n : nat) (l : counts) :
  descending l -> descending (take n l).
Proof.
  revert l. induction n as [|n IH]; intros [|x rest]; simpl; auto.
  intros [Hx Hrest]. split; [|now apply IH].
  now apply Forall_take.
Qed.

Lemma item_le_total (d : counts) :
  Forall (fun item => (snd item <= total d)%nat) d.
Proof.
  induction d as [|x rest IH]; simpl; constructor; [lia|].
  eapply Forall_impl; [exact IH|]. intros y Hy. simpl in Hy. lia.
Qed.

(** X19.  [get_query_stats] and [get_search_stats] never raise, change
    nothing and agree.  In what they return the category counts add up to
    [total_queries]; [popular_queries] has at most ten entries, in order of
    count with the largest first, each counted at least once and at most
    [total_queries] times; and when the log is a list whose entries can all
    be counted, [total_queries] is its length.  Otherwise, when the file
    is unreadable or holds no list, or an entry cannot be counted, the
    statistics are the all-zero ones. *)
Theorem query_stats_consistent (w : World) :
  exists s,
    get_query_stats w = (Ok s, w)
    /\ get_search_stats w = (Ok s, w)
    /\ total (categories_searched s) = total_queries s
    /\ (length (popular_queries s) <= 10)%nat
    /\ descending (popular_queries s)
    /\ Forall (fun item => (1 <= snd item <= total_queries s)%nat)
              (popular_queries s)
    /\ (forall logged,
          queries_json w = JArray logged -> countable_log logged ->
          total_queries s = length logged)
    /\ ((exists logged,
           queries_json w = JArray logged /\ countable_log logged)
        \/ s = no_query_stats).
Proof.
  assert (Hmain :
    exists s,
      get_query_stats w = (Ok s, w)
      /\ total (categories_searched s) = total_queries s
      /\ (length (popular_queries s) <= 10)%nat
      /\ descending (popular_queries s)
      /\ Forall (fun item => (1 <= snd item <= total_queries s)%nat)
                (popular_queries s)
      /\ (forall logged,
            queries_json w = JArray logged -> countable_log logged ->
            total_queries s = length logged)
      /\ ((exists logged,
             queries_json w = JArray logged /\ countable_log logged)
          \/ s = no_query_stats)).
  { unfold get_query_stats, try_except, bind, _load_json, file_at, lift, ret,
      raise.
    destruct (queries_json w) as [|keys|logged] eqn:Hfile.
    - exists no_query_stats. split; [reflexivity|]. simpl.
      repeat split; auto; try lia; try (intros ? [=]); constructor.
    - exists no_query_stats. split; [destruct keys; reflexivity|]. simpl.
      repeat split; auto; try lia; try (intros ? [=]); constructor.
    - destruct (tally_queries logged [] [])
        as [[categories popular]|e] eqn:Htally.
      + pose proof Htally as Hcount.
        apply tally_queries_totals in Htally as (Hcat & Hpop & Hpos).
        simpl in Hcat, Hpop. specialize (Hpos ltac:(constructor)).
        eexists. split; [reflexivity|]. simpl.
        split; [exact Hcat|].
        split; [rewrite length_take; lia|].
        split; [apply descending_take, sorted_desc_descending|].
        split.
        { apply Forall_take, sorted_desc_forall.
          pose proof (item_le_total popular) as Hle.
          apply Forall_forall. intros item Hitem.
          rewrite Forall_forall in Hpos, Hle.
          specialize (Hpos item Hitem). specialize (Hle item Hitem).
          simpl in *. lia. }
        split; [intros logged' [= <-] _; reflexivity|].
        left. exists logged. split; [reflexivity|].
        now exists (categories, popular).
      + exists no_query_stats. split; [reflexivity|]. simpl.
        split; [reflexivity|]. split; [lia|]. split; [exact I|].
        split; [constructor|].
        split; [intros logged' [= <-] [tallied Hcount]; congruence|].
        now right. }
  destruct Hmain as (s & Hrun & Hrest).
  exists s. split; [exact Hrun|].
  split; [unfold get_search_stats; now apply try_ok | exact Hrest].
Qed.

Lemma query_logged_run (question : string) (k : nat)
    (category_filter : option string) (w : World)
    (documents : list Document) (response : llm_response) (s : string)
    (stored : list dict) :
  retrieve_documents question k category_filter w = (Ok documents, w) ->
  documents <> [] ->
  llm (prompt_format (format_context documents) question) = Ok response ->
  response_text response = Some s ->
  queries_json w = JArray stored ->
  data_writable w = true ->
  exists r w',
    query question k category_filter w = (Ok r, w')
    /\ success r = true
    /\ queries_json w'
       = JArray (stored
                 ++ [logged_entry
                       (query_log_data question (strip s) (length documents)
                          (isoformat (clock w)) category_filter)
                       (length stored) (S (clock w))]).
Proof.
  rewrite retrieve_documents_run. intros [= Hdocs] Hsome Hllm Htext Hfile
    Hwritable.
  pose proof (generate_answer_text question (format_context documents) s
                response (snd (now w)) Hllm Htext) as Hanswer.
  set (w1 := record_llm_call
               (prompt_format (format_context documents) question)
               (snd (now w))) in *.
  destruct (log_query_appends
              (query_log_data question (strip s) (length documents)
                 (isoformat (clock w)) category_filter)
              stored w1 Hfile Hwritable)
    as (query_id & w2 & Hlog & Hqueries & _ & _).
  eexists _, w2. split; [|split; [|exact Hqueries]].
  - unfold query. apply try_ok.
    rewrite (bind_run _ _ w (clock w) (snd (now w))) by reflexivity.
    rewrite (bind_run _ _ _ _ _ (retrieve_documents_run _ _ _ _)).
    rewrite Hdocs.
    destruct documents as [|doc rest]; [contradiction|].
    rewrite (bind_run _ _ _ _ _ Hanswer).
    erewrite (bind_run _ _ w1 tt w2).
    + reflexivity.
    + apply try_ok. unfold query_log_data in Hlog.
      now rewrite (bind_run _ _ _ _ _ Hlog).
  - reflexivity.
Qed.

Lemma tally_queries_app (first second : list dict)
    (categories popular : counts) :
  tally_queries (first ++ second) categories popular
  = match tally_queries first categories popular with
    | Ok tallied => tally_queries second (fst tallied) (snd tallied)
    | Raise e => Raise e
    end.
Proof.
  revert categories popular.
  induction first as [|query rest IH]; intros categories popular; simpl.
  - reflexivity.
  - destruct (count_key _ categories) as [categories'|e]; [|reflexivity].
    destruct (py_truthy _).
    + destruct (count_key _ popular) as [popular'|e]; [|reflexivity].
      apply IH.
    + apply IH.
Qed.

(** X20.  An answered query shows in the statistics: on a writable log
    whose entries could be counted before, [get_query_stats] after the
    query reports one query more, and the query is counted under its
    category filter, which for a query without filter is the key [None],
    not ['general']. *)
Theorem query_then_stats (question : string) (k : nat)
    (category_filter : option string) (w : World)
    (documents : list Document) (response : llm_response) (s : string)
    (stored : list dict) (by_category popular : counts) :
  retrieve_documents question k category_filter w = (Ok documents, w) ->
  documents <> [] ->
  llm (prompt_format (format_context documents) question) = Ok response ->
  response_text response = Some s ->
  queries_json w = JArray stored ->
  data_writable w = true ->
  tally_queries stored [] [] = Ok (by_category, popular) ->
  exists r w' stats,
    query question k category_filter w = (Ok r, w')
    /\ get_query_stats w' = (Ok stats, w')
    /\ total_queries stats = length stored + 1
    /\ categories_searched stats
       = bump (optional_str category_filter) by_category.
Proof.
  intros Hdocs Hsome Hllm Htext Hfile Hwritable Htally.
  destruct (query_logged_run question k category_filter w documents response
              s stored Hdocs Hsome Hllm Htext Hfile Hwritable)
    as (r & w' & Hrun & _ & Hqueries).
  set (entry := logged_entry
                  (query_log_data question (strip s) (length documents)
                     (isoformat (clock w)) category_filter)
                  (length stored) (S (clock w))) in *.
  assert (Hcategory :
    dict_get entry "category_filter" (VStr "general")
    = optional_str category_filter).
  { unfold dict_get, entry, logged_entry, query_log_data. simpl.
    rewrite !lookup_insert_ne by discriminate.
    now rewrite lookup_insert_eq. }
  assert (Hquestion :
    dict_get entry "question" (VStr EmptyString) = VStr question).
  { unfold dict_get, entry, logged_entry, query_log_data. simpl.
    rewrite !lookup_insert_ne by discriminate.
    now rewrite lookup_insert_eq. }
  assert (Hentry :
    exists popular',
      tally_queries [entry] by_category popular
      = Ok (bump (optional_str category_filter) by_category, popular')).
  { simpl. rewrite Hcategory, Hquestion. unfold count_key.
    assert (Hhash : py_hashable (optional_str category_filter) = true)
      by (destruct category_filter; reflexivity).
    rewrite Hhash. simpl. destruct (negb _); eauto. }
  destruct Hentry as [popular' Hentry].
  eexists r, w', _. split; [exact Hrun|].
  split.
  - unfold get_query_stats. apply try_ok.
    unfold bind, _load_json, file_at, lift, ret. rewrite Hqueries.
    rewrite tally_queries_app, Htally. simpl fst. simpl snd.
    rewrite Hentry. reflexivity.
  - simpl. split; [|reflexivity].
    rewrite length_app. simpl. lia.
Qed.

Lemma tally_key_total (key : string) (docs : list dict) (d d' : counts) :
  tally_key key docs d = Ok d' -> total d' = total d + length docs.
Proof.
  revert d. induction docs as [|doc rest IH]; intros d; simpl.
  - intros [= <-]. lia.
  - unfold count_key. destruct (py_hashable _); [|discriminate].
    intros Hrest. apply IH in Hrest. rewrite total_bump in Hrest. lia.
Qed.

Lemma tally_key_app (key : string) (first second : list dict) (d : counts) :
  tally_key key (first ++ second) d
  = match tally_key key first d with
    | Ok d' => tally_key key second d'
    | Raise e => Raise e
    end.
Proof.
  revert d. induction first as [|doc rest IH]; intros d; simpl.
  - reflexivity.
  - destruct (count_key _ d) as [d'|e]; [apply IH | reflexivity].
Qed.

Lemma sum_total_chunks_app (first second : list dict) (acc : Z) :
  sum_total_chunks (first ++ second) acc
  = match sum_total_chunks first acc with
    | Ok acc' => sum_total_chunks second acc'
    | Raise e => Raise e
    end.
Proof.
  revert acc. induction first as [|doc rest IH]; intros acc; simpl.
  - reflexivity.
  - destruct (py_add acc _) as [acc'|e]; [apply IH | reflexivity].
Qed.

Lemma sum_total_chunks_bad (docs : list dict) (acc : Z) :
  Exists (fun doc =>
            py_number (dict_get doc "total_chunks" (VInt 0)) = None) docs ->
  exists e, sum_total_chunks docs acc = Raise e.
Proof.
  intros Hbad. revert acc.
  induction Hbad as [doc rest Hdoc | doc rest Hrest IH]; intros acc; simpl.
  - unfold py_add. rewrite Hdoc. eauto.
  - destruct (py_add acc _) as [acc'|e]; [apply IH | eauto].
Qed.

(** X21.  [get_document_stats] never raises and changes nothing.  The
    counts per category and per file type each add up to
    [total_documents].  On a store holding a list it either reports the
    length of the list and the sum of the [total_chunks] entries, or, when
    an entry cannot be added or counted, the all-zero statistics with no
    documents; in particular one record whose [total_chunks] is not a
    number makes every figure read zero. *)
Theorem document_stats_consistent (w : World) :
  exists s,
    get_document_stats w = (Ok s, w)
    /\ total (categories s) = total_documents s
    /\ total (file_types s) = total_documents s
    /\ (forall stored,
          documents_json w = JArray stored ->
          (total_documents s = length stored
           /\ sum_total_chunks stored 0 = Ok (total_chunks s)
           /\ documents s = JArray stored)
          \/ s = no_document_stats)
    /\ (forall stored,
          documents_json w = JArray stored ->
          Exists (fun doc =>
                    py_number (dict_get doc "total_chunks" (VInt 0)) = None)
                 stored ->
          s = no_document_stats).
Proof.
  unfold get_document_stats, get_all_documents, try_except, bind, _load_json,
    file_at, lift, ret, raise.
  destruct (documents_json w) as [|keys|stored] eqn:Hfile.
  - eexists. split; [reflexivity|]. simpl.
    repeat split; auto; intros ? [=].
  - destruct keys; (eexists; split; [reflexivity|]); simpl;
      repeat split; auto; intros ? [=].
  - destruct (sum_total_chunks stored 0) as [chunks|e] eqn:Hsum.
    + destruct (tally_key "category" stored []) as [by_category|e] eqn:Hcat.
      * destruct (tally_key "file_type" stored []) as [by_type|e] eqn:Htype.
        -- eexists. split; [reflexivity|]. simpl.
           apply tally_key_total in Hcat, Htype. simpl in Hcat, Htype.
           split; [exact Hcat|]. split; [exact Htype|].
           split.
           ++ intros stored' [= <-]. left. now rewrite Hsum.
           ++ intros stored' [= <-] Hbad.
              destruct (sum_total_chunks_bad stored 0 Hbad) as [e He].
              congruence.
        -- eexists. split; [reflexivity|]. simpl.
           repeat split; auto.
      * eexists. split; [reflexivity|]. simpl. repeat split; auto.
    + eexists. split; [reflexivity|]. simpl. repeat split; auto.
Qed.

Lemma process_and_store_success_run (file_path category : string)
    (w w' : World) (r : IngestResult) (stored : list dict) :
  process_and_store file_path category w = (Ok r, w') ->
  ing_success r = true ->
  documents_json w = JArray stored ->
  data_writable w = true ->
  exists n record,
    chunks_created r = Some n
    /\ documents_json w' = JArray (stored ++ [record])
    /\ record !! "total_chunks" = Some (VInt (Z.of_nat n))
    /\ record !! "category" = Some (VStr category)
    /\ record !! "file_type" = Some (VStr (lower (path_suffix file_path)))
    /\ record !! "filename" = Some (VStr (path_name file_path)).
Proof.
  intros Hrun Hsuccess Hfile Hwritable. unfold process_and_store in Hrun.
  apply try_inv in Hrun as [Hbody | (e & w0 & _ & Hfail)].
  2: { unfold ret in Hfail. injection Hfail as <- _. discriminate. }
  apply bind_inv in Hbody as (documents & w1 & Hextract & Hbody).
  destruct documents as [|doc documents]; [discriminate|].
  apply bind_inv in Hbody as (chunked_docs & w2 & Hchunk & Hbody).
  apply bind_inv in Hbody as (built & w3 & Hbuilt & Hbody).
  apply bind_inv in Hbody as (vector_ids & w4 & Hadd & Hbody).
  apply bind_inv in Hbody as (t & w5 & Hnow & Hbody).
  apply bind_inv in Hbody as (file_size & w6 & Hsize & Hbody).
  apply bind_inv in Hbody as (metadata_id & w7 & Hcreate & Hbody).
  unfold ret in Hbody. injection Hbody as <- <-.
  assert (Hkeep : forall X (proj : World -> X),
    stable proj now -> proj w6 = proj w).
  { intros X proj Hclock.
    rewrite (stable_run proj _ _ _ _ (stable_getsize _ _) Hsize).
    rewrite (stable_run proj now _ _ _ Hclock Hnow).
    assert (Hadd' : stable proj (add_documents (fst built)))
      by (unfold add_documents; auto with stable).
    rewrite (stable_run proj _ _ _ _ Hadd' Hadd).
    rewrite (stable_run proj _ _ _ _
               (stable_process_chunks _ _ _ _ _ _ _ Hclock) Hbuilt).
    assert (Hchunk' : stable proj (chunk_documents (doc :: documents)))
      by (unfold chunk_documents; auto with stable).
    rewrite (stable_run proj _ _ _ _ Hchunk' Hchunk).
    exact (stable_run proj _ _ _ _ (stable_extract_text _ _) Hextract). }
  assert (Hfile6 : documents_json w6 = JArray stored)
    by (rewrite (Hkeep _ documents_json); [exact Hfile | intros ?; reflexivity]).
  assert (Hwritable6 : data_writable w6 = true)
    by (rewrite (Hkeep _ data_writable);
        [exact Hwritable | intros ?; reflexivity]).
  match type of Hcreate with
  | create_document ?info _ = _ =>
      destruct (create_document_run info stored w6 Hfile6 Hwritable6)
        as (w7' & Hrun7 & Hstored & _)
  end.
  rewrite Hrun7 in Hcreate. injection Hcreate as _ <-.
  eexists _, _. split; [reflexivity|]. split; [exact Hstored|].
  unfold created_record. simpl.
  repeat split; rewrite !lookup_insert_ne by discriminate;
    rewrite ?lookup_insert_ne by discriminate; apply lookup_insert_eq.
Qed.

(** X22.  Ingestion shows in the statistics.  After a successful
    [process_and_store] on a writable store whose records could be summed
    and counted before, [get_document_stats] reports one document more, the
    chunks of the new file added to the total, and the file counted once
    under the category of the call and once under its lower-cased
    extension. *)
Theorem ingest_then_stats (file_path category : string) (w w' : World)
    (r : IngestResult) (stored : list dict) (chunks : Z)
    (by_category by_type : counts) :
  process_and_store file_path category w = (Ok r, w') ->
  ing_success r = true ->
  documents_json w = JArray stored ->
  data_writable w = true ->
  sum_total_chunks stored 0 = Ok chunks ->
  tally_key "category" stored [] = Ok by_category ->
  tally_key "file_type" stored [] = Ok by_type ->
  exists n stats,
    chunks_created r = Some n
    /\ get_document_stats w' = (Ok stats, w')
    /\ total_documents stats = length stored + 1
    /\ total_chunks stats = (chunks + Z.of_nat n)%Z
    /\ categories stats = bump (VStr category) by_category
    /\ file_types stats
       = bump (VStr (lower (path_suffix file_path))) by_type.
Proof.
  intros Hrun Hsuccess Hfile Hwritable Hsum Hcat Htype.
  destruct (process_and_store_success_run file_path category w w' r stored
              Hrun Hsuccess Hfile Hwritable)
    as (n & record & Hn & Hstored & Htotal & Hcategory & Hftype & _).
  exists n. eexists. split; [exact Hn|].
  split.
  - unfold get_document_stats. apply try_ok.
    unfold get_all_documents, try_except, bind, _load_json, file_at, lift,
      ret.
    rewrite Hstored.
    rewrite sum_total_chunks_app, Hsum.
    rewrite !tally_key_app, Hcat, Htype. simpl.
    unfold dict_get. rewrite Htotal, Hcategory, Hftype. simpl.
    reflexivity.
  - simpl. rewrite length_app. simpl.
    repeat split; try reflexivity; lia.
Qed.

(** ** Follow-up questions *)

Lemma query_asks (question : string) (k : nat)
    (category_filter : option string) (w : World) :
  exists r w',
    query question k category_filter w = (Ok r, w')
    /\ query_text r = question
    /\ length (sources r) = length (retrieved question k category_filter)
    /\ llm_calls w' = (llm_calls w ++ asked question k category_filter)%list.
Proof.
  destruct (query_run_summary question k category_filter w)
    as (documents & r & w' & Hdocs & Hrun & Hlen & Htext & _ & _ & Hcase).
  rewrite retrieve_documents_run in Hdocs. injection Hdocs as Hdocs.
  exists r, w'. split; [exact Hrun|]. split; [exact Htext|].
  split; [now rewrite Hdocs|].
  unfold asked. rewrite Hdocs.
  destruct documents as [|doc rest].
  - destruct Hcase as (_ & _ & ->). now rewrite app_nil_r.
  - now destruct Hcase as (_ & _ & ->).
Qed.

Lemma follow_up_loop_runs (follow_up_questions : list string) (k : nat)
    (follow_ups : list FollowUp) (w : World) :
  exists added w',
    follow_up_loop follow_up_questions k follow_ups w
    = (Ok (follow_ups ++ added)%list, w')
    /\ map follow_up_question added = follow_up_questions
    /\ Forall2 (fun follow_up entry =>
                  length (follow_up_sources entry)
                  = length (retrieved follow_up k None))
               follow_up_questions added
    /\ llm_calls w'
       = (llm_calls w
          ++ concat (map (fun follow_up => asked follow_up k None)
                         follow_up_questions))%list.
Proof.
  revert follow_ups w.
  induction follow_up_questions as [|follow_up rest IH]; intros follow_ups w.
  - exists [], w. simpl. rewrite !app_nil_r.
    repeat split; constructor.
  - destruct (query_asks follow_up k None w)
      as (r & w1 & Hrun & _ & Hsources & Hcalls).
    destruct (IH (follow_ups
                  ++ [{| follow_up_question := follow_up;
                         follow_up_answer := answer r;
                         follow_up_sources := sources r |}])%list w1)
      as (added & w' & Hrest & Hquestions & Heach & Hcalls').
    eexists (_ :: added), w'. split.
    + simpl. rewrite (bind_run _ _ _ _ _ Hrun), Hrest.
      now rewrite <- app_assoc.
    + simpl. split; [now rewrite Hquestions|].
      split; [constructor; [exact Hsources | exact Heach]|].
      now rewrite Hcalls', Hcalls, <- app_assoc.
Qed.

(** X23.  [query_with_followup] never raises.  Main question and follow-ups
    are all run without a category filter.  With no follow-up ([None] or
    the empty list) the result is that of [query] alone and has no
    [follow_ups] key; otherwise [follow_ups] has one entry per follow-up,
    in order and under its question.  Each follow-up is asked on its own:
    the prompts sent to the model are, in order, the one for the main
    question and the one for each follow-up, each built only from the
    chunks retrieved for that very question. *)
Theorem query_with_followup_independent (question : string)
    (follow_up_questions : option (list string)) (k : nat) (w : World) :
  exists r w',
    query_with_followup question follow_up_questions k w = (Ok r, w')
    /\ query_text (main_response r) = question
    /\ llm_calls w'
       = (llm_calls w
          ++ asked question k None
          ++ concat (map (fun follow_up => asked follow_up k None)
                         (default [] follow_up_questions)))%list
    /\ match follow_up_questions with
       | None | Some [] =>
           follow_ups r = None
           /\ query question k None w = (Ok (main_response r), w')
       | Some questions =>
           exists entries,
             follow_ups r = Some entries
             /\ map follow_up_question entries = questions
             /\ Forall2 (fun follow_up entry =>
                           length (follow_up_sources entry)
                           = length (retrieved follow_up k None))
                        questions entries
       end.
Proof.
  destruct (query_asks question k None w)
    as (main & w1 & Hrun & Htext & _ & Hcalls).
  unfold query_with_followup. rewrite (bind_run _ _ _ _ _ Hrun).
  destruct follow_up_questions as [[|follow_up rest]|].
  - exists {| main_response := main; follow_ups := None |}, w1.
    simpl. rewrite app_nil_r. repeat split; auto.
  - destruct (follow_up_loop_runs (follow_up :: rest) k [] w1)
      as (added & w' & Hloop & Hquestions & Heach & Hcalls').
    exists {| main_response := main; follow_ups := Some added |}, w'.
    split; [now rewrite (bind_run _ _ _ _ _ Hloop)|].
    split; [exact Htext|].
    split; [simpl default; now rewrite Hcalls', Hcalls, <- app_assoc|].
    exists added. repeat split; assumption.
  - exists {| main_response := main; follow_ups := None |}, w1.
    simpl. rewrite app_nil_r. repeat split; auto.
Qed.

(** ** The other external sources *)

Lemma contains_app_r (needle before s : string) :
  contains needle s = true -> contains needle (before ++ s) = true.
Proof.
  intros Hs. induction before as [|c before IH]; [exact Hs|].
  change (contains needle (String c (before ++ s)) = true).
  simpl. rewrite IH. apply orb_true_r.
Qed.

Lemma query_chatgpt_returns (question context : string) (w : World) :
  exists r w',
    query_chatgpt question context w = (Ok (Some r), w')
    /\ (http_posts w <= http_posts w' <= http_posts w + 3)%nat
    /\ (chat_source r = "ChatGPT" \/ chat_source r = "ChatGPT (OpenAI)")
    /\ (truthy openai_api_key = false ->
        w' = w /\ r = chat_failure "OpenAI API key not configured").
Proof.
  unfold query_chatgpt, try_except.
  destruct (truthy openai_api_key) eqn:Hkey.
  2: { eexists _, _. split; [reflexivity|]. simpl.
       split; [lia|]. split; auto. }
  unfold max_retries. simpl seq. simpl retry_loop.
  unfold bind, post, sleep, now, ret, raise. simpl.
  repeat match goal with
         | |- context [requests_post ?n ?key ?p] =>
             destruct (requests_post n key p) as [? ? [[[?|?] ?]|?]|?];
             simpl
         | |- context [(?sc =? ?c)%nat] => destruct (sc =? c)%nat; simpl
         end;
    (eexists _, _; split; [reflexivity|]; simpl;
     split; [lia|]; split; [auto|discriminate]).
Qed.

Lemma query_chatgpt_exhausted (question context key : string) (w : World) :
  openai_api_key = Some key ->
  key <> EmptyString ->
  status_of (requests_post (http_posts w) key (chat_prompt question context))
  = Some 429 ->
  status_of (requests_post (S (http_posts w)) key
               (chat_prompt question context)) = Some 429 ->
  status_of (requests_post (S (S (http_posts w))) key
               (chat_prompt question context)) = Some 429 ->
  exists w',
    query_chatgpt question context w
    = (Ok (Some (chat_failure
                   "Rate limit exceeded. Try again in a few minutes.")), w')
    /\ http_posts w' = http_posts w + 3
    /\ clock w' = clock w.
Proof.
  intros Hkey Hset H1 H2 H3.
  unfold query_chatgpt. rewrite Hkey, (truthy_key key Hset). simpl default.
  set (prompt := chat_prompt question context) in *.
  destruct (requests_post (http_posts w) key prompt)
    as [s1 t1 j1|] eqn:E1; [|discriminate].
  destruct (requests_post (S (http_posts w)) key prompt)
    as [s2 t2 j2|] eqn:E2; [|discriminate].
  destruct (requests_post (S (S (http_posts w))) key prompt)
    as [s3 t3 j3|] eqn:E3; [|discriminate].
  injection H1 as ->. injection H2 as ->. injection H3 as ->.
  eexists. split.
  - unfold try_except, max_retries. simpl seq. simpl retry_loop.
    unfold bind, post, sleep, now, ret. simpl.
    rewrite E1. simpl. rewrite E2. simpl. rewrite E3. simpl.
    reflexivity.
  - simpl. split; [lia | reflexivity].
Qed.

Lemma simulate_copilot_response_returns (question context : string)
    (w : World) :
  exists r w',
    simulate_copilot_response question context w = (Ok r, w')
    /\ (http_posts w <= http_posts w' <= S (http_posts w))%nat
    /\ chat_source r = "GitHub Copilot"
    /\ (truthy openai_api_key = false ->
        w' = w /\ r = copilot_failure "OpenAI API key not configured")
    /\ (truthy openai_api_key = true -> http_posts w' = S (http_posts w))
    /\ (truthy openai_api_key = true ->
        status_of (requests_post (http_posts w) (default "" openai_api_key)
                     (copilot_prompt question context)) = Some 429 ->
        r = copilot_failure "Copilot simulation error: 429").
Proof.
  unfold simulate_copilot_response, try_except.
  destruct (truthy openai_api_key) eqn:Hkey.
  2: { eexists _, _. split; [reflexivity|]. simpl.
       split; [lia|]. split; [reflexivity|]. split; [auto|].
       split; discriminate. }
  unfold bind, post, now, ret, raise. simpl.
  destruct (requests_post (http_posts w) (default "" openai_api_key)
              (copilot_prompt question context))
    as [status_code text [[[content|key_error] total_tokens]|e]|e] eqn:Hpost;
    simpl;
    try destruct (status_code =? 200)%nat eqn:H200; simpl;
    (eexists _, _; split; [reflexivity|]; simpl;
     split; [lia|]; split; [reflexivity|]; split; [discriminate|];
     split; [reflexivity|]);
    intros _ Hstatus; try discriminate;
    injection Hstatus as ->; try discriminate; reflexivity.
Qed.

Lemma query_google_search_returns (question : string) (num_results : Z)
    (w : World) :
  exists r w',
    query_google_search question num_results w = (Ok r, w')
    /\ http_posts w' = http_posts w
    /\ search_source r = "Google Search"
    /\ (truthy google_api_key = false \/ truthy google_cx = false ->
        w' = w
        /\ r = search_failure "Google API credentials not configured").
Proof.
  unfold query_google_search, try_except.
  destruct (truthy google_api_key) eqn:Hkey; simpl.
  2: { eexists _, _. split; [reflexivity|]. auto. }
  destruct (truthy google_cx) eqn:Hcx; simpl.
  2: { eexists _, _. split; [reflexivity|]. auto. }
  unfold bind, now, ret, raise. simpl.
  destruct (requests_get (default "" google_api_key) (default "" google_cx)
              question (Z.min num_results 10))
    as [status_code [items|e]|e]; simpl;
    try destruct (status_code =? 200)%nat; simpl;
    (eexists _, _; split; [reflexivity|]; simpl;
     split; [reflexivity|]; split; [reflexivity|];
     intros [?|?]; discriminate).
Qed.

(** X24.  [query_all_sources] never raises and always returns three results,
    in the order ChatGPT, Copilot (asked or the demo text), Google search:
    a source that fails is reported in its place and does not keep the
    later ones from being asked.  The whole call makes at most four posts. *)
Theorem query_all_sources_three_results (question context : string)
    (w : World) :
  exists chat second search w',
    query_all_sources question context w
    = (Ok [ChatSource chat; ChatSource second; SearchSource search], w')
    /\ (chat_source chat = "ChatGPT" \/ chat_source chat = "ChatGPT (OpenAI)")
    /\ (chat_source second = "GitHub Copilot"
        \/ exists t, second = copilot_demo question t)
    /\ search_source search = "Google Search"
    /\ (http_posts w' <= http_posts w + 4)%nat.
Proof.
  destruct (query_chatgpt_returns question context w)
    as (chat & w1 & Hchat & Hposts1 & Hsource1 & _).
  assert (Hsecond : exists second w2,
             (if truthy (chat_error chat)
                 && contains "429" (default "None" (chat_error chat))
              then t <~ now ; ret (copilot_demo question (isoformat t))
              else simulate_copilot_response question context) w1
             = (Ok second, w2)
             /\ (http_posts w2 <= S (http_posts w1))%nat
             /\ (chat_source second = "GitHub Copilot"
                 \/ exists t, second = copilot_demo question t)).
  { destruct (truthy (chat_error chat)
              && contains "429" (default "None" (chat_error chat))).
    - eexists _, _. split; [reflexivity|]. simpl. split; [lia|]. eauto.
    - destruct (simulate_copilot_response_returns question context w1)
        as (second & w2 & Hrun & Hposts2 & Hsource2 & _).
      exists second, w2. split; [exact Hrun|]. split; [lia|]. auto. }
  destruct Hsecond as (second & w2 & Hsecond & Hposts2 & Hsource2).
  destruct (query_google_search_returns question 5 w2)
    as (search & w3 & Hsearch & Hposts3 & Hsource3 & _).
  exists chat, second, search, w3. split.
  - unfold query_all_sources.
    rewrite (bind_run _ _ _ _ _ Hchat), (bind_run _ _ _ _ _ Hsecond),
      (bind_run _ _ _ _ _ Hsearch).
    reflexivity.
  - repeat split; auto. lia.
Qed.

(** X25.  Running out of retries on 429 does not switch to the demo text:
    the failure message of [query_chatgpt] for that case does not contain
    429, which is what [query_all_sources] looks for.  So after three posts
    answered 429 the Copilot request is still sent, as a fourth post, and if
    it is answered 429 as well the second result is the Copilot failure
    record for status 429. *)
Theorem query_all_sources_rate_limit_asks_copilot
    (question context key : string) (w : World) :
  openai_api_key = Some key ->
  key <> EmptyString ->
  status_of (requests_post (http_posts w) key (chat_prompt question context))
  = Some 429 ->
  status_of (requests_post (S (http_posts w)) key
               (chat_prompt question context)) = Some 429 ->
  status_of (requests_post (S (S (http_posts w))) key
               (chat_prompt question context)) = Some 429 ->
  exists second search w',
    query_all_sources question context w
    = (Ok [ChatSource (chat_failure
                         "Rate limit exceeded. Try again in a few minutes.");
           ChatSource second; SearchSource search], w')
    /\ chat_source second = "GitHub Copilot"
    /\ http_posts w' = http_posts w + 4
    /\ (status_of (requests_post (http_posts w + 3) key
                     (copilot_prompt question context)) = Some 429 ->
        second = copilot_failure "Copilot simulation error: 429").
Proof.
  intros Hkey Hset H1 H2 H3.
  destruct (query_chatgpt_exhausted question context key w Hkey Hset H1 H2 H3)
    as (w1 & Hchat & Hposts1 & _).
  destruct (simulate_copilot_response_returns question context w1)
    as (second & w2 & Hsecond & _ & Hsource2 & _ & Hposts2 & H429).
  destruct (query_google_search_returns question 5 w2)
    as (search & w3 & Hsearch & Hposts3 & _).
  assert (Htruthy : truthy openai_api_key = true)
    by (rewrite Hkey; now apply truthy_key).
  exists second, search, w3. split.
  - unfold query_all_sources.
    rewrite (bind_run _ _ _ _ _ Hchat).
    change (truthy (chat_error (chat_failure _)) && contains "429" _)
      with false.
    rewrite (bind_run _ _ _ _ _ Hsecond), (bind_run _ _ _ _ _ Hsearch).
    reflexivity.
  - split; [exact Hsource2|]. split.
    + rewrite Hposts3, (Hposts2 Htruthy), Hposts1. lia.
    + intros Hstatus. apply (H429 Htruthy).
      rewrite Hposts1, Hkey. exact Hstatus.
Qed.

(** X26.  The demo text is given when the failure message mentions 429,
    which happens for a response with another status whose body does: after
    a first response with a status other than 200 and 429 and a body that
    contains 429, the ChatGPT result is the failure naming status and body,
    the second result is the demo record, marked successful, and Copilot is
    not asked (one post in all). *)
Theorem query_all_sources_demo_mode (question context key : string)
    (w : World) (status_code : nat) (text : string)
    (json : result (result pyval * Z)) :
  openai_api_key = Some key ->
  key <> EmptyString ->
  requests_post (http_posts w) key (chat_prompt question context)
  = Response status_code text json ->
  status_code <> 200 ->
  status_code <> 429 ->
  contains "429" text = true ->
  exists search w',
    query_all_sources question context w
    = (Ok [ChatSource (chat_failure
                         ("OpenAI API error: " ++ pretty status_code ++ " - "
                          ++ text));
           ChatSource (copilot_demo question (isoformat (clock w)));
           SearchSource search], w')
    /\ chat_success (copilot_demo question (isoformat (clock w))) = true
    /\ http_posts w' = S (http_posts w).
Proof.
  intros Hkey Hset Hpost H200 H429 Htext.
  assert (Hchat : exists w1,
             query_chatgpt question context w
             = (Ok (Some (chat_failure
                            ("OpenAI API error: " ++ pretty status_code
                             ++ " - " ++ text))), w1)
             /\ http_posts w1 = S (http_posts w)
             /\ clock w1 = clock w).
  { unfold query_chatgpt, try_except. rewrite Hkey, (truthy_key key Hset).
    unfold max_retries. simpl seq. simpl retry_loop.
    unfold bind, post, ret. simpl. rewrite Hpost.
    apply Nat.eqb_neq in H200, H429. rewrite H200, H429.
    eexists. repeat split; reflexivity. }
  destruct Hchat as (w1 & Hchat & Hposts1 & Hclock1).
  destruct (query_google_search_returns question 5
              (snd (now w1)))
    as (search & w3 & Hsearch & Hposts3 & _).
  assert (Hmentions :
            truthy (Some ("OpenAI API error: " ++ pretty status_code ++ " - "
                          ++ text))
            && contains "429"
                 ("OpenAI API error: " ++ pretty status_code ++ " - " ++ text)
            = true).
  { apply andb_true_intro. split; [reflexivity|].
    apply contains_app_r, contains_app_r, contains_app_r. exact Htext. }
  exists search, w3. split.
  - unfold query_all_sources.
    rewrite (bind_run _ _ _ _ _ Hchat).
    change (chat_error (chat_failure ?e)) with (Some e).
    simpl default. rewrite Hmentions.
    assert (Hsecond :
              (t <~ now ; ret (copilot_demo question (isoformat t))) w1
              = (Ok (copilot_demo question (isoformat (clock w))),
                 snd (now w1))).
    { unfold bind, now, ret. simpl. now rewrite Hclock1. }
    rewrite (bind_run _ _ _ _ _ Hsecond), (bind_run _ _ _ _ _ Hsearch).
    reflexivity.
  - split; [reflexivity|]. rewrite Hposts3. simpl. exact Hposts1.
Qed.

Lemma string_app_assoc (a b c : string) : (a ++ b) ++ c = a ++ b ++ c.
Proof.
  induction a as [|x a IH]; [reflexivity|].
  change (String x ((a ++ b) ++ c) = String x (a ++ b ++ c)).
  now rewrite IH.
Qed.

Lemma all_sources_run_success (question context : string)
    (kb_response : option QueryResponse) (w : World) :
  exists response w',
    (results <~ query_all_sources question context ;
     format_multi_source_response question results kb_response) w
    = (Ok response, w')
    /\ multi_success response = true
    /\ total_sources response = 3
    /\ successful_sources response = length (multi_sources response)
    /\ (successful_sources response <= 3)%nat.
Proof.
  destruct (query_chatgpt_returns question context w)
    as (chat & w1 & Hchat & _).
  assert (Hsecond : exists second w2,
             (if truthy (chat_error chat)
                 && contains "429" (default "None" (chat_error chat))
              then t <~ now ; ret (copilot_demo question (isoformat t))
              else simulate_copilot_response question context) w1
             = (Ok second, w2)).
  { destruct (truthy (chat_error chat)
              && contains "429" (default "None" (chat_error chat))).
    - eexists _, _. reflexivity.
    - destruct (simulate_copilot_response_returns question context w1)
        as (second & w2 & Hrun & _).
      now exists second, w2. }
  destruct Hsecond as (second & w2 & Hsecond).
  destruct (query_google_search_returns question 5 w2)
    as (search & w3 & Hsearch & _).
  assert (Hall : query_all_sources question context w
                 = (Ok [ChatSource chat; ChatSource second;
                        SearchSource search], w3)).
  { unfold query_all_sources.
    rewrite (bind_run _ _ _ _ _ Hchat), (bind_run _ _ _ _ _ Hsecond),
      (bind_run _ _ _ _ _ Hsearch).
    reflexivity. }
  eexists _, _. split.
  - rewrite (bind_run _ _ _ _ _ Hall). reflexivity.
  - simpl. split; [reflexivity|]. split; [reflexivity|].
    split; [now rewrite length_map|].
    etransitivity; [apply length_filter|]. simpl. lia.
Qed.

Lemma all_sources_unconfigured_run (question context : string)
    (kb_response : option QueryResponse) (w : World) :
  truthy openai_api_key = false ->
  truthy google_api_key = false \/ truthy google_cx = false ->
  exists response w',
    (results <~ query_all_sources question context ;
     format_multi_source_response question results kb_response) w
    = (Ok response, w')
    /\ multi_sources response = []
    /\ successful_sources response = 0
    /\ (kb_response = None ->
        multi_answer response
       = "# " ++ star_mark ++ " Comprehensive Answer: " ++ question ++ "\n\n"
         ++ "## " ++ warning_mark ++ " **Unavailable Sources:**\n"
         ++ bullet_mark ++ " ChatGPT: OpenAI API key not configured\n"
         ++ bullet_mark ++ " GitHub Copilot: OpenAI API key not configured\n"
         ++ bullet_mark
         ++ " Google Search: Google API credentials not configured\n")
    /\ http_posts w' = http_posts w.
Proof.
  intros Hkey Hgoogle.
  destruct (query_chatgpt_returns question context w)
    as (chat & w1 & Hchat & _ & _ & Hnokey).
  destruct (Hnokey Hkey) as [-> ->].
  destruct (simulate_copilot_response_returns question context w)
    as (second & w2 & Hsecond & _ & _ & Hnokey2 & _).
  destruct (Hnokey2 Hkey) as [-> ->].
  destruct (query_google_search_returns question 5 w)
    as (search & w3 & Hsearch & _ & _ & Hnocreds).
  destruct (Hnocreds Hgoogle) as [-> ->].
  assert (Hall : query_all_sources question context w
                 = (Ok [ChatSource
                          (chat_failure "OpenAI API key not configured");
                        ChatSource
                          (copilot_failure "OpenAI API key not configured");
                        SearchSource
                          (search_failure
                             "Google API credentials not configured")], w)).
  { unfold query_all_sources.
    rewrite (bind_run _ _ _ _ _ Hchat).
    change (truthy (chat_error (chat_failure _)) && contains "429" _)
      with false.
    rewrite (bind_run _ _ _ _ _ Hsecond), (bind_run _ _ _ _ _ Hsearch).
    reflexivity. }
  eexists _, _. split.
  - rewrite (bind_run _ _ _ _ _ Hall). reflexivity.
  - split; [reflexivity|]. split; [reflexivity|]. split; [|reflexivity].
    intros ->. cbn [multi_answer].
    unfold multi_source_answer, unavailable_line. cbn [filter].
    simpl.
    rewrite !string_app_assoc. reflexivity.
Qed.

(** X27.  Asking all sources and formatting what they gave never raises,
    and the combined response is always marked successful: it counts three
    sources in all, and as many successful ones as it lists source names,
    between none and three.  That holds also when nothing is configured:
    with no OpenAI key and incomplete Google credentials nothing is posted,
    no source is listed, and without a knowledge-base response the answer is
    the heading followed by the three sources under Unavailable Sources,
    each with its configuration message. *)
Theorem all_sources_response_always_success (question context : string)
    (kb_response : option QueryResponse) (w : World) :
  exists response w',
    (results <~ query_all_sources question context ;
     format_multi_source_response question results kb_response) w
    = (Ok response, w')
    /\ multi_success response = true
    /\ total_sources response = 3
    /\ successful_sources response = length (multi_sources response)
    /\ (successful_sources response <= 3)%nat
    /\ (truthy openai_api_key = false ->
        truthy google_api_key = false \/ truthy google_cx = false ->
        multi_sources response = []
        /\ http_posts w' = http_posts w
        /\ (kb_response = None ->
            multi_answer response
            = "# " ++ star_mark ++ " Comprehensive Answer: " ++ question
              ++ "\n\n"
              ++ "## " ++ warning_mark ++ " **Unavailable Sources:**\n"
              ++ bullet_mark ++ " ChatGPT: OpenAI API key not configured\n"
              ++ bullet_mark
              ++ " GitHub Copilot: OpenAI API key not configured\n"
              ++ bullet_mark
              ++ " Google Search: Google API credentials not configured\n")).
Proof.
  destruct (all_sources_run_success question context kb_response w)
    as (response & w' & Hrun & Hsuccess & Htotal & Hcount & Hbound).
  exists response, w'. repeat (split; [assumption|]).
  intros Hkey Hgoogle.
  destruct (all_sources_unconfigured_run question context kb_response w
              Hkey Hgoogle)
    as (response' & w'' & Hrun' & Hsources & _ & Hanswer & Hposts).
  rewrite Hrun in Hrun'. injection Hrun' as <- <-.
  auto.
Qed.

(** ** The configured model *)

Lemma config_lookup_In {A} (key : string) (config : list (string * A))
    (a : A) :
  config_lookup key config = Some a -> In (key, a) config.
Proof.
  induction config as [|[k b] rest IH]; [discriminate|].
  simpl. destruct (String.eqb k key) eqn:Hk.
  - intros [= ->]. apply String.eqb_eq in Hk. subst. now left.
  - intros H. right. now apply IH.
Qed.

Lemma truthy_Some (o : option string) :
  truthy o = true -> exists s, o = Some s /\ s <> EmptyString.
Proof.
  destruct o as [[|c s]|]; try discriminate.
  intros _. eexists. split; [reflexivity | discriminate].
Qed.

Lemma or_default_truthy (name : option string) (dflt : string) :
  dflt <> EmptyString ->
  exists m, or_default name dflt = Some m
            /\ (name = Some m \/ (truthy name = false /\ m = dflt)).
Proof.
  intros Hd. unfold or_default. destruct (truthy name) eqn:Ht.
  - destruct (truthy_Some _ Ht) as (s & -> & _). eauto.
  - eauto.
Qed.

(** What [get_model] does once the temperature is read and the provider is
    the one of class [c] with a key set. *)
Lemma get_model_provider (c : model_class) (env : Env) (k : string)
    (t : float) :
  configured_provider env = provider_name c ->
  configured_temperature env = Ok t ->
  env !! key_variable c = Some k ->
  k <> EmptyString ->
  exists m,
    or_default (env !! "MODEL_NAME") (default_model_name c) = Some m
    /\ get_model env
       = match config_lookup m
                 (default [] (config_lookup (provider_name c) MODEL_CONFIGS))
         with
         | Some c' => new_model c' k m t env
         | None =>
             (Raise ("Unsupported model " ++ m ++ " for provider "
                     ++ provider_name c), env)
         end.
Proof.
  unfold configured_provider, configured_temperature.
  intros Hprovider Htemp Hkey Hset.
  assert (Hd : default_model_name c <> EmptyString) by (now destruct c).
  destruct (or_default_truthy (env !! "MODEL_NAME") (default_model_name c) Hd)
    as (m & Hm & _).
  exists m. split; [exact Hm|].
  unfold get_model. rewrite Hprovider, Htemp.
  destruct c; cbn [provider_name key_variable default_model_name] in *;
    repeat match goal with
           | |- context [String.eqb ?a ?b] =>
               let v := eval vm_compute in (String.eqb a b) in
               change (String.eqb a b) with v
           end;
    cbv iota; rewrite Hkey, Hm, (truthy_key k Hset);
    unfold create_model;
    match goal with
    | |- context [lower ?p] => change (lower p) with p
    end;
    match goal with
    | |- context [config_lookup ?p MODEL_CONFIGS] =>
        let v := eval vm_compute in (config_lookup p MODEL_CONFIGS) in
        change (config_lookup p MODEL_CONFIGS) with v
    end;
    cbn [default mbind option_bind];
    reflexivity.
Qed.

(** X28.  With the provider set to one of openai, claude and gemini (in any
    letter case), that provider's key set and no model name given,
    [get_model] builds the provider's default model with the configured
    temperature, provided the client can be built: every default name is
    one the factory accepts.  The environment is left as it was. *)
Theorem get_model_defaults (c : model_class) (env : Env) (k : string)
    (t : float) :
  configured_provider env = provider_name c ->
  configured_temperature env = Ok t ->
  env !! key_variable c = Some k ->
  k <> EmptyString ->
  truthy (env !! "MODEL_NAME") = false ->
  chat_client c (default_model_name c) t k = Ok tt ->
  get_model env
  = (Ok {| instance_class := c;
           instance_api_key := k;
           instance_model_name := default_model_name c;
           instance_temperature := t |}, env).
Proof.
  intros Hprovider Htemp Hkey Hset Hname Hclient.
  destruct (get_model_provider c env k t Hprovider Htemp Hkey Hset)
    as (m & Hm & ->).
  unfold or_default in Hm. rewrite Hname in Hm. injection Hm as <-.
  destruct c; cbn [provider_name default_model_name key_variable] in *;
    match goal with
    | |- context [config_lookup ?m (default [] ?l)] =>
        let v := eval vm_compute in (config_lookup m (default [] l)) in
        change (config_lookup m (default [] l)) with v
    end;
    cbv iota; unfold new_model; cbn [key_variable];
    rewrite Hclient, (insert_id _ _ _ Hkey); reflexivity.
Qed.

(** X29.  Whatever [get_model] returns is consistent with the
    configuration: the instance belongs to the class of the configured
    provider, carries that provider's key from the environment (which is
    not empty), the configured temperature and a model name listed under
    that provider in [MODEL_CONFIGS], namely [MODEL_NAME] when it is set
    and not empty and the provider's default otherwise.  The environment
    is left as it was. *)
Theorem get_model_result (env env' : Env) (instance : ModelInstance) :
  get_model env = (Ok instance, env') ->
  let c := instance_class instance in
  configured_provider env = provider_name c
  /\ env !! key_variable c = Some (instance_api_key instance)
  /\ instance_api_key instance <> EmptyString
  /\ configured_temperature env = Ok (instance_temperature instance)
  /\ (exists provider_config,
        In (provider_name c, provider_config) MODEL_CONFIGS
        /\ In (instance_model_name instance, c) provider_config)
  /\ or_default (env !! "MODEL_NAME") (default_model_name c)
     = Some (instance_model_name instance)
  /\ env' = env.
Proof.
  intros Hrun.
  assert (Hcases :
            exists c k t,
              configured_provider env = provider_name c
              /\ configured_temperature env = Ok t
              /\ env !! key_variable c = Some k
              /\ k <> EmptyString).
  { unfold get_model in Hrun. unfold configured_provider, configured_temperature.
    destruct (py_float (default "0.0" (env !! "MODEL_TEMPERATURE")))
      as [t|e]; [|discriminate].
    destruct (String.eqb _ "openai") eqn:E1;
      [|destruct (String.eqb _ "claude") eqn:E2;
        [|destruct (String.eqb _ "gemini") eqn:E3]];
      try (apply String.eqb_eq in E1); try (apply String.eqb_eq in E2);
      try (apply String.eqb_eq in E3).
    - destruct (truthy (env !! "OPENAI_API_KEY")) eqn:Hk; [|discriminate].
      destruct (truthy_Some _ Hk) as (k & Hkey & Hset).
      now exists OpenAIModel, k, t.
    - destruct (truthy (env !! "ANTHROPIC_API_KEY")) eqn:Hk; [|discriminate].
      destruct (truthy_Some _ Hk) as (k & Hkey & Hset).
      now exists ClaudeModel, k, t.
    - destruct (truthy (env !! "GOOGLE_API_KEY")) eqn:Hk; [|discriminate].
      destruct (truthy_Some _ Hk) as (k & Hkey & Hset).
      now exists GeminiModel, k, t.
    - discriminate. }
  destruct Hcases as (c & k & t & Hprovider & Htemp & Hkey & Hset).
  destruct (get_model_provider c env k t Hprovider Htemp Hkey Hset)
    as (m & Hm & Hget).
  rewrite Hget in Hrun.
  destruct (config_lookup (provider_name c) MODEL_CONFIGS)
    as [provider_config|] eqn:Hconfig; [|now destruct c].
  change (default [] (Some provider_config)) with provider_config in Hrun.
  destruct (config_lookup m provider_config) as [c'|] eqn:Hlookup;
    [|discriminate].
  assert (Hclass : c' = c).
  { apply config_lookup_In in Hlookup.
    destruct c; vm_compute in Hconfig; injection Hconfig as <-;
      simpl in Hlookup;
      repeat (destruct Hlookup as [Hlookup|Hlookup]; [congruence|]);
      contradiction. }
  subst c'. unfold new_model in Hrun.
  destruct (chat_client c m t k); [|discriminate].
  injection Hrun as <- <-. cbn [instance_class instance_api_key
    instance_model_name instance_temperature].
  repeat split; auto.
  - exists provider_config. split; now apply config_lookup_In.
  - now apply insert_id.
Qed.

(** X30.  Every way [get_model] fails, with the environment left as it
    was: the temperature is not a number; or the provider's key is missing
    or empty, which is also what is reported for a provider other than
    openai, claude and gemini, whose name never reaches the factory; or the
    model name is not among the configured provider's models; or building
    the client failed. *)
Theorem get_model_errors (env env' : Env) (e : string) :
  get_model env = (Raise e, env') ->
  env' = env
  /\ (configured_temperature env = Raise e
      \/ (e = "API key not found for provider: " ++ configured_provider env
          /\ forall c, configured_provider env = provider_name c ->
                       truthy (env !! key_variable c) = false)
      \/ (exists c m,
            configured_provider env = provider_name c
            /\ or_default (env !! "MODEL_NAME") (default_model_name c)
               = Some m
            /\ e = "Unsupported model " ++ m ++ " for provider "
                   ++ provider_name c)
      \/ (exists c m t k,
            configured_provider env = provider_name c
            /\ env !! key_variable c = Some k
            /\ chat_client c m t k = Raise e)).
Proof.
  intros Hrun.
  destruct (configured_temperature env) as [t|e0] eqn:Htemp.
  2: { unfold get_model in Hrun. unfold configured_temperature in Htemp.
       rewrite Htemp in Hrun. injection Hrun as <- <-. auto. }
  assert (Hcases :
            (exists c k,
               configured_provider env = provider_name c
               /\ env !! key_variable c = Some k
               /\ k <> EmptyString)
            \/ (get_model env
                = (Raise ("API key not found for provider: "
                          ++ configured_provider env), env)
                /\ forall c, configured_provider env = provider_name c ->
                             truthy (env !! key_variable c) = false)).
  { unfold get_model. unfold configured_temperature in Htemp. rewrite Htemp.
    unfold configured_provider.
    set (provider := lower (default "openai" (env !! "MODEL_PROVIDER"))).
    destruct (String.eqb_spec provider "openai") as [E1|E1];
      [|destruct (String.eqb_spec provider "claude") as [E2|E2];
        [|destruct (String.eqb_spec provider "gemini") as [E3|E3]]].
    - destruct (truthy (env !! "OPENAI_API_KEY")) eqn:Hk.
      + destruct (truthy_Some _ Hk) as (k & Hkey & Hset).
        left. now exists OpenAIModel, k.
      + right. split; [reflexivity|].
        intros [] Hc; rewrite E1 in Hc; try discriminate. exact Hk.
    - destruct (truthy (env !! "ANTHROPIC_API_KEY")) eqn:Hk.
      + destruct (truthy_Some _ Hk) as (k & Hkey & Hset).
        left. now exists ClaudeModel, k.
      + right. split; [reflexivity|].
        intros [] Hc; rewrite E2 in Hc; try discriminate. exact Hk.
    - destruct (truthy (env !! "GOOGLE_API_KEY")) eqn:Hk.
      + destruct (truthy_Some _ Hk) as (k & Hkey & Hset).
        left. now exists GeminiModel, k.
      + right. split; [reflexivity|].
        intros [] Hc; rewrite E3 in Hc; try discriminate. exact Hk.
    - right. split; [reflexivity|].
      intros [] Hc; simpl in Hc; contradiction. }
  destruct Hcases as [(c & k & Hprovider & Hkey & Hset)|[Hget Hnone]].
  2: { rewrite Hget in Hrun. injection Hrun as <- <-. auto. }
  destruct (get_model_provider c env k t Hprovider Htemp Hkey Hset)
    as (m & Hm & Hget).
  rewrite Hget in Hrun.
  destruct (config_lookup m _) as [c'|] eqn:Hlookup.
  - unfold new_model in Hrun.
    destruct (chat_client c' m t k) eqn:Hclient; [discriminate|].
    injection Hrun as <- <-.
    assert (Hclass : c' = c).
    { apply config_lookup_In in Hlookup.
      destruct c; simpl in Hlookup;
        repeat (destruct Hlookup as [Hlookup|Hlookup]; [congruence|]);
        contradiction. }
    subst c'. split; [now apply insert_id|].
    right. right. right. now exists c, m, t, k.
  - injection Hrun as <- <-. split; [reflexivity|].
    right. right. left. now exists c, m.
Qed.
End Pipeline.

(** * The claims on sample runs *)

(** C3.  [retrieve_documents] never returns more chunks than the store
    gave it, so if the store returns at most [k] chunks, so does
    [retrieve_documents]; and under a filter that is set every returned
    chunk has a string category equal to the filter up to letter case, as
    [str.lower()] folds it.  The filter runs on what the store returned and
    on nothing else: with no filter set the store's chunks come back as
    they are, and with one set, those of them of the filter's category, in
    the store's order.  So a chunk of the wanted category ranked below the
    top [k] is not returned, and the result can be empty. *)
Theorem retrieve_documents_top_k_then_filter :
  (forall (str_lower : string -> string)
          (search : string -> nat -> result (list Document))
          (query : string) (k : nat) (category_filter : option string)
          (w : World),
     (forall documents,
        search query k = Ok documents -> (length documents <= k)%nat) ->
     exists documents,
       retrieve_documents str_lower search query k category_filter w
       = (Ok documents, w)
       /\ (length documents <= k)%nat
       /\ (forall f,
             category_filter = Some f -> f <> "" ->
             Forall (fun doc =>
                       exists c,
                         dict_get (metadata doc) "category" (VStr "")
                         = VStr c
                         /\ str_lower c = str_lower f) documents)
       /\ (forall top,
             search query k = Ok top ->
             (length documents <= length top)%nat
             /\ match category_filter with
                | None | Some EmptyString => documents = top
                | Some f =>
                    Forall has_text_category top ->
                    documents = List.filter (same_category str_lower f) top
                end))
  /\ (exists (ranking : list Document) (query : string) (k : nat)
             (f : string) (doc : Document),
        (0 < k)%nat
        /\ doc ∈ ranking
        /\ category_matches lower f doc = Ok true
        /\ forall w,
             retrieve_documents lower (ranked_store ranking) query k (Some f) w
             = (Ok [], w)).
Proof.
  split.
  - intros str_lower search query k category_filter w Htop.
    exists (retrieved str_lower search query k category_filter).
    split; [apply retrieve_documents_run|].
    split; [now apply retrieved_bounded|].
    split.
    + intros f -> Hset. apply retrieved_filtered. now apply truthy_key.
    + intros top Hsearch.
      split; [now apply retrieved_within|].
      destruct category_filter as [[|c f]|].
      * now apply retrieved_unfiltered.
      * intros Htext. now apply retrieved_same_category.
      * now apply retrieved_unfiltered.
  - exists [handbook_chunk; policy_chunk], "expenses", 1, "policies",
      policy_chunk.
    split; [lia|].
    split; [apply list_elem_of_In; right; left; reflexivity|].
    split; [reflexivity|].
    intros w. rewrite retrieve_documents_run. reflexivity.
Qed.

Lemma retrieve_documents_top_k_then_filter_witness :
  exists documents,
    retrieve_documents lower (ranked_store [handbook_chunk; policy_chunk])
      "leave" 1 (Some "HR") sample_world
    = (Ok documents, sample_world)
    /\ (length documents <= 1)%nat
    /\ (forall f,
          Some "HR" = Some f -> f <> "" ->
          Forall (fun doc =>
                    exists c,
                      dict_get (metadata doc) "category" (VStr "") = VStr c
                      /\ lower c = lower f) documents)
    /\ (forall top,
          ranked_store [handbook_chunk; policy_chunk] "leave" 1 = Ok top ->
          (length documents <= length top)%nat
          /\ (Forall has_text_category top ->
              documents = List.filter (same_category lower "HR") top)).
Proof.
  apply (proj1 retrieve_documents_top_k_then_filter).
  intros documents [= <-]. simpl. lia.
Defined.

Lemma query_no_chunks_witness :
  exists response w',
    query pretty pretty lower (ranked_store []) failing_llm "gpt-3.5-turbo"
      "How many days of leave do I get?" 5 None sample_world
    = (Ok response, w')
    /\ success response = false
    /\ sources response = []
    /\ answer response = no_information
    /\ llm_calls w' = llm_calls sample_world.
Proof. apply query_no_chunks. reflexivity. Defined.

Lemma query_retrieval_error_witness :
  retrieve_documents lower failing_store "How many days of leave do I get?" 5
    (Some "hr") sample_world
  = (Ok [], sample_world)
  /\ exists response w',
       query pretty pretty lower failing_store failing_llm "gpt-3.5-turbo"
         "How many days of leave do I get?" 5 (Some "hr") sample_world
       = (Ok response, w')
       /\ success response = false
       /\ sources response = []
       /\ answer response = no_information
       /\ error response = None.
Proof.
  apply (query_retrieval_error pretty pretty lower failing_store failing_llm
           "gpt-3.5-turbo" "How many days of leave do I get?" 5 (Some "hr")
           sample_world "Connection refused").
  reflexivity.
Defined.

Lemma query_model_error_witness :
  exists response w',
    query pretty pretty lower (ranked_store [handbook_chunk]) failing_llm
      "gpt-3.5-turbo" "How many days of leave do I get?" 5 None sample_world
    = (Ok response, w')
    /\ success response = true
    /\ answer response
       = "Sorry, I encountered an error while generating the answer: "
         ++ "429 Too Many Requests"
    /\ sources response = extract_citations [handbook_chunk]
    /\ error response = None.
Proof.
  apply (query_model_error pretty pretty lower (ranked_store [handbook_chunk])
           failing_llm "gpt-3.5-turbo" "How many days of leave do I get?" 5
           None sample_world [handbook_chunk] "429 Too Many Requests").
  - reflexivity.
  - discriminate.
  - reflexivity.
Defined.

(** One chunk is retrieved and the model raises on the prompt built from
    it: the response [query] returns has [success = True]. *)
Lemma query_model_error_marked_success :
  failing_llm
    (prompt_format (format_context [handbook_chunk])
       "How many days of leave do I get?")
  = Raise "429 Too Many Requests"
  /\ success
       <$> returned
             (query pretty pretty lower (ranked_store [handbook_chunk])
               failing_llm
                "gpt-3.5-turbo" "How many days of leave do I get?" 5 None
                sample_world)
     = Some true
  /\ success
       <$> returned
             (query pretty pretty lower (ranked_store [handbook_chunk])
               failing_llm
                "gpt-3.5-turbo" "How many days of leave do I get?" 5 None
                sample_world)
     <> Some false.
Proof.
  split; [reflexivity|].
  assert (Hrun :
    success
      <$> returned
            (query pretty pretty lower (ranked_store [handbook_chunk])
              failing_llm
               "gpt-3.5-turbo" "How many days of leave do I get?" 5 None
               sample_world)
    = Some true) by (vm_compute; reflexivity).
  split; [exact Hrun | rewrite Hrun; discriminate].
Qed.

Lemma local_store_not_found_witness :
  update_document pretty "doc_9_20240101_120000"
    {[ "category" := VStr "hr" ]} stored_world
  = (Ok false, stored_world)
  /\ delete_document "doc_9_20240101_120000" stored_world
     = (Ok false, stored_world).
Proof. apply local_store_not_found. reflexivity. Defined.

Lemma query_chatgpt_rate_limit_witness :
  (exists r w',
     query_chatgpt pretty (Some "sk-test") (rate_limited_server 2)
       sample_unbound_error
       "How many days of leave do I get?" "" sample_world
     = (Ok (Some r), w')
     /\ chat_success r = true
     /\ chat_answer r = Some (VStr "Twenty days.")
     /\ http_posts w' = http_posts sample_world + 3
     /\ slept w' = (slept sample_world ++ [2; 4])%list)
  /\ (exists r w',
        query_chatgpt pretty (Some "sk-test") (rate_limited_server 3)
          sample_unbound_error
          "How many days of leave do I get?" "" sample_world
        = (Ok (Some r), w')
        /\ chat_success r = false
        /\ chat_error r
           = Some "Rate limit exceeded. Try again in a few minutes."
        /\ http_posts w' = http_posts sample_world + 3
        /\ slept w' = (slept sample_world ++ [2; 4])%list).
Proof.
  split.
  - apply (proj1 (query_chatgpt_rate_limit pretty (Some "sk-test")
                    (rate_limited_server 2) sample_unbound_error
                    "How many days of leave do I get?" "" "sk-test"
                    sample_world eq_refl ltac:(discriminate) eq_refl eq_refl)
             "" (VStr "Twenty days.") 42%Z).
    reflexivity.
  - apply (proj2 (query_chatgpt_rate_limit pretty (Some "sk-test")
                    (rate_limited_server 3) sample_unbound_error
                    "How many days of leave do I get?" "" "sk-test"
                    sample_world eq_refl ltac:(discriminate) eq_refl eq_refl)).
    reflexivity.
Defined.

Lemma document_id_deterministic_witness :
  generate_document_id sample_md5 (fun _ => "handbook")
    (page_content loaded_chunk) "handbook.txt"
  = generate_document_id sample_md5 (fun _ => "handbook")
      (page_content bare_chunk) "handbook.txt"
  /\ generate_document_id sample_md5 (fun _ => "handbook")
       (page_content loaded_chunk) "handbook.txt"
     = "handbook" ++ "_"
       ++ slice_to 8 (sample_md5 (page_content loaded_chunk))
  /\ (forall content,
        generate_document_id sample_md5 (fun _ => "handbook") content
          "handbook.txt"
        = generate_document_id sample_md5 (fun _ => "handbook")
            (page_content loaded_chunk) "handbook.txt"
        <-> slice_to 8 (sample_md5 content)
            = slice_to 8 (sample_md5 (page_content loaded_chunk)))
  /\ (forall filename',
        generate_document_id sample_md5 (fun _ => "handbook")
          (page_content loaded_chunk) filename'
        = generate_document_id sample_md5 (fun _ => "handbook")
            (page_content loaded_chunk) "handbook.txt"
        <-> "handbook" = "handbook")
  /\ (exists m1,
        fst (prepare_metadata pretty sample_md5 (fun _ => "handbook")
               loaded_chunk "handbook.txt" 0 sample_world)
        = Ok m1
        /\ (metadata loaded_chunk !! "document_id" = None ->
            m1 !! "document_id"
            = Some (VStr (generate_document_id sample_md5
                            (fun _ => "handbook")
                            (page_content loaded_chunk) "handbook.txt")))
        /\ (metadata loaded_chunk !! "document_id"
            = metadata bare_chunk !! "document_id" ->
            exists m2,
              fst (prepare_metadata pretty sample_md5 (fun _ => "handbook")
                     bare_chunk "handbook.txt" 4 stored_world)
              = Ok m2
              /\ m2 !! "document_id" = m1 !! "document_id")).
Proof.
  apply (document_id_deterministic pretty sample_md5 (fun _ => "handbook")
           loaded_chunk bare_chunk "handbook.txt" 0 4 sample_world
           stored_world).
  reflexivity.
Defined.

Lemma process_and_store_total_chunks_witness :
  exists r w',
    process_and_store pretty pretty sample_add_documents sample_md5
      (fun _ => "handbook.txt") (fun _ => ".txt") (fun _ => "handbook")
      sample_loader sample_splitter "uploads/handbook.txt" "hr" upload_world
    = (Ok r, w')
    /\ ing_success r = true
    /\ exists documents chunked_docs record document_ids,
         fst (extract_text (fun _ => ".txt") sample_loader
                "uploads/handbook.txt" upload_world)
         = Ok documents
         /\ sample_splitter documents = Ok chunked_docs
         /\ chunks_created r = Some (length chunked_docs)
         /\ record !! "total_chunks"
            = Some (VInt (Z.of_nat (length chunked_docs)))
         /\ record !! "document_ids" = Some (VList document_ids)
         /\ length document_ids = length chunked_docs
         /\ document_ids
            = map (recorded_id sample_md5 (fun _ => "handbook")
                     "handbook.txt") chunked_docs
         /\ (data_writable upload_world = true ->
             exists stored,
               documents_json w' = JArray (stored ++ [record])).
Proof.
  eexists _, _. split; [vm_compute; reflexivity|]. split; [reflexivity|].
  apply (process_and_store_total_chunks pretty pretty sample_add_documents
           sample_md5 (fun _ => "handbook.txt") (fun _ => ".txt")
           (fun _ => "handbook") sample_loader sample_splitter
           "uploads/handbook.txt" "hr" upload_world);
    [vm_compute; reflexivity | reflexivity].
Defined.

(** C7 on a failing input.  A batch of two uploads, the first with a
    [getbuffer()] that raises, the second sound.  The batch returns one
    result per upload, a failure and then a success; the copy of the second
    file is gone from [uploads/], but the file that [open] created for the
    first one is still there. *)
Theorem process_uploaded_files_leaves_copy :
  let run :=
    process_uploaded_files pretty pretty sample_add_documents sample_md5
      (fun _ => "handbook.txt") (fun _ => ".txt") (fun _ => "handbook")
      sample_loader sample_splitter (fun _ => true) (fun _ => Ok tt)
      (fun _ => Ok tt) [closed_upload; sound_upload] "general"
      sample_world in
  fs sample_world = ∅
  /\ map ing_success <$> returned run = Some [false; true]
  /\ fs (snd run) !! "uploads/handbook.txt" = None
  /\ fs (snd run) !! "uploads/notes.txt" = Some EmptyString.
Proof. vm_compute. repeat split; reflexivity. Qed.

(** * The further properties on sample runs *)

Lemma query_answer_logged_witness :
  exists r w' entry,
    query pretty pretty lower (ranked_store [handbook_chunk]) answering_llm
      "gpt-3.5-turbo" "How many days of leave do I get?" 5 None sample_world
    = (Ok r, w')
    /\ success r = true
    /\ answer r = strip "  Twenty days.  "
    /\ sources r = extract_citations [handbook_chunk]
    /\ timestamp r = pretty (clock sample_world)
    /\ queries_json w' = JArray ([] ++ [entry])
    /\ entry !! "question" = Some (VStr "How many days of leave do I get?")
    /\ entry !! "answer" = Some (VStr (strip "  Twenty days.  "))
    /\ entry !! "documents_retrieved"
       = Some (VInt (Z.of_nat (length [handbook_chunk])))
    /\ entry !! "category_filter" = Some (optional_str None)
    /\ entry !! "timestamp" = Some (VStr (pretty (clock sample_world + 2))).
Proof.
  apply (query_answer_logged pretty pretty lower (ranked_store [handbook_chunk])
           answering_llm "gpt-3.5-turbo" "How many days of leave do I get?"
           5 None sample_world [handbook_chunk] (Text "  Twenty days.  ")
           "  Twenty days.  " []); try reflexivity.
  discriminate.
Defined.

Lemma query_unanswered_not_logged_witness :
  exists r w',
    query pretty pretty lower (ranked_store []) answering_llm "gpt-3.5-turbo"
      "How many days of leave do I get?" 5 None sample_world
    = (Ok r, w')
    /\ success r = false
    /\ queries_json w' = queries_json sample_world
    /\ documents_json w' = documents_json sample_world
    /\ json_writes w' = json_writes sample_world.
Proof. apply query_unanswered_not_logged. reflexivity. Defined.

Lemma query_log_failure_swallowed_witness :
  exists r w',
    query pretty pretty lower (ranked_store [handbook_chunk]) answering_llm
      "gpt-3.5-turbo" "How many days of leave do I get?" 5 None
      object_log_world
    = (Ok r, w')
    /\ success r = true
    /\ answer r = strip "  Twenty days.  "
    /\ sources r = extract_citations [handbook_chunk]
    /\ queries_json w' = queries_json object_log_world.
Proof.
  apply (query_log_failure_swallowed pretty pretty lower
           (ranked_store [handbook_chunk]) answering_llm "gpt-3.5-turbo"
           "How many days of leave do I get?" 5 None object_log_world
           [handbook_chunk] (Text "  Twenty days.  ") "  Twenty days.  ");
    try reflexivity.
  - discriminate.
  - left. now exists ["version"].
Defined.

Lemma query_chatgpt_error_status_witness :
  exists w',
    query_chatgpt pretty (Some "sk-test") failing_server sample_unbound_error
      "How many days of leave do I get?" EmptyString sample_world
    = (Ok (Some (chat_failure
                   ("OpenAI API error: " ++ pretty 500 ++ " - "
                    ++ "Internal error"))), w')
    /\ http_posts w' = S (http_posts sample_world)
    /\ slept w' = slept sample_world
    /\ clock w' = clock sample_world.
Proof.
  apply (query_chatgpt_error_status pretty (Some "sk-test") failing_server
    sample_unbound_error
           "How many days of leave do I get?" EmptyString "sk-test"
           sample_world 500 "Internal error" (Raise "no body"));
    try reflexivity; discriminate.
Defined.

Lemma query_chatgpt_transport_errors_witness :
  (exists w',
     query_chatgpt pretty (Some "sk-test") (unreachable_server 1)
       sample_unbound_error "How many days of leave do I get?" EmptyString
       sample_world
     = (Ok (Some (chat_failure sample_unbound_error)), w')
     /\ http_posts w' = S (http_posts sample_world)
     /\ slept w' = slept sample_world)
  /\ (exists r w',
        query_chatgpt pretty (Some "sk-test") (limited_then_down true)
          sample_unbound_error "How many days of leave do I get?"
          EmptyString sample_world
        = (Ok (Some r), w')
        /\ chat_success r = true
        /\ chat_answer r = Some (VStr "Twenty days.")
        /\ http_posts w' = http_posts sample_world + 3
        /\ slept w' = (slept sample_world ++ [2; 2])%list)
  /\ (exists w',
        query_chatgpt pretty (Some "sk-test") (limited_then_down false)
          sample_unbound_error "How many days of leave do I get?"
          EmptyString sample_world
        = (Ok (Some (chat_failure
                       ("Request failed: " ++ "Connection timed out"))), w')
        /\ http_posts w' = http_posts sample_world + 3
        /\ slept w' = (slept sample_world ++ [2; 2])%list).
Proof.
  split; [|split].
  - apply (proj1 (query_chatgpt_transport_errors pretty (Some "sk-test")
                    (unreachable_server 1) sample_unbound_error
                    "How many days of leave do I get?" EmptyString "sk-test"
                    sample_world "Connection reset" eq_refl
                    ltac:(discriminate))).
    reflexivity.
  - apply (proj1 (proj2 (query_chatgpt_transport_errors pretty
                           (Some "sk-test") (limited_then_down true)
                           sample_unbound_error
                           "How many days of leave do I get?" EmptyString
                           "sk-test" sample_world "Connection reset" eq_refl
                           ltac:(discriminate))
                    eq_refl eq_refl)
             EmptyString (VStr "Twenty days.") 42%Z).
    reflexivity.
  - apply (proj2 (proj2 (query_chatgpt_transport_errors pretty
                           (Some "sk-test") (limited_then_down false)
                           sample_unbound_error
                           "How many days of leave do I get?" EmptyString
                           "sk-test" sample_world "Connection reset" eq_refl
                           ltac:(discriminate))
                    eq_refl eq_refl)
             "Connection timed out").
    reflexivity.
Defined.

Lemma create_then_get_document_witness :
  exists doc_id w' record,
    create_document pretty pretty new_upload two_records_world
    = (Ok doc_id, w')
    /\ documents_json w'
       = JArray ([handbook_record; expenses_record] ++ [record])
    /\ get_document doc_id w' = (Ok (Some record), w')
    /\ record !! "id" = Some (VStr doc_id)
    /\ (forall key,
          key <> "id" -> key <> "created_at" -> key <> "updated_at" ->
          record !! key = new_upload !! key).
Proof.
  apply (create_then_get_document pretty pretty new_upload
           [handbook_record; expenses_record] two_records_world);
    vm_compute; reflexivity.
Defined.

Lemma create_document_reuses_id_witness :
  exists doc_id w' record,
    create_document pretty pretty new_upload reused_id_world = (Ok doc_id, w')
    /\ documents_json w'
       = JArray (([]
                  ++ list_to_map [("id", VStr "doc_2_7");
                                  ("filename", VStr "expenses.pdf")] :: [])
                 ++ [record])
    /\ has_id doc_id record = true
    /\ get_document doc_id w'
       = (Ok (Some (list_to_map [("id", VStr "doc_2_7");
                                 ("filename", VStr "expenses.pdf")])), w').
Proof.
  apply (create_document_reuses_id pretty pretty new_upload [] []
           (list_to_map [("id", VStr "doc_2_7");
                         ("filename", VStr "expenses.pdf")])
           reused_id_world);
    vm_compute; reflexivity.
Defined.

Lemma create_document_unwritable_witness :
  exists w',
    create_document pretty pretty new_upload read_only_world
    = (Ok (new_document_id pretty 2 7), w')
    /\ documents_json w' = documents_json read_only_world
    /\ json_writes w' = json_writes read_only_world
    /\ (id_present (new_document_id pretty 2 7) read_only_world = false ->
        get_document (new_document_id pretty 2 7) w' = (Ok None, w')).
Proof.
  apply (create_document_unwritable pretty pretty new_upload
           [handbook_record; expenses_record] read_only_world);
    reflexivity.
Defined.

Lemma update_document_first_match_witness :
  exists w',
    update_document pretty "doc_2_20240102_090000"
      {[ "category" := VStr "finance" ]} two_records_world
    = (Ok true, w')
    /\ documents_json w'
       = (if data_writable two_records_world
          then JArray ([handbook_record]
                       ++ updated_record pretty
                            {[ "category" := VStr "finance" ]}
                            expenses_record (clock two_records_world) :: [])
          else documents_json two_records_world)
    /\ (forall key v,
          ({[ "category" := VStr "finance" ]} : dict) !! key = Some v ->
          key <> "updated_at" ->
          updated_record pretty {[ "category" := VStr "finance" ]}
            expenses_record (clock two_records_world) !! key = Some v)
    /\ (forall key,
          ({[ "category" := VStr "finance" ]} : dict) !! key = None ->
          key <> "updated_at" ->
          updated_record pretty {[ "category" := VStr "finance" ]}
            expenses_record (clock two_records_world) !! key
          = expenses_record !! key).
Proof.
  apply (update_document_first_match pretty "doc_2_20240102_090000"
           {[ "category" := VStr "finance" ]} [handbook_record] []
           expenses_record two_records_world);
    reflexivity.
Defined.

Lemma delete_document_first_match_witness :
  exists w',
    delete_document "doc_1_20240101_120000" two_records_world = (Ok true, w')
    /\ documents_json w'
       = (if data_writable two_records_world
          then JArray ([] ++ [expenses_record])
          else documents_json two_records_world)
    /\ (data_writable two_records_world = true ->
        existsb (has_id "doc_1_20240101_120000") [expenses_record] = false ->
        get_document "doc_1_20240101_120000" w' = (Ok None, w')).
Proof.
  apply (delete_document_first_match "doc_1_20240101_120000" []
           [expenses_record] handbook_record two_records_world);
    reflexivity.
Defined.

Lemma process_and_store_rejects_witness :
  process_and_store pretty pretty sample_add_documents sample_md5
    (fun _ => "missing.txt") (fun _ => ".txt") (fun _ => "missing")
    sample_loader sample_splitter "uploads/missing.txt" "hr" upload_world
  = (Ok (ingest_failure (fun _ => "missing.txt") "uploads/missing.txt"
           ("Invalid file: " ++ "uploads/missing.txt")), upload_world).
Proof.
  apply (process_and_store_rejects pretty pretty sample_add_documents
           sample_md5 (fun _ => "missing.txt") (fun _ => ".txt")
           (fun _ => "missing") sample_loader sample_splitter
           "uploads/missing.txt" "hr" upload_world).
  left. reflexivity.
Defined.

Lemma process_and_store_no_content_witness :
  process_and_store pretty pretty sample_add_documents sample_md5
    (fun _ => "handbook.txt") (fun _ => ".TXT") (fun _ => "handbook")
    empty_loader sample_splitter "uploads/handbook.txt" "hr" upload_world
  = (Ok (ingest_failure (fun _ => "handbook.txt") "uploads/handbook.txt"
           "No content extracted from document"), upload_world).
Proof.
  apply (process_and_store_no_content pretty pretty sample_add_documents
           sample_md5 (fun _ => "handbook.txt") (fun _ => ".TXT")
           (fun _ => "handbook") empty_loader sample_splitter
           "uploads/handbook.txt" "hr" "Employees accrue 20 days."
           upload_world).
  - reflexivity.
  - right. right. left. reflexivity.
  - reflexivity.
Defined.

Lemma process_and_store_sends_chunks_witness :
  exists r w',
    process_and_store pretty pretty sample_add_documents sample_md5
      (fun _ => "handbook.txt") (fun _ => ".txt") (fun _ => "handbook")
      sample_loader sample_splitter "uploads/handbook.txt" "hr" upload_world
    = (Ok r, w')
    /\ ing_success r = true
    /\ exists documents chunked_docs processed_docs vector_ids,
         fst (extract_text (fun _ => ".txt") sample_loader
                "uploads/handbook.txt" upload_world)
         = Ok documents
         /\ sample_splitter documents = Ok chunked_docs
         /\ sample_add_documents processed_docs = Ok vector_ids
         /\ length processed_docs = length chunked_docs
         /\ forall j chunk,
              chunked_docs !! j = Some chunk ->
              exists doc,
                processed_docs !! j = Some doc
                /\ stored_as "handbook.txt" "hr" j chunk doc.
Proof.
  eexists _, _. split; [vm_compute; reflexivity|]. split; [reflexivity|].
  eapply (process_and_store_sends_chunks pretty pretty sample_add_documents
           sample_md5 (fun _ => "handbook.txt") (fun _ => ".txt")
           (fun _ => "handbook") sample_loader sample_splitter
           "uploads/handbook.txt" "hr" upload_world);
    [vm_compute; reflexivity | reflexivity].
Defined.


Lemma query_then_stats_witness :
  exists r w' stats,
    query pretty pretty lower (ranked_store [handbook_chunk]) answering_llm
      "gpt-3.5-turbo" "How many days of leave do I get?" 5 None sample_world
    = (Ok r, w')
    /\ get_query_stats w' = (Ok stats, w')
    /\ total_queries stats = length ([] : list dict) + 1
    /\ categories_searched stats = bump (optional_str None) [].
Proof.
  apply (query_then_stats pretty pretty lower (ranked_store [handbook_chunk])
           answering_llm "gpt-3.5-turbo" "How many days of leave do I get?"
           5 None sample_world [handbook_chunk] (Text "  Twenty days.  ")
           "  Twenty days.  " [] [] []); try reflexivity.
  discriminate.
Defined.

Lemma ingest_then_stats_witness :
  exists r w',
    process_and_store pretty pretty sample_add_documents sample_md5
      (fun _ => "handbook.txt") (fun _ => ".txt") (fun _ => "handbook")
      sample_loader sample_splitter "uploads/handbook.txt" "hr" upload_world
    = (Ok r, w')
    /\ ing_success r = true
    /\ exists n stats,
         chunks_created r = Some n
         /\ get_document_stats w' = (Ok stats, w')
         /\ total_documents stats = length ([] : list dict) + 1
         /\ total_chunks stats = (0 + Z.of_nat n)%Z
         /\ categories stats = bump (VStr "hr") []
         /\ file_types stats = bump (VStr (lower ".txt")) [].
Proof.
  eexists _, _. split; [vm_compute; reflexivity|]. split; [reflexivity|].
  apply (ingest_then_stats pretty pretty sample_add_documents sample_md5
           (fun _ => "handbook.txt") (fun _ => ".txt") (fun _ => "handbook")
           sample_loader sample_splitter "uploads/handbook.txt" "hr"
           upload_world _ _ [] 0%Z [] []);
    vm_compute; reflexivity.
Defined.

Lemma query_all_sources_rate_limit_asks_copilot_witness :
  exists second search w',
    query_all_sources pretty (Some "sk-test") (rate_limited_server 4)
      sample_unbound_error
      (Some "g-key") (Some "cx-1") sample_search
      "How many days of leave do I get?" EmptyString sample_world
    = (Ok [ChatSource (chat_failure
                         "Rate limit exceeded. Try again in a few minutes.");
           ChatSource second; SearchSource search], w')
    /\ chat_source second = "GitHub Copilot"
    /\ http_posts w' = http_posts sample_world + 4
    /\ (status_of (rate_limited_server 4 (http_posts sample_world + 3)
                     "sk-test"
                     (copilot_prompt "How many days of leave do I get?"
                                     EmptyString)) = Some 429 ->
        second = copilot_failure "Copilot simulation error: 429").
Proof.
  apply (query_all_sources_rate_limit_asks_copilot pretty (Some "sk-test")
           (rate_limited_server 4)
             sample_unbound_error (Some "g-key") (Some "cx-1") sample_search
           "How many days of leave do I get?" EmptyString "sk-test"
           sample_world);
    try reflexivity; discriminate.
Defined.

Lemma query_all_sources_demo_mode_witness :
  exists search w',
    query_all_sources pretty (Some "sk-test") gateway_server
      sample_unbound_error
      (Some "g-key") (Some "cx-1") sample_search
      "How many days of leave do I get?" EmptyString sample_world
    = (Ok [ChatSource (chat_failure
                         ("OpenAI API error: " ++ pretty 503 ++ " - "
                          ++ "upstream answered 429 Too Many Requests"));
           ChatSource (copilot_demo "How many days of leave do I get?"
                                    (pretty (clock sample_world)));
           SearchSource search], w')
    /\ chat_success (copilot_demo "How many days of leave do I get?"
                                  (pretty (clock sample_world))) = true
    /\ http_posts w' = S (http_posts sample_world).
Proof.
  apply (query_all_sources_demo_mode pretty (Some "sk-test") gateway_server
    sample_unbound_error
           (Some "g-key") (Some "cx-1") sample_search
           "How many days of leave do I get?" EmptyString "sk-test"
           sample_world 503 "upstream answered 429 Too Many Requests"
           (Raise "no body"));
    try reflexivity; discriminate.
Defined.

Lemma all_sources_response_always_success_witness :
  exists response w',
    (results <~ query_all_sources pretty None failing_server
      sample_unbound_error None
                  (Some "cx-1") sample_search
                  "How many days of leave do I get?" EmptyString ;
     format_multi_source_response pretty
       "How many days of leave do I get?" results None) sample_world
    = (Ok response, w')
    /\ multi_success response = true
    /\ total_sources response = 3
    /\ multi_sources response = []
    /\ http_posts w' = http_posts sample_world
    /\ multi_answer response
       = "# " ++ star_mark
         ++ " Comprehensive Answer: How many days of leave do I get?\n\n"
         ++ "## " ++ warning_mark ++ " **Unavailable Sources:**\n"
         ++ bullet_mark ++ " ChatGPT: OpenAI API key not configured\n"
         ++ bullet_mark ++ " GitHub Copilot: OpenAI API key not configured\n"
         ++ bullet_mark
         ++ " Google Search: Google API credentials not configured\n".
Proof.
  destruct (all_sources_response_always_success pretty None failing_server
    sample_unbound_error
              None (Some "cx-1") sample_search
              "How many days of leave do I get?" EmptyString None
              sample_world)
    as (response & w' & Hrun & Hsuccess & Htotal & _ & _ & Hunconfigured).
  destruct (Hunconfigured eq_refl (or_introl eq_refl))
    as (Hsources & Hposts & Hanswer).
  exists response, w'. repeat (split; [assumption|]).
  exact (Hanswer eq_refl).
Defined.

Lemma get_model_defaults_witness :
  get_model Z sample_float sample_client claude_env
  = (Ok {| instance_class := ClaudeModel;
           instance_api_key := "sk-ant-test";
           instance_model_name := "claude-2";
           instance_temperature := 0%Z |}, claude_env).
Proof.
  apply (get_model_defaults Z sample_float sample_client ClaudeModel
           claude_env "sk-ant-test" 0%Z);
    try (vm_compute; reflexivity); discriminate.
Defined.

Lemma get_model_result_witness :
  configured_provider claude_env = "claude"
  /\ claude_env !! "ANTHROPIC_API_KEY" = Some "sk-ant-test"
  /\ "sk-ant-test" <> EmptyString
  /\ configured_temperature Z sample_float claude_env = Ok 0%Z
  /\ (exists provider_config,
        In ("claude", provider_config) MODEL_CONFIGS
        /\ In ("claude-2", ClaudeModel) provider_config)
  /\ or_default (claude_env !! "MODEL_NAME") "claude-2" = Some "claude-2"
  /\ claude_env = claude_env.
Proof.
  apply (get_model_result Z sample_float sample_client claude_env claude_env
           {| instance_class := ClaudeModel;
              instance_api_key := "sk-ant-test";
              instance_model_name := "claude-2";
              instance_temperature := 0%Z |}).
  vm_compute. reflexivity.
Defined.

Lemma get_model_errors_witness :
  mistral_env = mistral_env
  /\ (configured_temperature Z sample_float mistral_env
      = Raise "API key not found for provider: mistral"
      \/ ("API key not found for provider: mistral"
          = "API key not found for provider: "
            ++ configured_provider mistral_env
          /\ forall c, configured_provider mistral_env = provider_name c ->
                       truthy (mistral_env !! key_variable c) = false)
      \/ (exists c m,
            configured_provider mistral_env = provider_name c
            /\ or_default (mistral_env !! "MODEL_NAME") (default_model_name c)
               = Some m
            /\ "API key not found for provider: mistral"
               = "Unsupported model " ++ m ++ " for provider "
                 ++ provider_name c)
      \/ (exists c m t k,
            configured_provider mistral_env = provider_name c
            /\ mistral_env !! key_variable c = Some k
            /\ sample_client c m t k
               = Raise "API key not found for provider: mistral")).
Proof.
  apply (get_model_errors Z sample_float sample_client mistral_env
           mistral_env "API key not found for provider: mistral").
  vm_compute. reflexivity.
Defined.
